(* ===== verification/_CoqProject ===== *)
-Q . S2P
Prelude.v
Viewport.v
GL.v
Input.v
Loop.v
LoopTree.v
Float64.v
Process.v
Host.v
Shaders.v
Init.v
Main.v
