(* ===== verification/Prelude.v ===== *)
(** * A verification development of the Mandelbrot viewer (src/main.cpp)

    The program is one C++ file, [src/main.cpp].  It opens a GLFW window,
    compiles two GLSL shaders and draws a full-screen quad every frame.
    The fragment shader, which iterates the Mandelbrot map, is not part of
    the repository sources.  The CPU side keeps a "camera" in process
    globals.  Five GLFW callbacks change it; [Draw] uploads it as uniforms
    once per frame; [main] alternates [Draw] and [glfwPollEvents] until
    the window is asked to close.

    ** Files, in dependency order, and what each models

    - [Prelude.v] (this file): the class [Double] of the [double]
      operations the source uses:
      - [+ - * /] and decimal literals;
      - the [int] to [double] conversion;
      - [pow] at an integral exponent;
      - the [double] to [int] conversion of [glViewport];
      - the [double] to [GLfloat] narrowing of [glUniform1f].
      Every model is generic in it.  Its instance [Q_double] is exact
      rational arithmetic.  The notations of [double_scope] make the
      models read like the C expressions.  This file also holds the
      shared Ltac ([qsimpl], [pow_atoms]), the lemmas on the zoom base
      [0.95] and on C [int] bit operations ([bit] is [1 << b]), the
      checker [all_between] that decides a property of every integer of
      a range by evaluation, and the hint databases [mandel] and
      [mandel_bits].
    - [Viewport.v], Module [Viewport]: the six camera globals
      [resx resy dx dy minx miny] (main.cpp lines 12-18) as the record
      [Viewport], with [initial_viewport].  The state changes:
      - [resize]: [windowsize_callback] without its [glViewport] call
        (lines 277-283);
      - [pan]: the [FIRST_BUTTON] branch of [mousepos_callback]
        (lines 320-322);
      - [zoom]: [mousewheel_callback] (lines 337-344).
      Rationals compare by [Qeq], so cameras compare by the fieldwise
      equivalence [vp_eq] ([≡v]).  Its [Proper] instances allow setoid
      rewriting through the operations.
    - [GL.v], Module [GL]: the part of the GL context the program touches:
      - uniform locations ([glGetUniformLocation]);
      - the uniform store ([glUniform1f], [glUniform1i]);
      - the back buffer ([glClear], [glDrawArrays]);
      - the presented frames ([glfwSwapBuffers]);
      - the [glViewport] rectangle.
      [Draw] (lines 198-235) and [RTT] (lines 154-196) are translated call
      by call.  Their seven uniform stanzas are [upload_uniforms] over the
      ordered parameter set [frame_params].
    - [Input.v], Module [Input]: the record [App] of all mutable globals:
      - the camera;
      - [prevx prevy] (line 11), [clickedButtons] (line 20) and
        [drawMandelbrot] (line 24);
      - the GL context;
      - the GLFW window's close flag and cursor.
      The five callbacks are translated whole (lines 277-344).
      [dispatch] is what [glfwPollEvents] does with one event: GLFW
      records cursor moves and close requests, then calls the registered
      callback.  [poll] runs a batch of events.  The inductive [reachable]
      closes the initial globals under the events GLFW delivers
      ([event_ok]) and drawn frames.  [AbsInput]/[abs_step] is the spec's
      input machine, with the buttons as a [gset].
    - [Loop.v], Module [Loop]: [main_loop] is [main]'s
      [while (!glfwWindowShouldClose) { Draw(); glfwPollEvents(); }] after
      one [RTT()] (lines 138-143).  The list of polled event batches is its
      input and bounds the iterations.  When the list runs out before a
      close request, the result is [Waiting].
    - [LoopTree.v], Module [LoopTree]: the same loop as an interaction
      tree ([render_loop], an [ITree.iter] of [loop_body]) in which
      [glfwPollEvents] is the event [PollEvents], answered by the
      windowing system.  Runs that never end are part of it.  The handler
      [feed] answers the polls from a list of batches and then hands them
      on to the environment; through it the tree is compared with
      [main_loop].
    - [Float64.v], Module [Float64]: the instance [F64_double] of
      [Double] on Rocq's primitive binary64 floats (IEEE doubles,
      round-to-nearest), which runs the same models with the machine's
      rounding, and the int/double round trip of window sizes.  Its
      theorems over all states and all event sequences rest on the
      IEEE 754 specification of the primitive operations (the Standard
      Library's [FloatAxioms]); its Section [Events] shows once that a
      camera property kept by [resize], [zoom] and [pan] is kept by
      every poll.
    - [Process.v], Module [Process]: how the process ends ([ExitCode],
      [Crash]) and the state-and-exit monad [Proc] the start-up code is
      written in.  It uses stdpp's bind.  [runs] and [stops] state what a
      computation returns or how it ends.  [hoare P m Q E] is a program
      logic over it: from [P], [m] returns into [Q] or ends the process
      with a status in [E].  [hoare_step] chains its bind rule.
    - [Host.v], Module [Host]: the libraries' side of the start-up code,
      modelled from their documentation, as far as main.cpp's calls
      depend on it:
      - libc: files, [printf], [malloc] blocks of possibly uninitialised
        bytes, C strings;
      - GLFW and GLEW: initialisation, window hints, the window, the
        current context, the callback slots, the swap interval;
      - the GL object table: shaders, programs, vertex arrays, buffers.
      The machine's answers to the start-up calls are a [Platform].  The
      GLSL compiler and linker are the interface [GLSLDriver], because
      the shader sources are not in the repository.  Each GL call keeps
      the context current and never ends the process ([ctx] is its
      invariant; hint database [host_triples], tactic [inv_tac]).
    - [Shaders.v], Module [Shaders]: [readFile], [CompileShader] and
      [LoadShaders] (lines 38-110), call by call.
    - [Init.v], Module [Init]: [initGL] (lines 236-275), and
      [glfw_dispatch], GLFW's delivery of an event to the registered
      callback.
    - [Main.v], Module [Main]: [main] whole (lines 123-152).  It is made
      of:
      - [main_setup]: the vertex array, [LoadShaders], and the vertex
        buffer filled with [vertex_buffer_data] (lines 30-35);
      - the loop of [Loop.v], run on the linked program's uniforms
        ([context_gl]);
      - [main_cleanup] and [return 0].
      [draw_vertices] is the vertex fetch of the draw call.

    The components interact through these seams:
    - [Input.dispatch] is what [Loop] polls with.  Init.v proves it is
      GLFW's delivery through the callbacks [initGL] registers.
    - The program [LoadShaders] links gives the uniform locations GL.v's
      [Draw] uploads to.
    - [main_setup] leaves the context current; that is what every GL
      call of the loop and of the clean-up needs.

    ** What the theorems show

    - Camera, exact ([Viewport]):
      - [resize] keeps the world distance per pixel on both axes (C1).
      - A pan keeps the world point under the cursor (C2).
      - [zoom] fixes the view centre (C3) and only the centre column, not
        the cursor (C17).
      - [zoom] composes additively (C12), and shrinks for positive and
        grows for negative scroll (C13, C14).
    - Input ([Input]):
      - The callbacks refine the spec's set-based input machine (C4).
      - Invariants of every reachable state, by rule induction:
        [drawMandelbrot] is 0 or 1 (C7); [clickedButtons] lies in
        [[0, 256)] (C8); while dragging, the anchor is the cursor (C5).
        Hence a drag keeps the world point under the pointer (C6), and
        its moves add up to one pan (C11).
      - The scale ratio [dx/resx = dy/resy] survives every event
        sequence whose resizes are non-zero (C23).
      - Key repeats toggle the draw flag (C10).
    - Frames and loop ([GL], [Loop]):
      - [Draw] presents one frame in which each of the seven uniforms
        the program declares holds the value main.cpp uploads for it,
        named pair by pair, and every other uniform keeps its value
        (C18).
      - [main] stops at the first poll holding a close request, after
        [k+1] frames, and otherwise keeps drawing (C19).
      - As an interaction tree, the loop returns only with the close flag
        set, the draw flag 0 or 1 and a frame presented, whatever the
        polls deliver and however long they go on (C20, a loop invariant
        through [has_post_iter_strong]).
      - Interpreted with a list of batches, the tree returns what
        [main_loop] returns, or waits on the next poll in the state
        [main_loop] reports (the lemma [render_loop_feed], up to
        [eutt]).
    - Binary64 ([Float64]):
      - A zero-height resize (a minimised window) divides by zero: from
        any state, after a resize to height 0, whatever events follow,
        [dx] and [dy] are NaN, so the fractal is lost until restart
        (C9).
      - Thirteen thousand eight hundred and twenty-five scroll-out
        notches from the initial camera overflow [dx] and [dy] to
        infinity, one notch after they were still finite; from such a
        camera no event sequence ever makes them finite again (C16).
      - The zoom centre drifts by rounding; from the 683rd notch in, the
        zoom is anchored at the left edge, and from the 14491st it has
        no effect at all (C22).
      - At deep zoom, the [GLfloat] upload swallows a full-width drag
        (the lemma [window_drag_lost_in_upload]).
      - Every window size below 65536 survives [windowsize_callback]'s
        int to double to int round trip, so [glViewport] gets exactly
        [(0, 0, width, height)] (C21).
    - Start-up and shutdown ([Shaders], [Init], [Main]):
      - [initGL] exits with -1, -2 or -3 at the first failing step, and
        otherwise leaves the window, the context, the hints, the five
        callbacks and the swap interval set (C24).
      - [readFile]'s buffer reads back as the file up to its first NUL
        (C25, a round trip).
      - A missing shader file crashes the process at [fseek] (C26).
      - A failed compilation with an empty log prints an uninitialised
        buffer (C31).
      - [LoadShaders] returns a program linked exactly when both shaders
        compiled and the linker accepted them (C27).
      - When it is not linked, [main] still draws, with no uniform
        reaching the shader (C30).
      - The vertex buffer holds the four vertices the draw call reads
        (C29).
      - A close request leads to exit code 0 after the clean-up; the two
        shader source buffers are never freed (C28, liveness).
      - Whatever the machine, the files, the GLSL driver and the events,
        [main] ends only with [return 0], an [initGL] exit code, or one
        of the two crashes of the shader loader; no GL call runs without
        a context, [glShaderSource] always reads a C string and
        [glBufferData] never reads past the vertex data (C15, by the
        triples of Process.v and Host.v).

    ** Bounds and fuel

    [main_loop] consumes one batch of events per iteration.  Its theorems
    cover every finite input: they count the frames drawn before the
    close flag stops the loop, or show that it is still running when the
    input ends.  [main_program]'s liveness theorem is stated the same way:
    for every input whose [k]-th batch holds the first close request.
    [render_loop] needs no bound: [ITree.iter] may run
    forever, and its theorems are stated up to weak bisimulation
    ([eutt], [has_post]).
    The start-up code has no loop, so its runs need no fuel.  The
    int/double round trip is checked on the sizes [0..65535], above the
    viewport sizes GL implementations commonly accept
    ([GL_MAX_VIEWPORT_DIMS] of 16384 or 32768).  The binary64 zoom is
    run notch by notch up to the 14491st notch, where it reaches a fixed
    point; the statements for all later notches follow from that fixed
    point.  The scroll-out overflow is run the same way to notch 13825,
    the first at which [dx] and [dy] are infinite; what follows any
    event sequence is shown for all of them at once, from the IEEE
    rules for infinities and NaN.  Mouse
    buttons are GLFW's [0..GLFW_MOUSE_BUTTON_LAST = 7], which keeps
    [1 << button] and the mask inside a 32-bit [int].  Scroll offsets are
    integral (mouse-wheel notches).

    ** Not modelled

    - The fragment shader, which is not in the sources.  What the GLSL
      compiler and linker make of the sources is left open, as the
      interface [GLSLDriver].
    - The unused globals [PI] and [modifierMaps].
    - Fractional touchpad scroll offsets.
    - [glfwGetCursorPos] is read as the position of the last cursor
      event GLFW delivered.  On X11 and Win32 it queries the live
      pointer, which can run ahead of cursor events still pending in
      the same poll.
    - In [Float64], libm [pow] beyond exponents 0 and 1, and the
      exponent range of [GLfloat].
    - In the host:
      - [malloc] failure;
      - [glewExperimental] (a flag GLEW reads);
      - GL errors on invalid names;
      - the rendering itself.
      Deleted shaders and programs are only flagged: GL frees them when
      they are detached or no longer in use, which the program never
      sees before [glfwTerminate] destroys the context.  The default
      viewport is taken to be the window's size, which is true when the
      framebuffer has the window's size (no HiDPI scaling).

    ** Plan for the next steps

    - Bounds on how far binary64 drifts from the exact camera after [n]
      events, stated against [Q_double] through the [Double] interface.
      This needs an error analysis of the primitive floats that the
      Standard Library does not provide.
    - The whole of [main] as one interaction tree, the start-up calls as
      events beside [PollEvents], so that the host model of Host.v
      becomes one handler among others. *)

From Stdlib Require Import QArith Qpower Lqa ZArith Lia.

(** ** Double arithmetic as the source uses it *)

Class Double (D : Type) := {
  dadd : D -> D -> D;
  dsub : D -> D -> D;
  dmul : D -> D -> D;
  ddiv : D -> D -> D;
  (** a decimal literal of the source, e.g. [0.95] or [-2.5] *)
  dlit : Q -> D;
  (** the implicit [int] to [double] conversion *)
  dof_int : Z -> D;
  (** [pow(b, e)] of <math.h> at an integral exponent [e] *)
  dpow : D -> Z -> D;
  (** the implicit [double] to [int] conversion (truncation toward 0) *)
  dtrunc : D -> Z;
  (** the [double] to [GLfloat] narrowing of [glUniform1f] *)
  dto_float : D -> D
}.

Declare Scope double_scope.
Delimit Scope double_scope with D.
Notation "x + y" := (dadd x y) : double_scope.
Notation "x - y" := (dsub x y) : double_scope.
Notation "x * y" := (dmul x y) : double_scope.
Notation "x / y" := (ddiv x y) : double_scope.

(** The exact reading: doubles are rationals, no rounding. *)
#[export] Instance Q_double : Double Q := {
  dadd := Qplus;
  dsub := Qminus;
  dmul := Qmult;
  ddiv := Qdiv;
  dlit q := q;
  dof_int := inject_Z;
  dpow := Qpower;
  dtrunc q := Z.quot (Qnum q) (Zpos (Qden q));
  dto_float q := q
}.

(** Unfold the class operations at the exact instance. *)
Ltac qsimpl :=
  cbn [dadd dsub dmul ddiv dlit dof_int dpow dtrunc dto_float Q_double] in *.

Create HintDb mandel.

(** Name every power [q ^ n] of the goal, so that [ring] and [field] see
    it as an atom (their Q theory only knows constant exponents). *)
Ltac pow_atoms :=
  repeat match goal with
         | |- context [Qpower ?q ?n] =>
             let z := fresh "z" in set (z := Qpower q n) in *
         end.
Create Rewrite HintDb mandel_bits.

(** ** Shared lemmas on rationals *)

Open Scope Q_scope.

(** The zoom base of [mousewheel_callback]. *)
Definition zoom_base : Q := 95 # 100.

Lemma zoom_base_pos : 0 < zoom_base.
Proof. reflexivity. Qed.

Lemma zoom_base_nonzero : ~ zoom_base == 0.
Proof. discriminate. Qed.

Lemma zoom_pow_pos (n : Z) : 0 < zoom_base ^ n.
Proof. apply Qpower_0_lt, zoom_base_pos. Qed.

Lemma zoom_pow_nonzero (n : Z) : ~ zoom_base ^ n == 0.
Proof. pose proof (zoom_pow_pos n). intros E. rewrite E in H. discriminate. Qed.

(** [0.95^n = (20/19)^(-n)]: the base below 1 is read through its inverse. *)
Lemma zoom_pow_inv (n : Z) : zoom_base ^ n == (100 # 95) ^ (- n).
Proof.
  rewrite Qpower_opp, <- Qinv_power. reflexivity.
Qed.

Lemma zoom_pow_lt_1 (n : Z) : (0 < n)%Z -> zoom_base ^ n < 1.
Proof.
  intros Hn. rewrite zoom_pow_inv.
  change 1 with ((100 # 95) ^ 0).
  apply Qpower_lt_compat_l; [lia | reflexivity].
Qed.

Lemma zoom_pow_gt_1 (n : Z) : (n < 0)%Z -> 1 < zoom_base ^ n.
Proof.
  intros Hn. rewrite zoom_pow_inv.
  apply Qpower_1_lt; [reflexivity | lia].
Qed.

Lemma zoom_pow_add (a b : Z) : zoom_base ^ (a + b) == zoom_base ^ a * zoom_base ^ b.
Proof. apply Qpower_plus, zoom_base_nonzero. Qed.

Lemma inject_Z_nonzero (z : Z) : z <> 0%Z -> ~ inject_Z z == 0.
Proof. intros Hz E. apply Hz. unfold Qeq in E. cbn in E. lia. Qed.

(** A product of three factors, the first two non-zero, is zero exactly
    when the third is. *)
Lemma Qprod3_zero (a b c : Q) : ~ a == 0 -> ~ b == 0 -> (a * b * c == 0 <-> c == 0).
Proof.
  intros Ha Hb. split; intros E.
  - apply Qmult_integral in E as [E | E]; [| exact E].
    apply Qmult_integral in E as [E | E]; contradiction.
  - rewrite E. ring.
Qed.

Lemma Qplus_eq_l (a p : Q) : a + p == a <-> p == 0.
Proof. lra. Qed.

Lemma Qinv_eq_0 (a : Q) : / a == 0 -> a == 0.
Proof. intros E. rewrite <- (Qinv_involutive a), E. reflexivity. Qed.

#[export] Hint Resolve inject_Z_nonzero zoom_base_pos zoom_pow_pos zoom_pow_nonzero : mandel.

Close Scope Q_scope.

(** ** Shared lemmas on C [int] bit operations *)

Open Scope Z_scope.

(** A C [int] is 32 bits wide. *)
Definition int_min : Z := - 2 ^ 31.
Definition int_max : Z := 2 ^ 31 - 1.
Definition in_int (z : Z) : bool := (int_min <=? z) && (z <=? int_max).

(** [1 << b] *)
Definition bit (b : Z) : Z := Z.shiftl 1 b.

Lemma testbit_bit (b i : Z) : 0 <= b -> Z.testbit (bit b) i = (b =? i).
Proof. intros Hb. unfold bit. rewrite Z.shiftl_1_l. apply Z.pow2_bits_eqb, Hb. Qed.

Lemma testbit_set (m b i : Z) :
  0 <= b -> Z.testbit (Z.lor m (bit b)) i = Z.testbit m i || (b =? i).
Proof. intros Hb. rewrite Z.lor_spec, testbit_bit by exact Hb. reflexivity. Qed.

Lemma testbit_clear (m b i : Z) :
  0 <= b -> 0 <= i -> Z.testbit (Z.land m (Z.lnot (bit b))) i = Z.testbit m i && negb (b =? i).
Proof.
  intros Hb Hi. rewrite Z.land_spec, Z.lnot_spec, testbit_bit by assumption. reflexivity.
Qed.

(** A value with no bit set at or above [n] lies in [[0, 2^n)]. *)
Lemma low_bits_range (n m : Z) :
  0 <= n -> (forall i, n <= i -> Z.testbit m i = false) -> 0 <= m < 2 ^ n.
Proof.
  intros Hn Hhi.
  assert (E : Z.land m (Z.ones n) = m).
  { apply Z.bits_inj'. intros i Hi. rewrite Z.land_spec.
    destruct (Z.lt_ge_cases i n) as [Hlt | Hge].
    - rewrite Z.ones_spec_low by lia. apply andb_true_r.
    - rewrite Hhi by exact Hge. apply andb_false_l. }
  rewrite Z.land_ones in E by exact Hn. rewrite <- E.
  apply Z.mod_pos_bound, Z.pow_pos_nonneg; lia.
Qed.

(** [f] checked on the [n] integers from [lo]: a property of every value
    of a small range, decided by evaluation. *)
Fixpoint all_from (f : Z -> bool) (lo : Z) (n : nat) : bool :=
  match n with
  | O => true
  | S n' => f lo && all_from f (Z.succ lo) n'
  end.

Lemma all_from_spec f lo n z :
  all_from f lo n = true -> lo <= z < lo + Z.of_nat n -> f z = true.
Proof.
  revert lo. induction n as [|n IH]; intros lo; cbn [all_from]; [lia|].
  intros [Hf Hr]%andb_prop Hz. destruct (Z.eq_dec z lo) as [->|]; [exact Hf|].
  apply (IH (Z.succ lo)); [exact Hr | lia].
Qed.

(** [f] checked on [[lo, hi)]. *)
Definition all_between (f : Z -> bool) (lo hi : Z) : bool := all_from f lo (Z.to_nat (hi - lo)).

Lemma all_between_spec f lo hi z : all_between f lo hi = true -> lo <= z < hi -> f z = true.
Proof. intros C Hz. apply (all_from_spec f lo _ z C). lia. Qed.

#[export] Hint Rewrite testbit_set testbit_clear using lia : mandel_bits.

Close Scope Z_scope.
