(* ===== verification/Viewport.v ===== *)
(** * The camera globals of main.cpp and the three operations that move them

    [Viewport] holds the six [double] globals of main.cpp (lines 12-18).
    Their initial values are [initial_viewport].  The state changes are:
    - [resize], made by [windowsize_callback] (lines 277-286);
    - [pan], made by the [FIRST_BUTTON] branch of [mousepos_callback]
      (lines 320-322);
    - [zoom], made by [mousewheel_callback] (lines 337-344).
    The definitions are generic in the [Double] arithmetic.  The
    theorems are stated in the exact instance, up to the fieldwise
    equivalence [vp_eq]. *)

From Stdlib Require Import QArith Qpower Lqa Psatz ZArith Lia Setoid Morphisms.
From S2P Require Import Prelude.

Module Viewport.

Section Ops.
Context {D : Type} `{Double D}.
Local Open Scope double_scope.

(** The camera: [minx miny] is the world point of the lower-left pixel,
    [dx dy] the world extent of the window, [resx resy] its size in pixels. *)
Record Viewport := mkViewport {
  resx : D;
  resy : D;
  dx : D;
  dy : D;
  minx : D;
  miny : D
}.

(** The initialisers of the globals:
    [resx = 1600, resy = 900; dy = 2.0; dx = dy*resx/float(resy);
     minx = -2.5; miny = -1.0]. *)
Definition initial_viewport : Viewport :=
  let resx0 := dof_int 1600 in
  let resy0 := dof_int 900 in
  let dy0 := dlit 2 in
  {| resx := resx0;
     resy := resy0;
     dy := dy0;
     dx := dy0 * resx0 / dto_float resy0;
     minx := dlit (-5 # 2);
     miny := dlit (-1) |}.

(** [windowsize_callback] without its [glViewport] call:
    the world distance per pixel is read from the height before the
    resolution changes. *)
Definition resize (width height : Z) (v : Viewport) : Viewport :=
  let distance_per_pixel := dy v / resy v in
  let resx' := dof_int width in
  let resy' := dof_int height in
  {| resx := resx';
     resy := resy';
     dx := distance_per_pixel * resx';
     dy := distance_per_pixel * resy';
     minx := minx v;
     miny := miny v |}.

(** The two assignments of the [FIRST_BUTTON] branch of [mousepos_callback]:
    [minx -= (xpos-prevx)*dx/resx; miny += (ypos-prevy)*dy/resy]. *)
Definition pan (xpos ypos prevx prevy : D) (v : Viewport) : Viewport :=
  {| resx := resx v;
     resy := resy v;
     dx := dx v;
     dy := dy v;
     minx := minx v - (xpos - prevx) * dx v / resx v;
     miny := miny v + (ypos - prevy) * dy v / resy v |}.

(** [mousewheel_callback]: [zoomFactor = pow(0.95, yoffset)]; [minx] and
    [miny] move by half the change of the extent, read before [dx] and
    [dy] are scaled. *)
Definition zoom (yoffset : Z) (v : Viewport) : Viewport :=
  let zoomFactor := dpow (dlit (95 # 100)) yoffset in
  {| resx := resx v;
     resy := resy v;
     minx := minx v + dx v * (dlit 1 - zoomFactor) / dlit 2;
     miny := miny v + dy v * (dlit 1 - zoomFactor) / dlit 2;
     dx := dx v * zoomFactor;
     dy := dy v * zoomFactor |}.

(** Screen to world, as the spec describes the uniforms: pixel columns
    grow with world x from [minx]; pixel rows (GLFW cursor coordinates)
    grow downward while world y grows upward from [miny]. *)
Definition world_x (v : Viewport) (px : D) : D := minx v + px * dx v / resx v.
Definition world_y (v : Viewport) (py : D) : D := miny v + (resy v - py) * dy v / resy v.

(** The centre of the visible rectangle. *)
Definition center_x (v : Viewport) : D := minx v + dx v / dlit 2.
Definition center_y (v : Viewport) : D := miny v + dy v / dlit 2.

End Ops.

Arguments Viewport D : clear implicits.

(** ** The exact reading *)

Local Open Scope Q_scope.

Definition vp_eq (v w : Viewport Q) : Prop :=
  resx v == resx w /\ resy v == resy w /\ dx v == dx w /\
  dy v == dy w /\ minx v == minx w /\ miny v == miny w.

Infix "≡v" := vp_eq (at level 70).

(** The per-pixel scale is the same on both axes. *)
Definition uniform_scale (v : Viewport Q) : Prop := dx v / resx v == dy v / resy v.

#[export] Instance vp_eq_equiv : Equivalence vp_eq.
Proof.
  split.
  - intros v. repeat split; reflexivity.
  - intros v w (?&?&?&?&?&?). repeat split; symmetry; assumption.
  - intros u v w (?&?&?&?&?&?) (?&?&?&?&?&?).
    repeat split; etransitivity; eassumption.
Qed.

(** Split a goal [v ≡v w] on concrete records into its six equations and
    unfold the exact arithmetic. *)
Ltac vp_split :=
  repeat match goal with
         | H : _ ≡v _ |- _ => destruct H as (?&?&?&?&?&?)
         end;
  unfold vp_eq; cbn [resx resy dx dy minx miny resize pan zoom] in *;
  qsimpl; repeat match goal with |- _ /\ _ => split end.

(** Close a congruence goal by rewriting with the [Qeq] hypotheses. *)
Ltac Qeq_congr :=
  repeat match goal with
         | H : ?a == _ |- context [?a] => rewrite H
         end; reflexivity.

#[export] Instance resize_proper (w h : Z) : Proper (vp_eq ==> vp_eq) (resize w h).
Proof. intros v v' E. unfold resize. vp_split; Qeq_congr. Qed.

#[export] Instance pan_proper :
  Proper (Qeq ==> Qeq ==> Qeq ==> Qeq ==> vp_eq ==> vp_eq) pan.
Proof. intros x x' Ex y y' Ey px px' Epx py py' Epy v v' E. unfold pan. vp_split; Qeq_congr. Qed.

#[export] Instance zoom_proper (s : Z) : Proper (vp_eq ==> vp_eq) (zoom s).
Proof. intros v v' E. unfold zoom. vp_split; Qeq_congr. Qed.




(** Unfold the operations on a concrete record into exact arithmetic. *)
Ltac vp_unfold :=
  unfold world_x, world_y, center_x, center_y, uniform_scale in *;
  cbn [resx resy dx dy minx miny resize pan zoom initial_viewport] in *; qsimpl.

(** ** The initial camera *)

(** The initial camera has the same scale on both axes
    ([dx/resx = dy/resy = 2/900]), and it spans x from -2.5 to 19/18, not
    from -2.0 to 0.5 as the comment on [minx] says. *)
Theorem initial_viewport_spans :
  uniform_scale initial_viewport /\ dx initial_viewport / resx initial_viewport == 2 # 900 /\
  minx initial_viewport == -5 # 2 /\ minx initial_viewport + dx initial_viewport == 19 # 18.
Proof. vm_compute. repeat split; reflexivity. Qed.

(** ** Resize *)

(** C1: [windowsize_callback] keeps the world distance per pixel: for a
    window of non-zero size, both [dx/resx] and [dy/resy] afterwards equal
    [dy/resy] before, so the fractal is not stretched. *)
Theorem resize_keeps_pixel_scale (w h : Z) (v : Viewport Q) :
  w <> 0%Z -> h <> 0%Z ->
  dx (resize w h v) / resx (resize w h v) == dy v / resy v /\
  dy (resize w h v) / resy (resize w h v) == dy v / resy v.
Proof. intros Hw Hh. vp_unfold. split; apply Qdiv_mult_l; auto with mandel. Qed.

Lemma resize_uniform (w h : Z) (v : Viewport Q) :
  w <> 0%Z -> h <> 0%Z -> uniform_scale (resize w h v).
Proof. intros Hw Hh. vp_unfold. rewrite !Qdiv_mult_l by auto with mandel. reflexivity. Qed.

(** The spec's scenario: from the initial camera, resizing to 800x450
    halves [dx] and [dy] and keeps [dx/resx]. *)
Theorem resize_scenario :
  dx (resize 800 450 initial_viewport) == dx initial_viewport / 2 /\
  dy (resize 800 450 initial_viewport) == dy initial_viewport / 2 /\
  dx (resize 800 450 initial_viewport) / resx (resize 800 450 initial_viewport)
    == dx initial_viewport / resx initial_viewport.
Proof. vm_compute. repeat split; reflexivity. Qed.

(** ** Pan *)

Lemma pan_world_x (x y px py : Q) (v : Viewport Q) :
  world_x (pan x y px py v) x == world_x v px.
Proof. vp_unfold. unfold Qdiv. ring. Qed.

Lemma pan_world_y (x y px py : Q) (v : Viewport Q) :
  world_y (pan x y px py v) y == world_y v py.
Proof. vp_unfold. unfold Qdiv. ring. Qed.

(** C2: dragging keeps the world point under the cursor: after the pan
    from [(px,py)] to [(x,y)], the pixel [(x,y)] shows the world point
    that [(px,py)] showed before. *)
Theorem pan_anchors_cursor (x y px py : Q) (v : Viewport Q) :
  world_x (pan x y px py v) x == world_x v px /\
  world_y (pan x y px py v) y == world_y v py.
Proof. split; [apply pan_world_x | apply pan_world_y]. Qed.

(** Two consecutive moves of a drag add up to one move from the first
    position to the last. *)
Lemma pan_compose (x0 y0 x1 y1 x2 y2 : Q) (v : Viewport Q) :
  pan x2 y2 x1 y1 (pan x1 y1 x0 y0 v) ≡v pan x2 y2 x0 y0 v.
Proof. unfold pan. vp_split; try reflexivity; unfold Qdiv; ring. Qed.

Lemma pan_uniform (x y px py : Q) (v : Viewport Q) :
  uniform_scale v -> uniform_scale (pan x y px py v).
Proof. vp_unfold. trivial. Qed.

(** ** Zoom *)

(** C3: [mousewheel_callback] keeps the centre of the view
    [(minx+dx/2, miny+dy/2)] fixed, whatever the scroll amount. *)
Theorem zoom_fixes_center (s : Z) (v : Viewport Q) :
  center_x (zoom s v) == center_x v /\ center_y (zoom s v) == center_y v.
Proof. vp_unfold. pow_atoms. split; unfold Qdiv; ring. Qed.

(** A scroll of 0 leaves the camera unchanged ([0.95^0 = 1]). *)
Theorem zoom_zero_noop (v : Viewport Q) : zoom 0 v ≡v v.
Proof. unfold zoom. vp_split; try reflexivity; rewrite Qpower_0_r; unfold Qdiv; ring. Qed.

(** C12: two scrolls compose into one whose amount is the sum:
    [zoom a (zoom b v) = zoom (a+b) v]. *)
Theorem zoom_compose (a b : Z) (v : Viewport Q) : zoom a (zoom b v) ≡v zoom (a + b) v.
Proof.
  unfold zoom. vp_split; try reflexivity; change (95 # 100) with zoom_base;
    rewrite Z.add_comm, zoom_pow_add; pow_atoms; unfold Qdiv; ring.
Qed.

(** C13: scrolling away from the viewer ([yoffset > 0]) strictly shrinks a
    non-degenerate view on both axes and keeps it non-degenerate. *)
Theorem zoom_in_shrinks (s : Z) (v : Viewport Q) :
  (0 < s)%Z -> 0 < dx v -> 0 < dy v ->
  0 < dx (zoom s v) < dx v /\ 0 < dy (zoom s v) < dy v.
Proof.
  intros Hs Hx Hy. vp_unfold.
  pose proof (zoom_pow_lt_1 s Hs). pose proof (zoom_pow_pos s).
  unfold zoom_base in *. repeat split; nra.
Qed.

(** C14: scrolling toward the viewer ([yoffset < 0]) strictly grows the view
    on both axes. *)
Theorem zoom_out_grows (s : Z) (v : Viewport Q) :
  (s < 0)%Z -> 0 < dx v -> 0 < dy v ->
  dx v < dx (zoom s v) /\ dy v < dy (zoom s v).
Proof.
  intros Hs Hx Hy. vp_unfold.
  pose proof (zoom_pow_gt_1 s Hs). unfold zoom_base in *. split; nra.
Qed.

Lemma zoom_uniform (s : Z) (v : Viewport Q) :
  uniform_scale v -> uniform_scale (zoom s v).
Proof.
  vp_unfold. intros E. unfold Qdiv in *.
  pow_atoms. rewrite <- Qmult_assoc, (Qmult_comm z), Qmult_assoc, E. ring.
Qed.

(** One notch of the wheel: [dx] becomes [0.95*dx] and [minx] moves
    right by [0.025*dx] (the spec's scroll scenario, for every camera). *)
Theorem zoom_one_notch (v : Viewport Q) :
  dx (zoom 1 v) == (95 # 100) * dx v /\ minx (zoom 1 v) == minx v + dx v * (25 # 1000).
Proof. vp_unfold. split; [ring | field]. Qed.

(** The world point under pixel [px] moves under a zoom by the extent
    change times the pixel's offset from the centre column. *)
Lemma zoom_world_x_shift (s : Z) (v : Viewport Q) (px : Q) :
  ~ resx v == 0 ->
  world_x (zoom s v) px
    == world_x v px + dx v * (1 - zoom_base ^ s) * / resx v * (resx v / 2 - px).
Proof. intros Hr. vp_unfold. unfold zoom_base. pow_atoms. field. exact Hr. Qed.

Lemma zoom_world_y_shift (s : Z) (v : Viewport Q) (py : Q) :
  ~ resy v == 0 ->
  world_y (zoom s v) py
    == world_y v py + dy v * (1 - zoom_base ^ s) * / resy v * (py - resy v / 2).
Proof. intros Hr. vp_unfold. unfold zoom_base. pow_atoms. field. exact Hr. Qed.

Lemma zoom_pow_ne_1 (s : Z) : s <> 0%Z -> ~ zoom_base ^ s == 1.
Proof.
  intros Hs E. destruct (proj1 (Z.lt_gt_cases s 0) Hs) as [Hn | Hp].
  - apply zoom_pow_gt_1 in Hn. rewrite E in Hn. discriminate.
  - apply zoom_pow_lt_1 in Hp. rewrite E in Hp. discriminate.
Qed.

(** A point of one axis stays put under a zoom exactly when it is the
    middle of that axis. *)
Lemma shift_zero_iff (d z r p c : Q) :
  ~ d == 0 -> ~ z == 1 -> ~ r == 0 ->
  (p + d * (1 - z) * / r * c == p <-> c == 0).
Proof.
  intros Hd Hz Hr. rewrite Qplus_eq_l, Qprod3_zero; [reflexivity | |].
  - intros E. apply Qmult_integral in E as [E | E]; [tauto | apply Hz; lra].
  - intros E. apply Hr, Qinv_eq_0, E.
Qed.

(** C17: the zoom is anchored at the centre of the view, not at the
    cursor: for a non-zero scroll on a non-degenerate view, the world
    point under pixel column [px] stays put exactly when [px] is the
    middle column [resx/2], and the one under pixel row [py] exactly
    when [py] is the middle row [resy/2]. *)
Theorem zoom_fixes_only_center (s : Z) (v : Viewport Q) (px py : Q) :
  s <> 0%Z -> ~ dx v == 0 -> ~ resx v == 0 -> ~ dy v == 0 -> ~ resy v == 0 ->
  (world_x (zoom s v) px == world_x v px <-> px == resx v / 2) /\
  (world_y (zoom s v) py == world_y v py <-> py == resy v / 2).
Proof.
  intros Hs Hdx Hrx Hdy Hry. pose proof (zoom_pow_ne_1 s Hs) as Hz.
  rewrite zoom_world_x_shift, zoom_world_y_shift by assumption.
  rewrite !shift_zero_iff by assumption. split; lra.
Qed.


(** ** The theorems at concrete cameras *)

Lemma resize_keeps_pixel_scale_witness :
  dx (resize 800 450 initial_viewport) / resx (resize 800 450 initial_viewport)
    == dy initial_viewport / resy initial_viewport /\
  dy (resize 800 450 initial_viewport) / resy (resize 800 450 initial_viewport)
    == dy initial_viewport / resy initial_viewport.
Proof. apply resize_keeps_pixel_scale; lia. Defined.

Lemma zoom_in_shrinks_witness :
  0 < dx (zoom 3 initial_viewport) < dx initial_viewport /\
  0 < dy (zoom 3 initial_viewport) < dy initial_viewport.
Proof. apply zoom_in_shrinks; [lia | vm_compute; reflexivity | vm_compute; reflexivity]. Defined.

Lemma zoom_out_grows_witness :
  dx initial_viewport < dx (zoom (-2) initial_viewport) /\
  dy initial_viewport < dy (zoom (-2) initial_viewport).
Proof. apply zoom_out_grows; [lia | vm_compute; reflexivity | vm_compute; reflexivity]. Defined.

Lemma zoom_fixes_only_center_witness :
  (world_x (zoom 1 initial_viewport) 800 == world_x initial_viewport 800 <->
   800 == resx initial_viewport / 2) /\
  (world_y (zoom 1 initial_viewport) 100 == world_y initial_viewport 100 <->
   100 == resy initial_viewport / 2).
Proof.
  apply zoom_fixes_only_center;
    [lia | vm_compute; discriminate | vm_compute; discriminate
     | vm_compute; discriminate | vm_compute; discriminate].
Defined.

End Viewport.
