(* ===== verification/GL.v ===== *)
(** * The frame exporter: [Draw] and [RTT] against the GL context

    Only the part of the GL context that the core touches is modelled:
    - the uniform locations of the linked program ([glGetUniformLocation]);
    - the program's uniform store ([glUniform1f] and [glUniform1i]);
    - the back buffer, written by [glClear] and [glDrawArrays];
    - the presented frames ([glfwSwapBuffers]);
    - the [glViewport] rectangle.
    [Draw] (main.cpp lines 198-235) and [RTT] (lines 154-196) are
    translated call by call.  Their seven uniform stanzas are
    [upload_uniforms] run over [frame_params], the ordered parameter set
    of the spec.  A drawn frame is the snapshot of the uniform store that
    the shader reads when [glDrawArrays] runs. *)

From Stdlib Require Import QArith ZArith.
From stdpp Require Import base gmap strings list.
From S2P Require Import Prelude Viewport.
Import Viewport.

Module GL.

Section Ctx.
Context {D : Type} `{Double D}.

(** A uniform value as the two setter calls store it. *)
Inductive uniform_value :=
  | UFloat (f : D)   (** set by [glUniform1f] (a [GLfloat]) *)
  | UInt (i : Z).    (** set by [glUniform1i] *)

(** What the back buffer holds: cleared, or a quad drawn with the uniform
    store of that moment. *)
Inductive buffer :=
  | Cleared
  | Drawn (store : gmap Z uniform_value).

Record GLState := mkGL {
  locations : gmap string Z;        (** the linked program's active uniforms *)
  uniform_store : gmap Z uniform_value;
  back_buffer : buffer;
  presented : list buffer;           (** every [glfwSwapBuffers], oldest first *)
  gl_viewport : Z * Z * Z * Z
}.

Definition set_store (st : gmap Z uniform_value) (gl : GLState) : GLState :=
  mkGL (locations gl) st (back_buffer gl) (presented gl) (gl_viewport gl).

(** [glGetUniformLocation]: -1 for a name the program does not use. *)
Definition glGetUniformLocation (gl : GLState) (name : string) : Z :=
  match locations gl !! name with Some loc => loc | None => -1 end.

(** The parameters as the source passes them to the setter: a [double]
    for [glUniform1f], an [int] for [glUniform1i]. *)
Inductive param :=
  | PDouble (x : D)
  | PInt (i : Z).

(** [glUniform1f(loc, x)] stores [x] narrowed to [GLfloat];
    [glUniform1i(loc, i)] stores [i]. *)
Definition glUniform (loc : Z) (p : param) (gl : GLState) : GLState :=
  let v := match p with PDouble x => UFloat (dto_float x) | PInt i => UInt i end in
  set_store (<[loc := v]> (uniform_store gl)) gl.

(** One stanza: [loc = glGetUniformLocation(programID, name);
    if (loc != -1) glUniform..(loc, value);] *)
Definition upload_uniform (gl : GLState) (np : string * param) : GLState :=
  let loc := glGetUniformLocation gl np.1 in
  if Z.eqb loc (-1) then gl else glUniform loc np.2 gl.

Definition upload_uniforms (ps : list (string * param)) (gl : GLState) : GLState :=
  fold_left upload_uniform ps gl.

(** The Render Parameter Set, in the order the stanzas run. *)
Definition frame_params (v : Viewport D) (drawMandelbrot : Z) : list (string * param) :=
  [("resx", PDouble (resx v)); ("resy", PDouble (resy v));
   ("minx", PDouble (minx v)); ("miny", PDouble (miny v));
   ("dx", PDouble (dx v)); ("dy", PDouble (dy v));
   ("drawMandelbrot", PInt drawMandelbrot)].

Definition glClear (gl : GLState) : GLState :=
  mkGL (locations gl) (uniform_store gl) Cleared (presented gl) (gl_viewport gl).

(** [glDrawArrays(GL_TRIANGLE_STRIP, 0, 4)]: the full-screen quad, shaded
    with the current uniforms. *)
Definition glDrawArrays (gl : GLState) : GLState :=
  mkGL (locations gl) (uniform_store gl) (Drawn (uniform_store gl)) (presented gl) (gl_viewport gl).

Definition glfwSwapBuffers (gl : GLState) : GLState :=
  mkGL (locations gl) (uniform_store gl) (back_buffer gl)
       (presented gl ++ [back_buffer gl]) (gl_viewport gl).

Definition glViewport (x y w h : Z) (gl : GLState) : GLState :=
  mkGL (locations gl) (uniform_store gl) (back_buffer gl) (presented gl) (x, y, w, h).

(** [RTT]: clear, use the program, upload the uniforms, draw; no swap.
    [glUseProgram] and the vertex attribute calls leave the modelled
    state unchanged. *)
Definition RTT (v : Viewport D) (drawMandelbrot : Z) (gl : GLState) : GLState :=
  glDrawArrays (upload_uniforms (frame_params v drawMandelbrot) (glClear gl)).

(** [Draw]: the same calls as [RTT], then [glfwSwapBuffers(window)]. *)
Definition Draw (v : Viewport D) (drawMandelbrot : Z) (gl : GLState) : GLState :=
  glfwSwapBuffers
    (glDrawArrays (upload_uniforms (frame_params v drawMandelbrot) (glClear gl))).

(** The value the shader sees for a uniform name in a uniform store. *)
Definition read_uniform (gl : GLState) (st : gmap Z uniform_value) (name : string)
  : option uniform_value :=
  loc ← locations gl !! name; st !! loc.

(** What [glUniform] stores for a parameter. *)
Definition stored (p : param) : uniform_value :=
  match p with PDouble x => UFloat (dto_float x) | PInt i => UInt i end.

(** A linked program gives its active uniforms non-negative, pairwise
    distinct locations. *)
Definition program_wf (gl : GLState) : Prop :=
  map_Forall (fun _ l => (0 <= l)%Z) (locations gl) /\ NoDup (map_to_list (locations gl)).*2.

End Ctx.

Arguments GLState D : clear implicits.
Arguments uniform_value D : clear implicits.
Arguments param D : clear implicits.
Arguments buffer D : clear implicits.


(** ** Lemmas *)

Section Props.
Context {D : Type} `{Double D}.
Implicit Types (gl : GLState D) (ps : list (string * param D)).

Lemma upload_uniform_locations gl np : locations (upload_uniform gl np) = locations gl.
Proof. unfold upload_uniform. destruct (Z.eqb _ _); reflexivity. Qed.

Lemma upload_uniforms_cons np ps gl :
  upload_uniforms (np :: ps) gl = upload_uniforms ps (upload_uniform gl np).
Proof. reflexivity. Qed.

Lemma program_wf_pos gl n l : program_wf gl -> locations gl !! n = Some l -> (0 <= l)%Z.
Proof. intros [Hpos _] E. exact (map_Forall_lookup_1 _ _ _ _ Hpos E). Qed.

(** Distinct uniforms of a well-formed program have distinct locations. *)
Lemma program_wf_inj gl n1 n2 l :
  program_wf gl -> locations gl !! n1 = Some l -> locations gl !! n2 = Some l -> n1 = n2.
Proof.
  intros [_ Hnd] E1 E2.
  apply fin_maps.elem_of_map_to_list, list_elem_of_lookup in E1 as [k1 K1].
  apply fin_maps.elem_of_map_to_list, list_elem_of_lookup in E2 as [k2 K2].
  assert (k1 = k2) as <-.
  { apply (NoDup_lookup _ _ _ l Hnd); rewrite list_lookup_fmap; [rewrite K1 | rewrite K2]; reflexivity. }
  congruence.
Qed.

Lemma program_wf_upload_uniform gl np : program_wf gl -> program_wf (upload_uniform gl np).
Proof. unfold program_wf. rewrite upload_uniform_locations. trivial. Qed.

(** One stanza: the uniform it names now reads the stored parameter, and
    every other uniform reads what it read before. *)
Lemma read_upload_uniform gl n p m :
  program_wf gl ->
  read_uniform (upload_uniform gl (n, p)) (uniform_store (upload_uniform gl (n, p))) m =
  match locations gl !! m with
  | None => None
  | Some _ => if decide (n = m) then Some (stored p) else read_uniform gl (uniform_store gl) m
  end.
Proof.
  intros Hwf. unfold read_uniform. rewrite upload_uniform_locations.
  unfold upload_uniform, glGetUniformLocation. cbn [fst snd].
  destruct (locations gl !! m) as [lm|] eqn:Em; cbn; [|reflexivity].
  destruct (locations gl !! n) as [ln|] eqn:En.
  - pose proof (program_wf_pos _ _ _ Hwf En). rewrite (proj2 (Z.eqb_neq ln (-1))) by lia. cbn.
    case_decide as Hnm.
    + subst m. rewrite Em in En. injection En as ->. destruct p; apply lookup_insert_eq.
    + rewrite lookup_insert_ne; [reflexivity|]. intros ->. apply Hnm. eapply program_wf_inj; eassumption.
  - case_decide as Hnm; [subst; congruence|]. reflexivity.
Qed.

(** The stanzas in sequence: with distinct names, every uniform the
    program declares reads the stored value of its parameter, and a
    uniform without a parameter keeps its value. *)
Lemma read_upload_uniforms ps gl m :
  program_wf gl -> NoDup ps.*1 ->
  read_uniform gl (uniform_store (upload_uniforms ps gl)) m =
  match locations gl !! m with
  | None => None
  | Some _ =>
      match (list_to_map ps : gmap string (param D)) !! m with
      | Some p => Some (stored p)
      | None => read_uniform gl (uniform_store gl) m
      end
  end.
Proof.
  revert gl. induction ps as [|[n p] ps IH]; intros gl Hwf Hnd.
  - cbn. unfold read_uniform. destruct (locations gl !! m); reflexivity.
  - apply NoDup_cons in Hnd as [Hn Hnd].
    pose proof (IH (upload_uniform gl (n, p)) (program_wf_upload_uniform _ _ Hwf) Hnd) as E.
    unfold read_uniform in *. rewrite upload_uniform_locations in E.
    rewrite upload_uniforms_cons, E, list_to_map_cons.
    destruct (locations gl !! m) as [lm|] eqn:Em; [|reflexivity]. cbn.
    pose proof (read_upload_uniform gl n p m Hwf) as E1. unfold read_uniform in E1.
    rewrite upload_uniform_locations, Em in E1. cbn in E1.
    destruct (decide (n = m)) as [<-|Hnm].
    + rewrite lookup_insert_eq, not_elem_of_list_to_map_1 by exact Hn. exact E1.
    + rewrite lookup_insert_ne by exact Hnm.
      destruct (list_to_map ps !! m); [reflexivity | exact E1].
Qed.

Lemma frame_params_nodup (v : Viewport D) (d : Z) : NoDup (frame_params v d).*1.
Proof. apply (bool_decide_unpack _). reflexivity. Qed.

Lemma upload_uniforms_presented ps gl : presented (upload_uniforms ps gl) = presented gl.
Proof.
  revert gl. induction ps as [|np ps IH]; intros gl; [reflexivity|].
  rewrite upload_uniforms_cons, IH. unfold upload_uniform. destruct (Z.eqb _ _); reflexivity.
Qed.

Lemma Draw_presented (v : Viewport D) (d : Z) gl :
  presented (Draw v d gl)
  = presented gl ++ [Drawn (uniform_store (upload_uniforms (frame_params v d) (glClear gl)))].
Proof.
  unfold Draw, glfwSwapBuffers, glDrawArrays. cbn [presented back_buffer].
  rewrite upload_uniforms_presented. reflexivity.
Qed.

(** The seven uniform names the frame parameters are uploaded under. *)
Definition uniform_names : list string :=
  ["resx"; "resy"; "minx"; "miny"; "dx"; "dy"; "drawMandelbrot"].

(** C18: [Draw] presents exactly one new frame.  In it the uniform named
    [resx], [resy], [minx], [miny], [dx], [dy] reads the camera field of
    that name narrowed to [GLfloat], and [drawMandelbrot] reads the
    toggle, whenever the linked program declares that uniform; every
    other uniform keeps the value it had. *)
Theorem Draw_presents_params (v : Viewport D) (d : Z) gl :
  program_wf gl ->
  exists st,
    presented (Draw v d gl) = presented gl ++ [Drawn st] /\
    (forall name u,
       (name, u) ∈ [("resx", UFloat (dto_float (resx v))); ("resy", UFloat (dto_float (resy v)));
                    ("minx", UFloat (dto_float (minx v))); ("miny", UFloat (dto_float (miny v)));
                    ("dx", UFloat (dto_float (dx v))); ("dy", UFloat (dto_float (dy v)));
                    ("drawMandelbrot", UInt d)] ->
       is_Some (locations gl !! name) -> read_uniform gl st name = Some u) /\
    (forall name, name ∉ uniform_names ->
       read_uniform gl st name = read_uniform gl (uniform_store gl) name).
Proof.
  intros Hwf. eexists. split; [apply Draw_presented|].
  assert (R : forall m,
    read_uniform gl (uniform_store (upload_uniforms (frame_params v d) (glClear gl))) m =
    match locations gl !! m with
    | None => None
    | Some _ =>
        match (list_to_map (frame_params v d) : gmap string (param D)) !! m with
        | Some p => Some (stored p)
        | None => read_uniform gl (uniform_store gl) m
        end
    end) by (intros m; exact (read_upload_uniforms _ (glClear gl) m Hwf (frame_params_nodup v d))).
  split.
  - intros name u Hin [l Hl]. rewrite R, Hl.
    repeat (apply elem_of_cons in Hin as [Hin | Hin]; [injection Hin as -> ->; reflexivity|]).
    apply elem_of_nil in Hin. contradiction.
  - intros name Hn. rewrite R. unfold read_uniform at 2.
    destruct (locations gl !! name) eqn:El; [|reflexivity].
    rewrite not_elem_of_list_to_map_1 by exact Hn. unfold read_uniform. rewrite El. reflexivity.
Qed.

End Props.

(** ** A linked program and a run of [Draw] on it *)

(** The program of [LoadShaders] with the seven uniforms active, at
    locations 0..6, before any upload. *)
Definition linked_gl {D : Type} : GLState D :=
  mkGL (list_to_map [("resx", 0%Z); ("resy", 1%Z); ("minx", 2%Z); ("miny", 3%Z);
                     ("dx", 4%Z); ("dy", 5%Z); ("drawMandelbrot", 6%Z)])
       ∅ Cleared [] (0, 0, 1600, 900)%Z.

Lemma Draw_presents_params_witness :
  program_wf (@linked_gl Q) /\
  exists st,
    presented (Draw (@initial_viewport Q _) 1 (@linked_gl Q)) = presented (@linked_gl Q) ++ [Drawn st] /\
    read_uniform (@linked_gl Q) st "dx" = Some (UFloat (dto_float (dx (@initial_viewport Q _)))).
Proof.
  assert (Hwf : program_wf (@linked_gl Q)) by (apply (bool_decide_unpack _); vm_compute; reflexivity).
  split; [exact Hwf|].
  destruct (Draw_presents_params (@initial_viewport Q _) 1 (@linked_gl Q) Hwf) as (st & P & Hn & _).
  exists st. split; [exact P|]. apply Hn; [right; right; right; right; left | eexists; reflexivity].
Defined.

End GL.
