(* ===== verification/Input.v ===== *)
(** * The input translator: the five GLFW callbacks over the program's globals

    [App] gathers every mutable global of main.cpp that the callbacks
    touch: the camera, [prevx prevy] (line 11), [clickedButtons] (line 20)
    and [drawMandelbrot] (line 24).  It also holds the GL context and the
    part of the GLFW window the callbacks read or write: the close flag
    and the cursor position.  The callbacks are translated whole (lines
    277-344).  [dispatch] is what [glfwPollEvents] does with one pending
    event: GLFW updates its own window state and then calls the
    registered callback.  [reachable] is the closure of the initial
    state under valid events and frames. *)

From Stdlib Require Import QArith Qpower Lqa ZArith Lia.
From stdpp Require Import base gmap sets strings list.
From S2P Require Import Prelude Viewport GL.
Import Viewport GL.

Module Input.

(** ** GLFW and main.cpp constants *)

Definition GLFW_RELEASE : Z := 0.
Definition GLFW_PRESS : Z := 1.
Definition GLFW_REPEAT : Z := 2.
Definition GLFW_KEY_SPACE : Z := 32.
Definition GLFW_KEY_ESCAPE : Z := 256.
Definition GLFW_MOUSE_BUTTON_LAST : Z := 7.

(** [enum buttonMaps] (line 21) *)
Definition FIRST_BUTTON : Z := 1.
Definition SECOND_BUTTON : Z := 2.
Definition THIRD_BUTTON : Z := 4.
Definition FOURTH_BUTTON : Z := 8.
Definition FIFTH_BUTTON : Z := 16.
Definition NO_BUTTON : Z := 0.

Section Callbacks.
Context {D : Type} `{Double D}.
Local Open Scope double_scope.

(** The GLFW window state the callbacks read ([glfwGetCursorPos]) or
    write ([glfwSetWindowShouldClose]). *)
Record Window := mkWindow {
  should_close : bool;
  cursor_x : D;
  cursor_y : D
}.

Record App := mkApp {
  vp : Viewport D;
  prevx : D;
  prevy : D;
  clickedButtons : Z;
  drawMandelbrot : Z;
  win : Window;
  gl : GLState D
}.

(** The globals as initialised, in a window whose cursor is at
    [(cx, cy)] and with the GL context [gl0] that [main] has set up. *)
Definition initial_app (cx cy : D) (gl0 : GLState D) : App :=
  {| vp := initial_viewport;
     prevx := dlit (-1); prevy := dlit (-1);
     clickedButtons := 0;
     drawMandelbrot := 1;
     win := mkWindow false cx cy;
     gl := gl0 |}.

(** [windowsize_callback]: rescale the camera, then
    [glViewport(0, 0, resx, resy)] with the doubles converted to int. *)
Definition windowsize_callback (width height : Z) (a : App) : App :=
  let v := resize width height (vp a) in
  {| vp := v;
     prevx := prevx a; prevy := prevy a;
     clickedButtons := clickedButtons a;
     drawMandelbrot := drawMandelbrot a;
     win := win a;
     gl := glViewport 0 0 (dtrunc (resx v)) (dtrunc (resy v)) (gl a) |}.

(** [key_callback]: ESC requests the close whatever the action; SPACE
    flips [drawMandelbrot] when [action] is non-zero (press or repeat). *)
Definition key_callback (key scancode action mods : Z) (a : App) : App :=
  let w := if Z.eqb key GLFW_KEY_ESCAPE
           then mkWindow true (cursor_x (win a)) (cursor_y (win a))
           else win a in
  let d := if Z.eqb key GLFW_KEY_SPACE && negb (Z.eqb action 0)
           then (1 - drawMandelbrot a)%Z
           else drawMandelbrot a in
  {| vp := vp a;
     prevx := prevx a; prevy := prevy a;
     clickedButtons := clickedButtons a;
     drawMandelbrot := d;
     win := w;
     gl := gl a |}.

(** [mousebutton_callback]: [glfwGetCursorPos(win,&prevx,&prevy)], then
    set ([action == 1]) or clear the bit [1 << button].  The
    [if/else if] chain on the buttons that follows has empty bodies. *)
Definition mousebutton_callback (button action mods : Z) (a : App) : App :=
  let cb := if Z.eqb action 1
            then Z.lor (clickedButtons a) (bit button)
            else Z.land (clickedButtons a) (Z.lnot (bit button)) in
  {| vp := vp a;
     prevx := cursor_x (win a); prevy := cursor_y (win a);
     clickedButtons := cb;
     drawMandelbrot := drawMandelbrot a;
     win := win a;
     gl := gl a |}.

(** The test [clickedButtons&FIRST_BUTTON]. *)
Definition first_held (cb : Z) : bool := negb (Z.eqb (Z.land cb FIRST_BUTTON) 0).

(** [mousepos_callback]: with the first button held, pan by the move since
    [(prevx, prevy)] and record the new position; the other branches are
    empty. *)
Definition mousepos_callback (xpos ypos : D) (a : App) : App :=
  if first_held (clickedButtons a) then
    {| vp := pan xpos ypos (prevx a) (prevy a) (vp a);
       prevx := xpos; prevy := ypos;
       clickedButtons := clickedButtons a;
       drawMandelbrot := drawMandelbrot a;
       win := win a;
       gl := gl a |}
  else a.

(** [mousewheel_callback]; the horizontal offset is unused. *)
Definition mousewheel_callback (xoffset : D) (yoffset : Z) (a : App) : App :=
  {| vp := zoom yoffset (vp a);
     prevx := prevx a; prevy := prevy a;
     clickedButtons := clickedButtons a;
     drawMandelbrot := drawMandelbrot a;
     win := win a;
     gl := gl a |}.

(** The events [glfwPollEvents] delivers to the callbacks registered in
    [initGL], and the window's close button. *)
Inductive event :=
  | EvWindowSize (width height : Z)
  | EvKey (key scancode action mods : Z)
  | EvMouseButton (button action mods : Z)
  | EvCursorPos (xpos ypos : D)
  | EvScroll (xoffset : D) (yoffset : Z)
  | EvCloseButton.

Definition set_window (w : Window) (a : App) : App :=
  {| vp := vp a; prevx := prevx a; prevy := prevy a;
     clickedButtons := clickedButtons a; drawMandelbrot := drawMandelbrot a;
     win := w; gl := gl a |}.

(** One event: GLFW records a cursor move or a close request in the
    window, then calls the registered callback. *)
Definition dispatch (e : event) (a : App) : App :=
  match e with
  | EvWindowSize w h => windowsize_callback w h a
  | EvKey k s act m => key_callback k s act m a
  | EvMouseButton b act m => mousebutton_callback b act m a
  | EvCursorPos x y =>
      mousepos_callback x y (set_window (mkWindow (should_close (win a)) x y) a)
  | EvScroll xo yo => mousewheel_callback xo yo a
  | EvCloseButton => set_window (mkWindow true (cursor_x (win a)) (cursor_y (win a))) a
  end.

(** One [glfwPollEvents]: the pending events in order. *)
Definition poll (es : list event) (a : App) : App := fold_left (fun a e => dispatch e a) es a.

(** The events GLFW can deliver: mouse buttons [0..GLFW_MOUSE_BUTTON_LAST]
    with a press or release, key actions release, press or repeat. *)
Definition event_ok (e : event) : bool :=
  match e with
  | EvMouseButton b act _ => (0 <=? b)%Z && (b <=? GLFW_MOUSE_BUTTON_LAST)%Z && (act <=? 1)%Z && (0 <=? act)%Z
  | EvKey _ _ act _ => (0 <=? act)%Z && (act <=? 2)%Z
  | _ => true
  end.

(** The frame [main] draws between two polls. *)
Definition draw_frame (a : App) : App :=
  {| vp := vp a; prevx := prevx a; prevy := prevy a;
     clickedButtons := clickedButtons a; drawMandelbrot := drawMandelbrot a;
     win := win a; gl := Draw (vp a) (drawMandelbrot a) (gl a) |}.

(** The states the program can be in: the initial globals, closed under
    valid events and drawn frames. *)
Inductive reachable (cx cy : D) (gl0 : GLState D) : App -> Prop :=
  | reach_init : reachable cx cy gl0 (initial_app cx cy gl0)
  | reach_event a e : reachable cx cy gl0 a -> event_ok e = true -> reachable cx cy gl0 (dispatch e a)
  | reach_draw a : reachable cx cy gl0 a -> reachable cx cy gl0 (draw_frame a).

End Callbacks.

Arguments App D : clear implicits.
Arguments Window D : clear implicits.
Arguments event D : clear implicits.


(** ** Invariants of the reachable states *)

Section Invariants.
Context {D : Type} `{Double D}.
Implicit Types (a : App D) (e : event D).

(** Split on the event and on the [FIRST_BUTTON] test of [mousepos_callback]. *)
Ltac dispatch_cases e :=
  destruct e; cbn [dispatch windowsize_callback key_callback mousebutton_callback
                   mousewheel_callback set_window vp prevx prevy clickedButtons
                   drawMandelbrot win gl should_close cursor_x cursor_y];
  try (unfold mousepos_callback; destruct (first_held _) eqn:Hfirst; cbn [vp prevx prevy clickedButtons
                   drawMandelbrot win gl should_close cursor_x cursor_y]).

(** The bits an event can change in [clickedButtons]. *)
Lemma dispatch_clickedButtons e a :
  clickedButtons (dispatch e a) =
  match e with
  | EvMouseButton b act _ =>
      if Z.eqb act 1 then Z.lor (clickedButtons a) (bit b)
      else Z.land (clickedButtons a) (Z.lnot (bit b))
  | _ => clickedButtons a
  end.
Proof. dispatch_cases e; reflexivity. Qed.

Lemma dispatch_drawMandelbrot e a :
  drawMandelbrot (dispatch e a) = drawMandelbrot a \/
  drawMandelbrot (dispatch e a) = (1 - drawMandelbrot a)%Z.
Proof. dispatch_cases e; try (left; reflexivity). destruct (_ && _); auto. Qed.

(** The drag anchor follows the cursor while the first button is held. *)
Definition anchored a : Prop :=
  first_held (clickedButtons a) = true -> prevx a = cursor_x (win a) /\ prevy a = cursor_y (win a).

(** The anchor of a drag is reset to the cursor by every button event and
    follows the cursor while the first button is held. *)
Lemma dispatch_anchor e a : anchored a -> anchored (dispatch e a).
Proof.
  unfold anchored. intros Hinv. rewrite dispatch_clickedButtons.
  dispatch_cases e; intros Hf; cbn in *; try congruence; auto.
  destruct (Z.eqb key GLFW_KEY_ESCAPE); auto.
Qed.

(** The high bits ([>= 8]) of the button mask are clear. *)
Definition buttons_ok (cb : Z) : Prop := forall i, (8 <= i)%Z -> Z.testbit cb i = false.

Lemma buttons_ok_dispatch e a :
  event_ok e = true -> buttons_ok (clickedButtons a) -> buttons_ok (clickedButtons (dispatch e a)).
Proof.
  intros Hok Hb i Hi. rewrite dispatch_clickedButtons.
  destruct e as [| | b act m | | |]; try exact (Hb i Hi).
  cbn in Hok. unfold GLFW_MOUSE_BUTTON_LAST in Hok.
  assert (0 <= b <= 7)%Z by lia.
  destruct (Z.eqb act 1); autorewrite with mandel_bits; rewrite Hb by exact Hi.
  - apply Z.eqb_neq. lia.
  - reflexivity.
Qed.

Section Reach.
Context (cx cy : D) (gl0 : GLState D).

(** C7: in every reachable state the draw toggle [drawMandelbrot] is 0 or
    1, so the shader always receives a valid boolean. *)
Theorem reachable_draw_flag a :
  reachable cx cy gl0 a -> drawMandelbrot a = 0%Z \/ drawMandelbrot a = 1%Z.
Proof.
  induction 1 as [| a e _ IH _ | a _ IH]; [right; reflexivity | | exact IH].
  destruct (dispatch_drawMandelbrot e a) as [-> | ->]; lia.
Qed.

(** C8: in every reachable state the button mask [clickedButtons] lies in
    [[0, 256)]: only the bits of GLFW's eight mouse buttons are ever set,
    so [1 << button] never overflows the [int]. *)
Theorem reachable_buttons_bounded a :
  reachable cx cy gl0 a -> (0 <= clickedButtons a < 256)%Z.
Proof.
  intros Hr. change 256%Z with (2 ^ 8)%Z. apply low_bits_range; [lia|].
  induction Hr as [| a e _ IH Hok | a _ IH].
  - intros i _. apply Z.testbit_0_l.
  - exact (buttons_ok_dispatch e a Hok IH).
  - exact IH.
Qed.

Lemma reachable_anchored a : reachable cx cy gl0 a -> anchored a.
Proof.
  induction 1 as [| a e _ IH _ | a _ IH].
  - discriminate.
  - apply dispatch_anchor, IH.
  - exact IH.
Qed.

(** C5: while the first button is held, the drag anchor [(prevx, prevy)]
    is the cursor position, so each pan starts where the last one ended. *)
Theorem reachable_drag_anchor a :
  reachable cx cy gl0 a -> first_held (clickedButtons a) = true ->
  prevx a = cursor_x (win a) /\ prevy a = cursor_y (win a).
Proof. intros Hr. exact (reachable_anchored a Hr). Qed.

End Reach.
End Invariants.


(** ** The bitmask implements the spec's set of held buttons *)

Section Refinement.
Context {D : Type} `{Double D}.
Implicit Types (a : App D) (e : event D).

(** The buttons among GLFW's eight whose bit is set. *)
Definition held (cb : Z) : gset Z :=
  list_to_set (filter (fun i => Z.testbit cb i = true) (seqZ 0 8)).

Lemma elem_of_held (cb i : Z) : i ∈ held cb <-> (0 <= i < 8)%Z /\ Z.testbit cb i = true.
Proof.
  unfold held. rewrite elem_of_list_to_set, list_elem_of_filter, elem_of_seqZ.
  split; intros [H1 H2]; split; (assumption || lia).
Qed.

Lemma held_press (cb b : Z) : (0 <= b < 8)%Z -> held (Z.lor cb (bit b)) = {[b]} ∪ held cb.
Proof.
  intros Hb. apply set_eq. intros i. rewrite elem_of_union, elem_of_singleton, !elem_of_held.
  destruct (decide (0 <= i))%Z as [Hi|Hi].
  - rewrite testbit_set by lia. rewrite orb_true_iff, Z.eqb_eq.
    destruct (Z.testbit cb i); intuition (try discriminate; lia).
  - intuition lia.
Qed.

Lemma held_release (cb b : Z) :
  (0 <= b < 8)%Z -> held (Z.land cb (Z.lnot (bit b))) = held cb ∖ {[b]}.
Proof.
  intros Hb. apply set_eq. intros i. rewrite elem_of_difference, elem_of_singleton, !elem_of_held.
  destruct (decide (0 <= i))%Z as [Hi|Hi].
  - rewrite testbit_clear by lia. rewrite andb_true_iff, negb_true_iff, Z.eqb_neq.
    destruct (Z.testbit cb i); intuition (try discriminate; lia).
  - intuition lia.
Qed.

Lemma first_held_spec (cb : Z) : first_held cb = bool_decide (0%Z ∈ held cb).
Proof.
  assert (E : Z.land cb FIRST_BUTTON = if Z.odd cb then 1%Z else 0%Z).
  { change (Z.land cb FIRST_BUTTON) with (Z.land cb (Z.ones 1)).
    rewrite Z.land_ones by lia. apply Zmod_odd. }
  unfold first_held. rewrite E.
  destruct (Z.odd cb) eqn:O; symmetry;
    [apply bool_decide_eq_true | apply bool_decide_eq_false];
    rewrite elem_of_held, Z.bit0_odd, O.
  - split; [lia | reflexivity].
  - intros [_ F]. discriminate.
Qed.

(** The input machine of the spec: buttons as a set, the drag anchor, the
    camera, the draw toggle, the close request and the cursor. *)
Record AbsInput := mkAbs {
  abs_view : Viewport D;
  abs_anchor : D * D;
  abs_held : gset Z;
  abs_draw : Z;
  abs_close : bool;
  abs_cursor : D * D
}.

Definition abs_of a : AbsInput :=
  mkAbs (vp a) (prevx a, prevy a) (held (clickedButtons a)) (drawMandelbrot a)
        (should_close (win a)) (cursor_x (win a), cursor_y (win a)).

(** One transition of the spec's machine (spec 4.2): a press adds its
    button and anchors the drag at the cursor, a release removes it; a
    move pans while the first button is held; scroll zooms; resize
    rescales; ESC requests the close; SPACE toggles. *)
Definition abs_step e (s : AbsInput) : AbsInput :=
  match e with
  | EvWindowSize w h =>
      mkAbs (resize w h (abs_view s)) (abs_anchor s) (abs_held s) (abs_draw s)
            (abs_close s) (abs_cursor s)
  | EvKey k _ act _ =>
      mkAbs (abs_view s) (abs_anchor s) (abs_held s)
            (if Z.eqb k GLFW_KEY_SPACE && negb (Z.eqb act 0) then 1 - abs_draw s else abs_draw s)%Z
            (abs_close s || Z.eqb k GLFW_KEY_ESCAPE) (abs_cursor s)
  | EvMouseButton b act _ =>
      mkAbs (abs_view s) (abs_cursor s)
            (if Z.eqb act 1 then {[b]} ∪ abs_held s else abs_held s ∖ {[b]})
            (abs_draw s) (abs_close s) (abs_cursor s)
  | EvCursorPos x y =>
      if decide (0%Z ∈ abs_held s)
      then mkAbs (pan x y (abs_anchor s).1 (abs_anchor s).2 (abs_view s)) (x, y) (abs_held s)
                 (abs_draw s) (abs_close s) (x, y)
      else mkAbs (abs_view s) (abs_anchor s) (abs_held s) (abs_draw s) (abs_close s) (x, y)
  | EvScroll _ yo =>
      mkAbs (zoom yo (abs_view s)) (abs_anchor s) (abs_held s) (abs_draw s)
            (abs_close s) (abs_cursor s)
  | EvCloseButton =>
      mkAbs (abs_view s) (abs_anchor s) (abs_held s) (abs_draw s) true (abs_cursor s)
  end.

(** C4: the callbacks implement the spec's input machine: on every event
    GLFW can deliver, the bitmask [clickedButtons] with its [|=], [&= ~]
    and [&FIRST_BUTTON] operations moves exactly as the set of held
    buttons, and every other part of the state moves as the spec says. *)
Theorem dispatch_refines e a :
  event_ok e = true -> abs_of (dispatch e a) = abs_step e (abs_of a).
Proof.
  intros Hok. destruct e as [w h | k sc act m | b act m | x y | xo yo |]; try reflexivity.
  - unfold abs_of, abs_step. cbn. destruct (Z.eqb k GLFW_KEY_ESCAPE); cbn;
      rewrite ?orb_true_r, ?orb_false_r; reflexivity.
  - cbn in Hok. unfold GLFW_MOUSE_BUTTON_LAST in Hok.
    unfold abs_of, abs_step. cbn.
    destruct (Z.eqb act 1); [rewrite held_press by lia | rewrite held_release by lia]; reflexivity.
  - unfold abs_of, abs_step, dispatch, mousepos_callback. cbn [clickedButtons set_window abs_held].
    rewrite first_held_spec.
    destruct (decide (0%Z ∈ held (clickedButtons a))) as [Hin | Hin];
      [rewrite bool_decide_true by exact Hin | rewrite bool_decide_false by exact Hin];
      reflexivity.
Qed.

End Refinement.



(** ** Keys *)

Section Keys.
Context {D : Type} `{Double D}.
Implicit Types (a : App D).

Definition space (action : Z) : event D := EvKey GLFW_KEY_SPACE 0 action 0.

Lemma poll_app (es1 es2 : list (event D)) a : poll (es1 ++ es2) a = poll es2 (poll es1 a).
Proof. unfold poll. apply fold_left_app. Qed.

Lemma poll_nil a : poll [] a = a.
Proof. reflexivity. Qed.

Lemma poll_cons (e : event D) es a : poll (e :: es) a = poll es (dispatch e a).
Proof. reflexivity. Qed.

(** The spec's scenario: pressing and releasing the toggle key twice
    brings [drawMandelbrot] back to its value. *)
Theorem toggle_twice a :
  drawMandelbrot (poll [space GLFW_PRESS; space GLFW_RELEASE; space GLFW_PRESS; space GLFW_RELEASE] a)
  = drawMandelbrot a.
Proof. cbn. lia. Qed.

Lemma space_draw (act : Z) a :
  drawMandelbrot (dispatch (space act) a)
  = if Z.eqb act 0 then drawMandelbrot a else (1 - drawMandelbrot a)%Z.
Proof. cbn. destruct (Z.eqb act 0); reflexivity. Qed.

Lemma poll_repeat_space (n : nat) a :
  drawMandelbrot (poll (repeat (space GLFW_REPEAT) n) a)
  = if Nat.even n then drawMandelbrot a else (1 - drawMandelbrot a)%Z.
Proof.
  revert a. induction n as [|n IH]; intros a; [reflexivity|].
  cbn [repeat]. rewrite poll_cons, IH, Nat.even_succ, <- Nat.negb_even, space_draw.
  destruct (Nat.even n); cbn; lia.
Qed.

(** C10: the toggle also fires on GLFW's key-repeat events: holding the
    space bar through [n] auto-repeats before releasing it leaves the
    flag flipped only when [n] is even, so a long press flickers the
    fractal on and off and may end with no toggle at all. *)
Theorem held_space_toggles (n : nat) a :
  drawMandelbrot (poll (space GLFW_PRESS :: repeat (space GLFW_REPEAT) n ++ [space GLFW_RELEASE]) a)
  = if Nat.even n then (1 - drawMandelbrot a)%Z else drawMandelbrot a.
Proof.
  rewrite poll_cons, poll_app. cbn [poll fold_left].
  rewrite space_draw, poll_repeat_space, space_draw. destruct (Nat.even n); cbn; lia.
Qed.

End Keys.


(** ** Dragging, resizing and zooming in the exact reading *)

Section Exact.
Local Open Scope Q_scope.
Implicit Types (a : App Q).

Lemma dispatch_move_held a x y :
  first_held (clickedButtons a) = true ->
  vp (dispatch (EvCursorPos x y) a) = pan x y (prevx a) (prevy a) (vp a) /\
  prevx (dispatch (EvCursorPos x y) a) = x /\ prevy (dispatch (EvCursorPos x y) a) = y /\
  clickedButtons (dispatch (EvCursorPos x y) a) = clickedButtons a.
Proof.
  intros Hf. unfold dispatch, mousepos_callback. cbn [clickedButtons set_window].
  rewrite Hf. repeat split.
Qed.

(** C6: drag consistency: in every reachable state where the first
    button is held, a cursor move to [(x, y)] leaves the world point that
    was under the cursor now under [(x, y)]: the fractal follows the
    pointer. *)
Theorem drag_keeps_world_point (cx cy : Q) (gl0 : GLState Q) a x y :
  reachable cx cy gl0 a -> first_held (clickedButtons a) = true ->
  world_x (vp (dispatch (EvCursorPos x y) a)) x == world_x (vp a) (cursor_x (win a)) /\
  world_y (vp (dispatch (EvCursorPos x y) a)) y == world_y (vp a) (cursor_y (win a)).
Proof.
  intros Hr Hf. destruct (reachable_anchored cx cy gl0 a Hr Hf) as [<- <-].
  destruct (dispatch_move_held a x y Hf) as [-> _]. split; [apply pan_world_x | apply pan_world_y].
Qed.

Definition moves (ps : list (Q * Q)) : list (event Q) :=
  map (fun p => EvCursorPos p.1 p.2) ps.

(** C11: the moves of a drag add up: while the first button is held, the
    camera after moving the cursor through any points to [(x, y)] is the
    camera of a single pan from the drag anchor to [(x, y)], because each
    pan is taken from the last processed position. *)
Theorem drag_telescopes a (ps : list (Q * Q)) (x y : Q) :
  first_held (clickedButtons a) = true ->
  vp (poll (moves (ps ++ [(x, y)])) a) ≡v pan x y (prevx a) (prevy a) (vp a).
Proof.
  revert a. induction ps as [|[x1 y1] ps IH]; intros a Hf.
  - cbn [moves map app fst snd]. rewrite poll_cons, poll_nil.
    destruct (dispatch_move_held a x y Hf) as [-> _]. reflexivity.
  - cbn [moves map app fst snd]. rewrite poll_cons.
    destruct (dispatch_move_held a x1 y1 Hf) as (Ev & Ex & Ey & Eb).
    rewrite IH by (rewrite Eb; exact Hf).
    rewrite Ev, Ex, Ey. apply pan_compose.
Qed.

(** The spec's drag scenario: pressing the first button with the
    cursor at [(cx, cy)] and moving to [(cx+10, cy+5)] decreases [minx] by
    [10*dx/resx] and increases [miny] by [5*dy/resy]. *)
Theorem drag_scenario a :
  let a' := poll [EvMouseButton 0 GLFW_PRESS 0;
                  EvCursorPos (cursor_x (win a) + 10) (cursor_y (win a) + 5)] a in
  minx (vp a') == minx (vp a) - 10 * dx (vp a) / resx (vp a) /\
  miny (vp a') == miny (vp a) + 5 * dy (vp a) / resy (vp a).
Proof.
  cbn zeta. rewrite !poll_cons, poll_nil.
  assert (Hf : first_held (clickedButtons (dispatch (EvMouseButton 0 GLFW_PRESS 0) a)) = true).
  { rewrite first_held_spec. apply bool_decide_eq_true.
    change (clickedButtons (dispatch (EvMouseButton 0 GLFW_PRESS 0) a))
      with (Z.lor (clickedButtons a) (bit 0)).
    rewrite held_press by lia. set_solver. }
  destruct (dispatch_move_held _ (cursor_x (win a) + 10) (cursor_y (win a) + 5) Hf) as [-> _].
  cbn. split; unfold Qdiv; ring.
Qed.

(** The resize events of a window that is never minimised to zero size. *)
Definition size_ok (e : event Q) : bool :=
  match e with
  | EvWindowSize w h => negb (Z.eqb w 0) && negb (Z.eqb h 0)
  | _ => true
  end.

Lemma uniform_scale_dispatch e a :
  size_ok e = true -> uniform_scale (vp a) -> uniform_scale (vp (dispatch e a)).
Proof.
  intros Hok Hu. destruct e; cbn [dispatch windowsize_callback key_callback mousebutton_callback
                                  mousewheel_callback set_window vp].
  - cbn in Hok. apply andb_true_iff in Hok as [Hw Hh].
    apply negb_true_iff, Z.eqb_neq in Hw, Hh. apply resize_uniform; assumption.
  - exact Hu.
  - exact Hu.
  - unfold mousepos_callback. destruct (first_held _); [apply pan_uniform|]; exact Hu.
  - apply zoom_uniform, Hu.
  - exact Hu.
Qed.

(** C23: the spec's scale invariant: as long as no resize has a zero
    width or height, [dx/resx = dy/resy] holds after every event: pan and
    zoom keep the ratio, and every resize restores it. *)
Theorem uniform_scale_invariant a (es : list (event Q)) :
  uniform_scale (vp a) -> Forall (fun e => size_ok e = true) es ->
  uniform_scale (vp (poll es a)).
Proof.
  intros Hu Hes. revert a Hu. induction Hes as [|e es He _ IH]; intros a Hu; [exact Hu|].
  rewrite poll_cons. apply IH, uniform_scale_dispatch; assumption.
Qed.

End Exact.

(** ** The theorems on a concrete run *)

Section Witnesses.
Local Open Scope Q_scope.

(** The first button pressed with the cursor at (3, 4), then a key repeat. *)
Definition pressed : App Q :=
  dispatch (EvKey GLFW_KEY_SPACE 0 GLFW_REPEAT 0)
    (dispatch (EvMouseButton 0 GLFW_PRESS 0) (initial_app 3 4 linked_gl)).

Lemma reachable_draw_flag_witness :
  drawMandelbrot pressed = 0%Z \/ drawMandelbrot pressed = 1%Z.
Proof.
  apply (reachable_draw_flag 3 4 linked_gl).
  repeat apply reach_event; [apply reach_init | reflexivity | reflexivity].
Defined.

Lemma reachable_buttons_bounded_witness : (0 <= clickedButtons pressed < 256)%Z.
Proof.
  apply (reachable_buttons_bounded 3 4 linked_gl).
  repeat apply reach_event; [apply reach_init | reflexivity | reflexivity].
Defined.

Lemma reachable_drag_anchor_witness :
  prevx pressed = cursor_x (win pressed) /\ prevy pressed = cursor_y (win pressed).
Proof.
  apply (reachable_drag_anchor 3 4 linked_gl).
  - repeat apply reach_event; [apply reach_init | reflexivity | reflexivity].
  - vm_compute. reflexivity.
Defined.

Lemma dispatch_refines_witness :
  abs_of (dispatch (EvMouseButton 2 GLFW_PRESS 0) pressed)
  = abs_step (EvMouseButton 2 GLFW_PRESS 0) (abs_of pressed).
Proof. apply dispatch_refines. reflexivity. Defined.

Lemma drag_keeps_world_point_witness :
  world_x (vp (dispatch (EvCursorPos 10 20) pressed)) 10 == world_x (vp pressed) (cursor_x (win pressed)) /\
  world_y (vp (dispatch (EvCursorPos 10 20) pressed)) 20 == world_y (vp pressed) (cursor_y (win pressed)).
Proof.
  apply (drag_keeps_world_point 3 4 linked_gl).
  - repeat apply reach_event; [apply reach_init | reflexivity | reflexivity].
  - vm_compute. reflexivity.
Defined.

Lemma drag_telescopes_witness :
  vp (poll (moves ([(5, 5); (7, 1)] ++ [(10, 20)])) pressed)
  ≡v pan 10 20 (prevx pressed) (prevy pressed) (vp pressed).
Proof. apply drag_telescopes. vm_compute. reflexivity. Defined.

Lemma uniform_scale_invariant_witness :
  uniform_scale (vp (poll [EvWindowSize 800 600; EvScroll 0 2; EvCursorPos 7 7] pressed)).
Proof.
  apply uniform_scale_invariant; [vm_compute; reflexivity | repeat constructor].
Defined.

End Witnesses.

End Input.
