(* ===== verification/Loop.v ===== *)
(** * The render loop of [main]

    [main] (main.cpp lines 123-152) sets up GL, calls [RTT()] once and
    then runs [while (!glfwWindowShouldClose(window)) { Draw();
    glfwPollEvents(); }].  [main_loop] translates the loop: each
    iteration tests the close flag, draws a frame and polls one batch of
    events.  The list of batches is the input the windowing system
    delivers, and it bounds the number of iterations.  When it runs out
    before the close flag is set, the result is [Waiting]: the program is
    still blocked in the loop. *)

From Stdlib Require Import QArith ZArith Lia.
From stdpp Require Import base gmap strings list.
From S2P Require Import Prelude Viewport GL Input.
Import Viewport GL Input.

Module Loop.

Section Loop.
Context {D : Type} `{Double D}.
Implicit Types (a : App D) (e : event D).

(** [RTT()]: draw once into the back buffer, without presenting. *)
Definition rtt_frame a : App D :=
  {| vp := vp a; prevx := prevx a; prevy := prevy a;
     clickedButtons := clickedButtons a; drawMandelbrot := drawMandelbrot a;
     win := win a; gl := RTT (vp a) (drawMandelbrot a) (gl a) |}.

(** How the loop ends on a finite input. *)
Inductive outcome :=
  | Exited (a : App D)    (** the close flag was seen: [main] cleans up and returns 0 *)
  | Waiting (a : App D).  (** a frame was drawn and the next poll has no events yet *)

Fixpoint main_loop (batches : list (list (event D))) a : outcome :=
  if should_close (win a) then Exited a
  else
    let a1 := draw_frame a in
    match batches with
    | [] => Waiting a1
    | es :: rest => main_loop rest (poll es a1)
    end.

(** [main] after [initGL] and the shader and buffer set-up, which leave the
    GL context [gl0] with the program linked. *)
Definition main (cx cy : D) (gl0 : GLState D) (batches : list (list (event D))) : outcome :=
  main_loop batches (rtt_frame (initial_app cx cy gl0)).

(** The events that set the close flag: ESC in any action, and the
    window's close button. *)
Definition closes e : bool :=
  match e with
  | EvKey k _ _ _ => Z.eqb k GLFW_KEY_ESCAPE
  | EvCloseButton => true
  | _ => false
  end.

Definition final_state (o : outcome) : App D := match o with Exited a | Waiting a => a end.

End Loop.

Arguments outcome D : clear implicits.


(** ** The close flag, the presented frames and the loop *)

Section Props.
Context {D : Type} `{Double D}.
Implicit Types (a : App D) (e : event D).

Lemma dispatch_should_close e a :
  should_close (win (dispatch e a)) = should_close (win a) || closes e.
Proof.
  destruct e; cbn [dispatch windowsize_callback key_callback mousebutton_callback
                   mousewheel_callback set_window win closes should_close];
    rewrite ?orb_false_r, ?orb_true_r; try reflexivity.
  - destruct (Z.eqb key GLFW_KEY_ESCAPE); cbn; rewrite ?orb_false_r, ?orb_true_r; reflexivity.
  - unfold mousepos_callback. destruct (first_held _); reflexivity.
Qed.

Lemma poll_should_close (es : list (event D)) a :
  should_close (win (poll es a)) = should_close (win a) || existsb closes es.
Proof.
  revert a. induction es as [|e es IH]; intros a; cbn [existsb].
  - rewrite poll_nil, orb_false_r. reflexivity.
  - rewrite poll_cons, IH, dispatch_should_close, orb_assoc. reflexivity.
Qed.

Lemma dispatch_presented e a : presented (gl (dispatch e a)) = presented (gl a).
Proof.
  destruct e; cbn [dispatch windowsize_callback key_callback mousebutton_callback
                   mousewheel_callback set_window gl]; try reflexivity.
  unfold mousepos_callback. destruct (first_held _); reflexivity.
Qed.

Lemma poll_presented (es : list (event D)) a : presented (gl (poll es a)) = presented (gl a).
Proof.
  revert a. induction es as [|e es IH]; intros a; [reflexivity|].
  rewrite poll_cons, IH. apply dispatch_presented.
Qed.

(** The uniform store the frame drawn in state [a] is shaded with. *)
Definition frame_store a : gmap Z (uniform_value D) :=
  uniform_store (upload_uniforms (frame_params (vp a) (drawMandelbrot a)) (glClear (gl a))).

Lemma draw_frame_presented a :
  presented (gl (draw_frame a)) = presented (gl a) ++ [Drawn (frame_store a)].
Proof. apply Draw_presented. Qed.

Lemma draw_frame_should_close a : should_close (win (draw_frame a)) = should_close (win a).
Proof. reflexivity. Qed.

(** The loop, started with the close flag clear, stops in the iteration
    that polls the first batch holding a close event, after drawing one
    frame per iteration. *)
Lemma main_loop_stops (pre : list (list (event D))) (es : list (event D)) post a :
  should_close (win a) = false ->
  Forall (fun b => existsb closes b = false) pre ->
  existsb closes es = true ->
  exists a', main_loop (pre ++ es :: post) a = Exited a' /\
    length (presented (gl a')) = (length (presented (gl a)) + length pre + 1)%nat.
Proof.
  revert a. induction pre as [|b pre IH]; intros a Ha Hpre Hes; cbn [app main_loop]; rewrite Ha.
  - destruct post; cbn [main_loop];
      rewrite poll_should_close, draw_frame_should_close, Ha, Hes; cbn;
      eexists; (split; [reflexivity|]);
      rewrite poll_presented, draw_frame_presented, length_app; cbn; lia.
  - apply Forall_cons in Hpre as [Hb Hpre].
    destruct (IH (poll b (draw_frame a))) as (a' & E & L); [| exact Hpre | exact Hes |].
    + rewrite poll_should_close, draw_frame_should_close, Ha, Hb. reflexivity.
    + exists a'. split; [exact E|].
      rewrite L, poll_presented, draw_frame_presented, length_app. cbn. lia.
Qed.

(** Without a close event the loop keeps drawing: one frame per batch and
    one more while it waits for the next poll. *)
Lemma main_loop_runs (bs : list (list (event D))) a :
  should_close (win a) = false ->
  Forall (fun b => existsb closes b = false) bs ->
  exists a', main_loop bs a = Waiting a' /\
    length (presented (gl a')) = (length (presented (gl a)) + length bs + 1)%nat.
Proof.
  revert a. induction bs as [|b bs IH]; intros a Ha Hbs; cbn [main_loop]; rewrite Ha.
  - eexists. split; [reflexivity|]. rewrite draw_frame_presented, length_app. cbn. lia.
  - apply Forall_cons in Hbs as [Hb Hbs].
    destruct (IH (poll b (draw_frame a))) as (a' & E & L); [| exact Hbs |].
    + rewrite poll_should_close, draw_frame_should_close, Ha, Hb. reflexivity.
    + exists a'. split; [exact E|].
      rewrite L, poll_presented, draw_frame_presented, length_app. cbn. lia.
Qed.

Lemma rtt_frame_presented a : presented (gl (rtt_frame a)) = presented (gl a).
Proof.
  cbn [rtt_frame gl RTT glDrawArrays presented]. rewrite upload_uniforms_presented. reflexivity.
Qed.

(** C19: [main] terminates exactly when a close request arrives: if the
    first batch holding ESC or the close button is the [k]-th poll, [main]
    exits after presenting [k+1] frames, whatever events come later; if
    no batch holds one, it is still drawing, one frame per poll. *)
Theorem main_stops_at_first_close (cx cy : D) (gl0 : GLState D)
    (pre : list (list (event D))) (es : list (event D)) (post : list (list (event D))) :
  Forall (fun b => existsb closes b = false) pre ->
  (existsb closes es = true ->
   exists a', main cx cy gl0 (pre ++ es :: post) = Exited a' /\
     length (presented (gl a')) = (length (presented gl0) + length pre + 1)%nat) /\
  (exists a', main cx cy gl0 pre = Waiting a' /\
     length (presented (gl a')) = (length (presented gl0) + length pre + 1)%nat).
Proof.
  intros Hpre. unfold main. split.
  - intros Hes. destruct (main_loop_stops pre es post (rtt_frame (initial_app cx cy gl0)) eq_refl Hpre Hes)
      as (a' & E & L).
    exists a'. split; [exact E|]. rewrite L, rtt_frame_presented. reflexivity.
  - destruct (main_loop_runs pre (rtt_frame (initial_app cx cy gl0)) eq_refl Hpre) as (a' & E & L).
    exists a'. split; [exact E|]. rewrite L, rtt_frame_presented. reflexivity.
Qed.

End Props.

(** ** A run of [main] *)

Local Open Scope Q_scope.

Lemma main_stops_at_first_close_witness :
  let pre : list (list (event Q)) := [[EvScroll 0 1; EvCursorPos 5 5]; []] in
  let es : list (event Q) := [EvMouseButton 0 GLFW_PRESS 0; EvKey GLFW_KEY_ESCAPE 9 GLFW_PRESS 0] in
  let post : list (list (event Q)) := [[EvScroll 0 2]] in
  (existsb closes es = true ->
   exists a', main 0 0 linked_gl (pre ++ es :: post) = Exited a' /\
     length (presented (gl a')) = (length (presented (@linked_gl Q)) + length pre + 1)%nat) /\
  (exists a', main 0 0 linked_gl pre = Waiting a' /\
     length (presented (gl a')) = (length (presented (@linked_gl Q)) + length pre + 1)%nat).
Proof. intros pre es post. apply main_stops_at_first_close. repeat constructor. Defined.

End Loop.
