(* ===== verification/LoopTree.v ===== *)
(** * The render loop as an interaction tree

    [Loop.main_loop] runs the loop of [main] (main.cpp lines 140-143)
    over a list of event batches given in advance, so every run it
    describes is finite.  Here the same loop is written the way it
    actually runs: [glfwPollEvents] is an event [PollEvents] whose
    answer is the batch the windowing system delivers, and the loop is
    [ITree.iter], which may go on forever.  Two things are shown: the
    loop only ever returns with the close flag set, after at least one
    presented frame, whatever the environment delivers (a loop invariant
    in [has_post] form, [has_post_iter_strong]); and interpreting the
    polls with a list of batches gives what [Loop.main_loop] computes,
    both when the loop exits and when the batches run out. *)

From Stdlib Require Import QArith ZArith List Lia.
From ITree Require Import ITree ITreeFacts Events.State Events.StateFacts Props.HasPost.
From S2P Require Import Prelude Viewport GL Input Loop.
Import Viewport GL Input Loop.
Import ListNotations Monads HasPostNotations.

Module LoopTree.

Section Tree.
Context {D : Type} `{Double D}.
Implicit Types (a : App D).

(** [glfwPollEvents()]: answered with the batch of events to dispatch. *)
Variant pollE : Type -> Type :=
  | PollEvents : pollE (list (event D)).

(** One iteration of [while (!glfwWindowShouldClose(window)) { Draw();
    glfwPollEvents(); }]: [inr] leaves the loop, [inl] goes round. *)
Definition loop_body a : itree pollE (App D + App D) :=
  if should_close (win a) then Ret (inr a)
  else
    let a1 := draw_frame a in
    ITree.bind (ITree.trigger PollEvents) (fun es => Ret (inl (poll es a1))).

Definition render_loop a : itree pollE (App D) := ITree.iter loop_body a.

(** [main] from the [RTT()] call on, as in [Loop.main]. *)
Definition main_tree (cx cy : D) (gl0 : GLState D) : itree pollE (App D) :=
  render_loop (rtt_frame (initial_app cx cy gl0)).

(** A windowing system that delivers the given batches in order, and
    after them leaves the polls to the environment. *)
Definition feed : pollE ~> stateT (list (list (event D))) (itree pollE) :=
  fun _ e =>
    match e in pollE T return stateT (list (list (event D))) (itree pollE) T with
    | PollEvents => fun bs =>
        match bs with
        | es :: rest => Ret (rest, es)
        | [] => ITree.map (fun es => ([], es)) (ITree.trigger PollEvents)
        end
    end.

End Tree.

Arguments pollE D : clear implicits.

Section Props.
Context {D : Type} `{Double D}.
Implicit Types (a : App D).

Lemma render_loop_closed a :
  should_close (win a) = true -> render_loop a ≅ Ret a.
Proof.
  intros E. unfold render_loop. rewrite unfold_iter. unfold loop_body. rewrite E.
  rewrite bind_ret_l. reflexivity.
Qed.

Lemma render_loop_open a :
  should_close (win a) = false ->
  render_loop a ≅
  ITree.bind (ITree.trigger PollEvents) (fun es => Tau (render_loop (poll es (draw_frame a)))).
Proof.
  intros E. unfold render_loop. rewrite unfold_iter. unfold loop_body. rewrite E.
  rewrite bind_bind. apply eqit_bind; [reflexivity|]. intros es. rewrite bind_ret_l. reflexivity.
Qed.

Lemma poll_draw_flag (es : list (event D)) a :
  (drawMandelbrot a = 0 \/ drawMandelbrot a = 1)%Z ->
  (drawMandelbrot (poll es a) = 0 \/ drawMandelbrot (poll es a) = 1)%Z.
Proof.
  revert a. induction es as [|e es IH]; intros a Ha; [exact Ha|].
  rewrite poll_cons. apply IH. destruct (dispatch_drawMandelbrot e a) as [-> | ->]; lia.
Qed.

(** What the loop keeps between iterations: the draw toggle is 0 or 1,
    and once the close flag is set a frame has been presented. *)
Definition loop_inv a : Prop :=
  (drawMandelbrot a = 0 \/ drawMandelbrot a = 1)%Z /\
  (should_close (win a) = false \/ (0 < length (presented (gl a)))%nat).

Lemma loop_body_inv a :
  loop_inv a ->
  loop_body a ⤳ sum_pred loop_inv
    (fun a' => should_close (win a') = true /\ loop_inv a').
Proof.
  intros [Hd Hp]. unfold loop_body. destruct (should_close (win a)) eqn:E.
  - apply eqit_Ret. cbn. split; [exact E|]. split; [exact Hd|].
    destruct Hp; [congruence | right; assumption].
  - eapply has_post_bind; [apply has_post_True|]. intros es _. apply eqit_Ret. cbn.
    split; [apply poll_draw_flag; exact Hd|]. right.
    rewrite poll_presented, draw_frame_presented, length_app. cbn. lia.
Qed.

(** C20: whatever batches the windowing system delivers, and however long
    it goes on delivering them, the loop of [main] can only return in a
    state whose close flag is set, whose draw toggle is 0 or 1, and in
    which at least one frame has been presented. *)
Theorem main_tree_returns_closed (cx cy : D) gl0 :
  main_tree cx cy gl0 ⤳
    (fun a => should_close (win a) = true /\
              (drawMandelbrot a = 0 \/ drawMandelbrot a = 1)%Z /\
              (0 < length (presented (gl a)))%nat).
Proof.
  eapply has_post_weaken.
  - apply has_post_iter_strong with (Inv := loop_inv); [exact loop_body_inv|].
    split; [right; reflexivity | left; reflexivity].
  - intros a [Hc [Hd [Hp | Hp]]]; [congruence|]. auto.
Qed.

(** The loop of [main] as an interaction tree over [glfwPollEvents] and
    as a function of the delivered batches ([Loop.main_loop]) agree: from
    any state, when the windowing system delivers the batches [bs], the
    tree returns the state in which [Loop.main_loop] exits; if
    [Loop.main_loop] is still waiting when the batches run out, the tree
    asks the environment for the next batch and continues from the state
    [Loop.main_loop] reports. *)
Lemma render_loop_feed (bs : list (list (event D))) a :
  match main_loop bs a with
  | Exited a' => exists rest, interp_state feed (render_loop a) bs ≈ Ret (rest, a')
  | Waiting a1 => interp_state feed (render_loop a) bs ≈
      ITree.bind (ITree.trigger PollEvents) (fun es => interp_state feed (render_loop (poll es a1)) [])
  end.
Proof.
  revert a. induction bs as [|es bs IH]; intros a; cbn [main_loop];
    destruct (should_close (win a)) eqn:E;
    [eexists; rewrite (render_loop_closed a E)| rewrite (render_loop_open a E)
    |eexists; rewrite (render_loop_closed a E)|].
  - rewrite interp_state_ret. reflexivity.
  - rewrite interp_state_bind, interp_state_trigger. cbn. rewrite bind_map.
    apply eutt_eq_bind. intros es. cbn. rewrite interp_state_tau, tau_eutt. reflexivity.
  - rewrite interp_state_ret. reflexivity.
  - specialize (IH (poll es (draw_frame a))).
    destruct (main_loop bs _) as [a' | a1]; [destruct IH as [rest IH]; exists rest |];
      rewrite (render_loop_open a E), interp_state_bind, interp_state_trigger; cbn;
      rewrite bind_ret_l; cbn; rewrite interp_state_tau, tau_eutt; exact IH.
Qed.

End Props.

End LoopTree.
