(* ===== verification/Float64.v ===== *)
(** * The binary64 reading of the camera arithmetic

    [F64_double] instantiates the [Double] class with Rocq's primitive
    IEEE-754 binary64 floats.  Their [+ - * /] are the correctly rounded
    operations of a C [double] under round-to-nearest.  The instance also
    gives:
    - [f64_of_Z], the exact [int] to [double] conversion;
    - [f64_lit], a decimal literal as the nearest double (one rounded
      division of two exactly representable integers);
    - [f64_pow], [pow] at an integral exponent by repeated multiplication.
      It agrees with <math.h> [pow] at exponents 0 and 1, the only ones
      the theorems below use;
    - [f64_trunc], the C conversion to [int]: truncation toward zero, and
      x86's "integer indefinite" [INT_MIN] for NaN, infinities and values
      out of range;
    - [f64_to_float], the narrowing of [glUniform1f] to a 24-bit
      significand by Veltkamp splitting.  It is exact for values in the
      normal range of [GLfloat]; the exponent range of [GLfloat] is not
      modelled.
    The exact theorems of [Viewport] and [Input] hold up to rounding
    here.  The theorems of this file run the same definitions of
    [main.cpp] in binary64 and show where the rounding, the float
    uniforms, division by zero and overflow change what the program
    does.  The statements over every state and every event sequence
    rest on the IEEE rules for NaN, infinities and zeros that the
    Standard Library's [FloatAxioms] give the primitive operations; the
    Section [Events] lifts a camera property kept by [resize], [zoom]
    and [pan] to every poll. *)

From Stdlib Require Import ZArith QArith Floats Uint63 Lia.
From stdpp Require Import base gmap strings list.
From S2P Require Import Prelude Viewport GL Input.
Import Viewport GL Input.

Local Set Warnings "-inexact-float,-abstract-large-number".

Module Float64.

Local Open Scope float_scope.

Definition f64_of_Z (z : Z) : float :=
  let f := PrimFloat.of_uint63 (Uint63.of_Z (Z.abs z)) in
  if (z <? 0)%Z then - f else f.

Definition f64_lit (q : Q) : float := f64_of_Z (Qnum q) / f64_of_Z (Zpos (Qden q)).

Definition f64_pow (b : float) (n : Z) : float :=
  match n with
  | Z0 => 1
  | Zpos p => Pos.iter (fun acc => acc * b) 1 p
  | Zneg p => 1 / Pos.iter (fun acc => acc * b) 1 p
  end.

Definition f64_trunc (f : float) : Z :=
  match FloatOps.Prim2SF f with
  | S754_zero _ => 0
  | S754_finite s m e =>
      let t := if (0 <=? e)%Z then (Zpos m * 2 ^ e)%Z else (Zpos m / 2 ^ (- e))%Z in
      let z := if s then (- t)%Z else t in
      if in_int z then z else int_min
  | _ => int_min
  end.

(** [2^29 + 1]: splitting a 53-bit significand leaves its top 24 bits. *)
Definition veltkamp_c : float := 536870913.

Definition f64_to_float (x : float) : float :=
  let p := x * veltkamp_c in p - (p - x).

#[export] Instance F64_double : Double float := {
  dadd := PrimFloat.add;
  dsub := PrimFloat.sub;
  dmul := PrimFloat.mul;
  ddiv := PrimFloat.div;
  dlit := f64_lit;
  dof_int := f64_of_Z;
  dpow := f64_pow;
  dtrunc := f64_trunc;
  dto_float := f64_to_float
}.


(** ** The program in binary64 *)

Definition v0 : Viewport float := initial_viewport.

(** [n] notches of the wheel away from the viewer. *)
Definition zoom_in_times (n : nat) (v : Viewport float) : Viewport float := Nat.iter n (zoom 1) v.

(** [minx] equals [m] for the next [n] notches from [v]. *)
Fixpoint minx_stays (n : nat) (m : float) (v : Viewport float) : bool :=
  match n with
  | O => (minx v =? m)
  | S n' => (minx v =? m) && minx_stays n' m (zoom 1 v)
  end.

Lemma minx_stays_spec n m v j :
  minx_stays n m v = true -> (j <= n)%nat -> (minx (zoom_in_times j v) =? m) = true.
Proof.
  revert v j. induction n as [|n IH]; intros v j C Hj; cbn [minx_stays] in C.
  - destruct j; [exact C | lia].
  - apply andb_prop in C as [C0 C1]. destruct j as [|j]; [exact C0|].
    unfold zoom_in_times. rewrite Nat.iter_succ_r. apply IH; [exact C1 | lia].
Qed.

Lemma zoom_in_times_add a b v : zoom_in_times (a + b) v = zoom_in_times a (zoom_in_times b v).
Proof. apply Nat.iter_add. Qed.

Lemma zoom_in_times_fixed j v : zoom 1 v = v -> zoom_in_times j v = v.
Proof.
  intros E. induction j as [|j IH]; [reflexivity|].
  unfold zoom_in_times in *. rewrite Nat.iter_succ, IH. exact E.
Qed.

(** From [k] notches on the camera no longer moves. *)
Lemma zoom_in_times_stuck k j v :
  zoom 1 (zoom_in_times k v) = zoom_in_times k v -> (k <= j)%nat -> zoom_in_times j v = zoom_in_times k v.
Proof.
  intros E Hk. rewrite <- (Nat.sub_add k j Hk), zoom_in_times_add. apply zoom_in_times_fixed, E.
Qed.

(** C22: the centre of the view is fixed by [mousewheel_callback] only up
    to rounding.  In binary64, from the initial camera: two notches move
    its x coordinate, by less than [1e-15]; from the 683rd notch on,
    [minx] no longer moves at all (its [dx*0.025] step is below half an
    ulp), so the zoom is anchored at the left edge instead of the centre;
    and from the 14491st notch on the wheel has no effect any more: [dx]
    is stuck at a positive subnormal that [*0.95] rounds back to itself. *)
Theorem zoom_center_drift_binary64 :
  let v2 := zoom 1 (zoom 1 v0) in
  (center_x v2 =? center_x v0) = false /\
  (abs (center_x v2 - center_x v0) <=? 1e-15) = true /\
  (minx (zoom_in_times 682 v0) =? minx (zoom_in_times 683 v0)) = false /\
  (forall k, (683 <= k)%nat -> (minx (zoom_in_times k v0) =? minx (zoom_in_times 683 v0)) = true) /\
  (dx (zoom_in_times 14490 v0) =? dx (zoom_in_times 14491 v0)) = false /\
  (0 <? dx (zoom_in_times 14491 v0)) = true /\
  (forall k, (14491 <= k)%nat -> zoom_in_times k v0 = zoom_in_times 14491 v0).
Proof.
  assert (Fix : zoom 1 (zoom_in_times 14491 v0) = zoom_in_times 14491 v0) by (vm_compute; reflexivity).
  assert (C : minx_stays (14491 - 683) (minx (zoom_in_times 683 v0)) (zoom_in_times 683 v0) = true)
    by (vm_compute; reflexivity).
  cbv zeta. split; [vm_compute; reflexivity|]. split; [vm_compute; reflexivity|].
  split; [vm_compute; reflexivity|]. split.
  - intros k Hk.
    assert (H683 : (683 <= 14491)%nat) by (apply Nat.leb_le; reflexivity).
    assert (E : exists j, (j <= 14491 - 683)%nat /\
                  zoom_in_times k v0 = zoom_in_times j (zoom_in_times 683 v0)).
    { destruct (Nat.le_gt_cases k 14491) as [Hle | Hgt].
      - exists (k - 683)%nat. split; [apply Nat.sub_le_mono_r, Hle|].
        rewrite <- zoom_in_times_add, Nat.sub_add by exact Hk. reflexivity.
      - exists (14491 - 683)%nat. split; [apply Nat.le_refl|].
        rewrite <- zoom_in_times_add, Nat.sub_add by exact H683.
        apply zoom_in_times_stuck; [exact Fix | apply Nat.lt_le_incl, Hgt]. }
    destruct E as (j & Hj & ->). exact (minx_stays_spec _ _ _ _ C Hj).
  - split; [vm_compute; reflexivity|]. split; [vm_compute; reflexivity|].
    intros k Hk. apply zoom_in_times_stuck; [exact Fix | exact Hk].
Qed.

(** A camera deep in the seahorse valley: a view 3.2e-9 wide. *)
Definition deep_view : Viewport float :=
  mkViewport 1600 900 3.2e-9 1.8e-9 (-0.743643887037151) 0.13182590420533.

(** [glUniform1f] narrows the camera to [GLfloat]: at the deep camera a
    drag across the full window width (1600 pixels) moves [minx] in
    double, yet [Draw] uploads the same [minx] uniform as before the
    drag, so the shader's view does not move. *)
Theorem window_drag_lost_in_upload :
  let v' := pan 1600 0 0 0 deep_view in
  (minx v' =? minx deep_view) = false /\
  read_uniform linked_gl (uniform_store (upload_uniforms (frame_params v' 1) (glClear linked_gl))) "minx"
  = read_uniform linked_gl (uniform_store (upload_uniforms (frame_params deep_view 1) (glClear linked_gl))) "minx".
Proof. vm_compute. split; reflexivity. Qed.

(** ** Cameras that never recover

    IEEE arithmetic does not stop at NaN or infinity: the operations of
    [windowsize_callback] and [mousewheel_callback] carry them on.  The
    lemmas below read each operation through its specification in
    [FloatAxioms] ([Prim2SF (x * y) = SF64mul (Prim2SF x) (Prim2SF y)],
    and so on), once per class of special value. *)

(** [x] is a NaN. *)
Definition nan_sf (x : float) : Prop := Prim2SF x = S754_nan.

(** [x] is an infinity or a NaN. *)
Definition nonfinite (x : float) : Prop :=
  match Prim2SF x with S754_infinity _ | S754_nan => True | _ => False end.

(** [x] is a zero or a NaN. *)
Definition zero_or_nan (x : float) : Prop :=
  match Prim2SF x with S754_zero _ | S754_nan => True | _ => False end.

Lemma nan_sf_is_nan x : nan_sf x -> is_nan x = true.
Proof. unfold nan_sf, is_nan. intros E. rewrite FloatAxioms.eqb_spec, E. reflexivity. Qed.

Lemma Prim2SF_infinity : Prim2SF infinity = S754_infinity false.
Proof. vm_compute. reflexivity. Qed.

Lemma nonfinite_not_finite x : nonfinite x -> is_finite x = false.
Proof.
  unfold nonfinite, is_finite, is_nan, is_infinity.
  rewrite !FloatAxioms.eqb_spec, FloatAxioms.abs_spec, Prim2SF_infinity.
  destruct (Prim2SF x) as [| s | |]; try contradiction; [destruct s|]; reflexivity.
Qed.

Lemma mul_nan_l x y : nan_sf x -> nan_sf (x * y).
Proof. unfold nan_sf. intros E. rewrite FloatAxioms.mul_spec, E. reflexivity. Qed.

Lemma div_nan_l x y : nan_sf x -> nan_sf (x / y).
Proof. unfold nan_sf. intros E. rewrite FloatAxioms.div_spec, E. reflexivity. Qed.

Lemma mul_nonfinite_l x y : nonfinite x -> nonfinite (x * y).
Proof.
  unfold nonfinite. rewrite FloatAxioms.mul_spec.
  destruct (Prim2SF x); try contradiction; destruct (Prim2SF y); cbn; auto.
Qed.

Lemma div_nonfinite_l x y : nonfinite x -> nonfinite (x / y).
Proof.
  unfold nonfinite. rewrite FloatAxioms.div_spec.
  destruct (Prim2SF x); try contradiction; destruct (Prim2SF y); cbn; auto.
Qed.

Lemma mul_zero_or_nan_l x y : zero_or_nan x -> zero_or_nan (x * y).
Proof.
  unfold zero_or_nan. rewrite FloatAxioms.mul_spec.
  destruct (Prim2SF x); try contradiction; destruct (Prim2SF y); cbn; auto.
Qed.

Lemma mul_zero_r x y s : Prim2SF y = S754_zero s -> zero_or_nan (x * y).
Proof.
  unfold zero_or_nan. intros E. rewrite FloatAxioms.mul_spec, E. destruct (Prim2SF x); cbn; auto.
Qed.

Lemma div_zero_or_nan_zero x y s : zero_or_nan x -> Prim2SF y = S754_zero s -> nan_sf (x / y).
Proof.
  unfold zero_or_nan, nan_sf. intros Hx E. rewrite FloatAxioms.div_spec, E.
  destruct (Prim2SF x); try contradiction; reflexivity.
Qed.

(** A camera property that resizes, zooms and pans keep is kept by every
    event and every poll. *)
Section Events.
Variable P : Viewport float -> Prop.
Hypothesis P_resize : forall w h v, P v -> P (resize w h v).
Hypothesis P_zoom : forall s v, P v -> P (zoom s v).
Hypothesis P_pan : forall x y px py v, P v -> P (pan x y px py v).

Lemma dispatch_keeps e (a : App float) : P (vp a) -> P (vp (dispatch e a)).
Proof.
  intros Ha. destruct e; cbn [dispatch windowsize_callback key_callback mousebutton_callback
    mousewheel_callback set_window vp]; auto.
  unfold mousepos_callback. destruct (first_held _); cbn [vp]; auto.
Qed.

Lemma poll_keeps es (a : App float) : P (vp a) -> P (vp (poll es a)).
Proof.
  revert a. induction es as [|e es IH]; intros a Ha; [exact Ha|].
  rewrite poll_cons. apply IH, dispatch_keeps, Ha.
Qed.

End Events.

(** Both extents NaN. *)
Definition cam_nan (v : Viewport float) : Prop := nan_sf (dx v) /\ nan_sf (dy v).

(** Both extents infinite or NaN. *)
Definition cam_nonfinite (v : Viewport float) : Prop := nonfinite (dx v) /\ nonfinite (dy v).

(** After a zero-height resize: a zero height and a zero (or NaN) [dy]. *)
Definition cam_collapsed (v : Viewport float) : Prop :=
  (exists s, Prim2SF (resy v) = S754_zero s) /\ zero_or_nan (dy v).

Lemma cam_nan_kept e (a : App float) : cam_nan (vp a) -> cam_nan (vp (dispatch e a)).
Proof.
  apply (dispatch_keeps cam_nan).
  - intros w h v [_ Hy]. split; apply mul_nan_l, div_nan_l, Hy.
  - intros s v [Hx Hy]. split; apply mul_nan_l; assumption.
  - intros x y px py v H. exact H.
Qed.

Lemma cam_nonfinite_kept es (a : App float) : cam_nonfinite (vp a) -> cam_nonfinite (vp (poll es a)).
Proof.
  apply (poll_keeps cam_nonfinite).
  - intros w h v [_ Hy]. split; apply mul_nonfinite_l, div_nonfinite_l, Hy.
  - intros s v [Hx Hy]. split; apply mul_nonfinite_l; assumption.
  - intros x y px py v H. exact H.
Qed.

Lemma f64_of_Z_0 : Prim2SF (f64_of_Z 0) = S754_zero false.
Proof. vm_compute. reflexivity. Qed.

Lemma resize_height0 w v : cam_collapsed (resize w 0 v).
Proof. split; [exists false; apply f64_of_Z_0 | apply (mul_zero_r _ _ false f64_of_Z_0)]. Qed.

(** Until the next resize the camera stays collapsed or has already lost
    its extents; the next resize divides a zero by a zero. *)
Lemma collapsed_or_nan_kept es (a : App float) :
  cam_collapsed (vp a) \/ cam_nan (vp a) ->
  cam_collapsed (vp (poll es a)) \/ cam_nan (vp (poll es a)).
Proof.
  apply (poll_keeps (fun v => cam_collapsed v \/ cam_nan v)).
  - intros w h v [[[s Hs] Hy] | [_ Hy]]; right.
    + split; apply mul_nan_l, (div_zero_or_nan_zero _ _ s Hy Hs).
    + split; apply mul_nan_l, div_nan_l, Hy.
  - intros s v [[Hr Hy] | [Hx Hy]]; [left | right].
    + split; [exact Hr | apply mul_zero_or_nan_l, Hy].
    + split; apply mul_nan_l; assumption.
  - intros x y px py v H. exact H.
Qed.

Lemma nan_poll es (a : App float) : cam_nan (vp a) -> cam_nan (vp (poll es a)).
Proof.
  revert a. induction es as [|e es IH]; intros a Ha; [exact Ha|].
  rewrite poll_cons. apply IH, cam_nan_kept, Ha.
Qed.

(** C9: in binary64 a zero-height window size (a minimised window) loses
    the camera for good.  From any state, after [windowsize_callback]
    with height 0, whatever events follow, the next window size event
    reads [distance_per_pixel = dy/resy = 0/0]: from then on [dx] and
    [dy] are NaN, whatever events come after. *)
Theorem minimize_loses_view_binary64 (a : App float) (w w' h' : Z) (es1 es2 : list (event float)) :
  let a' := poll (EvWindowSize w 0 :: es1 ++ EvWindowSize w' h' :: es2) a in
  is_nan (dx (vp a')) = true /\ is_nan (dy (vp a')) = true.
Proof.
  cbv zeta. rewrite poll_cons, poll_app, poll_cons.
  assert (H : cam_nan (vp (dispatch (EvWindowSize w' h') (poll es1 (dispatch (EvWindowSize w 0) a))))).
  { destruct (collapsed_or_nan_kept es1 (dispatch (EvWindowSize w 0) a)) as [[[s Hs] Hy] | Hn].
    - left. apply resize_height0.
    - split; apply mul_nan_l, (div_zero_or_nan_zero _ _ s Hy Hs).
    - apply cam_nan_kept, Hn. }
  destruct (nan_poll es2 _ H) as [Hx Hy]. split; apply nan_sf_is_nan; assumption.
Qed.

(** [n] notches of the wheel toward the viewer. *)
Definition zoom_out_times (n : nat) (v : Viewport float) : Viewport float := Nat.iter n (zoom (-1)) v.

(** C16: in binary64, zooming out overflows and then no event brings the
    view back.  From the initial camera, [dy] is still finite after
    13824 notches toward the viewer; after 13825 both [dx] and [dy] are
    infinite, and from any state with that camera, whatever events
    follow (resizes, zooms in, drags), [dx] and [dy] are never finite
    again. *)
Theorem zoom_out_overflow_binary64 :
  let v := zoom_out_times 13825 v0 in
  is_finite (dy (zoom_out_times 13824 v0)) = true /\
  is_infinity (dx v) = true /\ is_infinity (dy v) = true /\
  forall (a : App float) es, vp a = v ->
    is_finite (dx (vp (poll es a))) = false /\ is_finite (dy (vp (poll es a))) = false.
Proof.
  cbv zeta.
  assert (Hv : cam_nonfinite (zoom_out_times 13825 v0)) by (split; vm_compute; exact I).
  split; [vm_compute; reflexivity|]. split; [vm_compute; reflexivity|].
  split; [vm_compute; reflexivity|].
  intros a es Ha. rewrite <- Ha in Hv. destruct (cam_nonfinite_kept es a Hv) as [Hx Hy].
  split; apply nonfinite_not_finite; assumption.
Qed.

(** The initial globals with the camera zoomed out 13825 notches. *)
Definition zoomed_out_app : App float :=
  {| vp := zoom_out_times 13825 v0; prevx := 0; prevy := 0; clickedButtons := 0;
     drawMandelbrot := 1; win := mkWindow false 0 0; gl := linked_gl |}.

Lemma zoom_out_overflow_binary64_witness :
  is_finite (dx (vp (poll [EvWindowSize 800 600; EvScroll 0 100] zoomed_out_app))) = false.
Proof.
  destruct zoom_out_overflow_binary64 as (_ & _ & _ & H).
  exact (proj1 (H zoomed_out_app [EvWindowSize 800 600; EvScroll 0 100] eq_refl)).
Defined.

(** ** Window sizes through [double] and back

    [windowsize_callback] stores the [int] sizes GLFW reports as doubles
    and converts them back to [int] for [glViewport].  Every size below
    [2^16] (above the viewport sizes GL implementations commonly
    accept) survives the round trip; the check runs the two conversions
    on each of the 65536 sizes. *)

Lemma f64_trunc_of_Z_check :
  all_between (fun w => Z.eqb (f64_trunc (f64_of_Z w)) w) 0 65536 = true.
Proof. vm_compute. reflexivity. Qed.

Lemma f64_trunc_of_Z (w : Z) : (0 <= w < 65536)%Z -> f64_trunc (f64_of_Z w) = w.
Proof.
  intros Hw. apply Z.eqb_eq, (all_between_spec _ 0 65536 w f64_trunc_of_Z_check). lia.
Qed.

(** C21: in binary64, [windowsize_callback] hands [glViewport] exactly the
    size GLFW reports: for every width and height below 65536 the new
    resolution, a pair of doubles converted back to [int], gives the
    viewport rectangle [(0, 0, width, height)]. *)
Theorem resize_viewport_exact_binary64 (w h : Z) (a : App float) :
  (0 <= w < 65536)%Z -> (0 <= h < 65536)%Z ->
  gl_viewport (gl (windowsize_callback w h a)) = (0%Z, 0%Z, w, h).
Proof.
  intros Hw Hh. unfold windowsize_callback, glViewport, resize. cbn [gl gl_viewport resx resy].
  cbn [dtrunc dof_int F64_double]. rewrite !f64_trunc_of_Z by assumption. reflexivity.
Qed.

Lemma resize_viewport_exact_binary64_witness :
  gl_viewport (gl (windowsize_callback 1920 1080 (initial_app 0 0 linked_gl))) = (0%Z, 0%Z, 1920%Z, 1080%Z).
Proof. apply resize_viewport_exact_binary64; lia. Defined.

End Float64.
