(* ===== verification/Process.v ===== *)
(** * The process: how a C function ends, and the state-and-exit monad

    The start-up code of main.cpp threads the process state (files,
    standard output, the heap, the GLFW and GL objects) through library
    calls, any of which can end the process: [exit(n)] in [initGL], or a
    crash when [readFile] hands a null [FILE*] to [fseek].  [Proc S A] is
    a computation over the state [S] that either returns a value of [A]
    or ends the process with a [status]; both carry the state reached.
    Bind is stdpp's [≫=], so the code reads [x ← f; g x] and [f ;; g].
    [hoare] is a program logic over [Proc], for properties of every run
    rather than of one. *)

From Stdlib Require Import ZArith.
From stdpp Require Import base strings.

Module Process.

(** How the process ends. *)
Inductive status :=
  | ExitCode (code : Z)     (** [exit(code)], or [return code] from [main] *)
  | Crash (why : string).   (** undefined behaviour that ends the process *)

Definition Proc (S A : Type) : Type := S -> (status * S) + (A * S).

Section Monad.
Context {S : Type}.

#[export] Instance proc_ret : MRet (Proc S) := fun A x s => inr (x, s).
#[export] Instance proc_bind : MBind (Proc S) := fun A B f m s =>
  match m s with
  | inl e => inl e
  | inr (x, s') => f x s'
  end.

Definition get : Proc S S := fun s => inr (s, s).
Definition modify (f : S -> S) : Proc S unit := fun s => inr (tt, f s).
Definition exit_ {A} (code : Z) : Proc S A := fun s => inl (ExitCode code, s).
Definition crash {A} (why : string) : Proc S A := fun s => inl (Crash why, s).

(** [runs m s x s']: started in [s], [m] returns [x] in state [s']. *)
Definition runs {A} (m : Proc S A) (s : S) (x : A) (s' : S) : Prop := m s = inr (x, s').

Lemma bind_inr {A B} (m : Proc S A) (f : A -> Proc S B) s x s' :
  m s = inr (x, s') -> (m ≫= f) s = f x s'.
Proof. intros E. unfold mbind, proc_bind. rewrite E. reflexivity. Qed.

Lemma bind_inl {A B} (m : Proc S A) (f : A -> Proc S B) s e :
  m s = inl e -> (m ≫= f) s = inl e.
Proof. intros E. unfold mbind, proc_bind. rewrite E. reflexivity. Qed.

Lemma runs_bind {A B} (m : Proc S A) (f : A -> Proc S B) s x s1 y s2 :
  runs m s x s1 -> runs (f x) s1 y s2 -> runs (m ≫= f) s y s2.
Proof. unfold runs. intros E1 E2. rewrite (bind_inr _ _ _ _ _ E1). exact E2. Qed.

Lemma runs_ret {A} (x : A) s : runs (mret x) s x s.
Proof. reflexivity. Qed.

Lemma runs_modify f s : runs (modify f) s tt (f s).
Proof. reflexivity. Qed.

Lemma runs_get s : runs get s s s.
Proof. reflexivity. Qed.

(** [stops m s st s']: started in [s], [m] ends the process with [st]. *)
Definition stops {A} (m : Proc S A) (s : S) (st : status) (s' : S) : Prop := m s = inl (st, s').

Lemma stops_bind_l {A B} (m : Proc S A) (f : A -> Proc S B) s st s' :
  stops m s st s' -> stops (m ≫= f) s st s'.
Proof. apply bind_inl. Qed.

Lemma stops_bind_r {A B} (m : Proc S A) (f : A -> Proc S B) s x s1 st s2 :
  runs m s x s1 -> stops (f x) s1 st s2 -> stops (m ≫= f) s st s2.
Proof. unfold runs, stops. intros E1 E2. rewrite (bind_inr _ _ _ _ _ E1). exact E2. Qed.

End Monad.

(** Symbolic execution of one bind: run its first computation with
    [tac], whether the whole computation returns or ends the process. *)
Ltac proc_step tac :=
  first [eapply runs_bind; [tac|] | eapply stops_bind_r; [tac|]].

(** ** A program logic for [Proc]

    [hoare P m Q E]: started in a state satisfying [P], [m] either
    returns [x] in a state satisfying [Q x], or ends the process with a
    status satisfying [E].  [E] lists the ways a computation may end the
    process; [E := fun _ => False] says that it does not. *)

Section Hoare.
Context {S : Type}.
Implicit Types (P : S -> Prop) (E : status -> Prop).

Definition hoare {A} P (m : Proc S A) (Q : A -> S -> Prop) E : Prop :=
  forall s, P s -> match m s with inl (st, _) => E st | inr (x, s') => Q x s' end.

Lemma hoare_bind {A B} P (m : Proc S A) (f : A -> Proc S B) Q R E :
  hoare P m Q E -> (forall x, hoare (Q x) (f x) R E) -> hoare P (m ≫= f) R E.
Proof.
  intros Hm Hf s Hs. specialize (Hm s Hs). unfold mbind, proc_bind.
  destruct (m s) as [[st s'] | [x s']]; [exact Hm | exact (Hf x s' Hm)].
Qed.

Lemma hoare_ret {A} P (x : A) (Q : A -> S -> Prop) E :
  (forall s, P s -> Q x s) -> hoare P (mret x) Q E.
Proof. intros H s Hs. exact (H s Hs). Qed.

Lemma hoare_get P Q E : (forall s, P s -> Q s s) -> hoare P get Q E.
Proof. intros H s Hs. exact (H s Hs). Qed.

Lemma hoare_modify P f Q E : (forall s, P s -> Q tt (f s)) -> hoare P (modify f) Q E.
Proof. intros H s Hs. exact (H s Hs). Qed.

Lemma hoare_exit {A} P (c : Z) (Q : A -> S -> Prop) E :
  E (ExitCode c) -> hoare P (exit_ c) Q E.
Proof. intros H s _. exact H. Qed.

Lemma hoare_crash {A} P why (Q : A -> S -> Prop) E : E (Crash why) -> hoare P (crash why) Q E.
Proof. intros H s _. exact H. Qed.

Lemma hoare_weaken {A} P P' (m : Proc S A) Q Q' E E' :
  hoare P m Q E ->
  (forall s, P' s -> P s) -> (forall x s, Q x s -> Q' x s) -> (forall st, E st -> E' st) ->
  hoare P' m Q' E'.
Proof.
  intros H HP HQ HE s Hs. specialize (H s (HP s Hs)).
  destruct (m s) as [[st s'] | [x s']]; auto.
Qed.

(** A single run read as a triple. *)
Lemma hoare_runs {A} (m : Proc S A) s x s' (Q : A -> S -> Prop) E :
  runs m s x s' -> Q x s' -> hoare (eq s) m Q E.
Proof. unfold runs. intros R HQ s0 <-. rewrite R. exact HQ. Qed.

Lemma hoare_stops {A} (m : Proc S A) s st s' (Q : A -> S -> Prop) E :
  stops m s st s' -> E st -> hoare (eq s) m Q E.
Proof. unfold stops. intros R HE s0 <-. rewrite R. exact HE. Qed.

(** An invariant [I] of [m]: a triple whose postcondition is [I] again. *)
Lemma hoare_inv_bind {A B} (I : S -> Prop) (m : Proc S A) (f : A -> Proc S B) E :
  hoare I m (fun _ => I) E -> (forall x, hoare I (f x) (fun _ => I) E) ->
  hoare I (m ≫= f) (fun _ => I) E.
Proof. intros Hm Hf. eapply hoare_bind; [exact Hm | exact Hf]. Qed.

Lemma hoare_inv_modify (I : S -> Prop) f E :
  (forall s, I s -> I (f s)) -> hoare I (modify f) (fun _ => I) E.
Proof. intros H. apply hoare_modify. exact H. Qed.

End Hoare.

(** Symbolic execution against triples: split a bind, proving its first
    computation with [tac]. *)
Ltac hoare_step tac := eapply hoare_bind; [tac | intros ?; cbv beta].

(** A disjunct of a list of allowed ends. *)
Ltac pick_end := first [reflexivity | left; reflexivity | right; pick_end].

Arguments Proc : clear implicits.

End Process.
