(* ===== verification/Host.v ===== *)
(** * The host: libc, GLFW and the GL object table, as the start-up code uses them

    The start-up half of main.cpp ([readFile], [CompileShader],
    [LoadShaders], [initGL], the set-up and clean-up in [main]) only calls
    libraries.  This file models the part of their behaviour these calls
    depend on, from the libraries' documentation; none of it is code of
    the repository.
    - [Host] is the process state: the file system, standard output and
      error, the heap (blocks of possibly uninitialised bytes), the GLFW
      state and the GL object table.
    - [Platform] says which of [glfwInit], [glfwCreateWindow] and
      [glewInit] the machine lets succeed.
    - [GLSLDriver] is the GLSL compiler and linker of the GL driver: the
      shader sources are not part of main.cpp, so what they compile to
      is left open.
    - GL names come from one counter [next_name], starting at 1; a
      driver may choose any unused name, and the theorems only use that
      the names are fresh.
    Every GL call needs a current context and crashes otherwise.  The
    triples at the end show that, with the context current, no GL call
    ends the process or releases the context. *)

From Stdlib Require Import QArith ZArith Strings.Byte.
From stdpp Require Import base gmap strings list pretty.
From S2P Require Import Process.
Import Process.

Module Host.
Local Open Scope Z_scope.

#[export] Instance byte_eq_decision : EqDecision byte := Byte.byte_eq_dec.

Inductive shader_type := GL_VERTEX_SHADER | GL_FRAGMENT_SHADER.

(** The parameters main.cpp queries with [glGetShaderiv] and [glGetProgramiv]. *)
Inductive iv_param := GL_COMPILE_STATUS | GL_LINK_STATUS | GL_INFO_LOG_LENGTH.

Record Shader := mkShader {
  sh_type : shader_type;
  sh_source : list byte;
  sh_compiled : bool;
  sh_log : string;
  sh_deleted : bool      (** flagged by [glDeleteShader] *)
}.

Record Program := mkProgram {
  prog_shaders : list Z;            (** attached shaders, in attach order *)
  prog_linked : bool;
  prog_uniforms : gmap string Z;    (** active uniforms of the linked program *)
  prog_log : string;
  prog_deleted : bool
}.

Record GLObjects := mkObjs {
  shaders : gmap Z Shader;
  programs : gmap Z Program;
  vertex_arrays : gset Z;
  vertex_array_binding : Z;
  buffers : gmap Z (list Q);        (** data stores, as [GLfloat] values *)
  array_buffer : Z;                 (** binding of [GL_ARRAY_BUFFER] *)
  next_name : Z
}.

(** The GLSL compiler and linker.  The linker gets the attached shaders
    and returns the link status, the active uniforms' locations and the
    info log. *)
Class GLSLDriver := {
  glsl_compile : shader_type -> list byte -> bool * string;
  glsl_link : list Shader -> bool * gmap string Z * string
}.

(** The functions main.cpp passes to GLFW.  The scroll and cursor
    callbacks have the same C type, [void (GLFWwindow*, double, double)],
    so either function fits either slot; the other three slots have one
    candidate each and are registered or not. *)
Inductive dd_fn := mousepos_fn | mousewheel_fn.

Record Callbacks := mkCallbacks {
  size_cb : bool;
  key_cb : bool;
  button_cb : bool;
  scroll_cb : option dd_fn;
  cursor_cb : option dd_fn
}.

Record WindowInfo := mkWindowInfo { win_width : Z; win_height : Z; win_title : string }.

Record GLFW := mkGLFW {
  glfw_inited : bool;
  hints : list (Z * Z);             (** [glfwWindowHint] calls, in order *)
  window : option WindowInfo;
  context_current : bool;
  glew_inited : bool;
  callbacks : Callbacks;
  swap_interval : Z;
  clear_color : Q * Q * Q * Q
}.

Record Platform := mkPlatform { can_init : bool; can_open_window : bool; can_init_glew : bool }.

Record Host := mkHost {
  platform : Platform;
  files : gmap string (list byte);
  stdout : list string;
  stderr : list string;
  heap : list (list (option byte)); (** malloc'd blocks; the address is the index *)
  glfw : GLFW;
  objs : GLObjects
}.

Definition no_callbacks : Callbacks := mkCallbacks false false false None None.

(** The host before [main]: GLFW not initialised, no GL objects. *)
Definition boot (p : Platform) (fs : gmap string (list byte)) : Host :=
  mkHost p fs [] [] []
    (mkGLFW false [] None false false no_callbacks 0 (0%Q, 0%Q, 0%Q, 0%Q))
    (mkObjs ∅ ∅ ∅ 0%Z ∅ 0%Z 1%Z).

Definition set_glfw (g : GLFW) (h : Host) : Host :=
  mkHost (platform h) (files h) (stdout h) (stderr h) (heap h) g (objs h).
Definition set_objs (o : GLObjects) (h : Host) : Host :=
  mkHost (platform h) (files h) (stdout h) (stderr h) (heap h) (glfw h) o.
Definition set_heap (hp : list (list (option byte))) (h : Host) : Host :=
  mkHost (platform h) (files h) (stdout h) (stderr h) hp (glfw h) (objs h).

Definition nl : string := String (Ascii.ascii_of_nat 10) EmptyString.

(** ** libc *)

Definition put_stdout (s : string) (h : Host) : Host :=
  mkHost (platform h) (files h) (stdout h ++ [s]) (stderr h) (heap h) (glfw h) (objs h).

Definition printf (s : string) : Proc Host unit := modify (put_stdout s).

Definition eprintf (s : string) : Proc Host unit :=
  modify (fun h => mkHost (platform h) (files h) (stdout h) (stderr h ++ [s]) (heap h) (glfw h) (objs h)).

(** [fopen(name, "rb")]: the file's bytes, or the null [FILE*]. *)
Definition fopen (name : string) : Proc Host (option (list byte)) :=
  h ← get; mret (files h !! name).

(** [malloc(n)]: a fresh block of [n] uninitialised bytes. *)
Definition malloc (n : Z) : Proc Host Z :=
  h ← get;
  modify (set_heap (heap h ++ [replicate (Z.to_nat n) None])) ;;
  mret (Z.of_nat (length (heap h))).

(** Writing [bs] at offset [off] of the block at [p]. *)
Definition store_bytes (p off : Z) (bs : list byte) : Proc Host unit :=
  modify (fun h => set_heap (alter (list_inserts (Z.to_nat off) (map Some bs)) (Z.to_nat p) (heap h)) h).

(** The C string a block holds: its bytes up to the first NUL; reading an
    uninitialised byte, or past the end, is undefined. *)
Fixpoint c_string (blk : list (option byte)) : option (list byte) :=
  match blk with
  | [] => None
  | None :: _ => None
  | Some b :: rest =>
      if Byte.eqb b x00 then Some [] else bs ← c_string rest; Some (b :: bs)
  end.

Definition load_c_string (p : Z) : Proc Host (list byte) :=
  h ← get;
  match heap h !! Z.to_nat p ≫= c_string with
  | Some s => mret s
  | None => crash "read of an unterminated string"
  end.

(** ** GL *)

Definition need_context : Proc Host unit :=
  h ← get; if context_current (glfw h) then mret () else crash "GL call without a current context".

Definition modify_objs (f : GLObjects -> GLObjects) : Proc Host unit :=
  need_context ;; modify (fun h => set_objs (f (objs h)) h).

Definition bump_name (o : GLObjects) : GLObjects :=
  mkObjs (shaders o) (programs o) (vertex_arrays o) (vertex_array_binding o) (buffers o)
    (array_buffer o) (next_name o + 1).

Definition fresh_name : Proc Host Z :=
  need_context ;; h ← get;
  modify (fun h => set_objs (bump_name (objs h)) h) ;;
  mret (next_name (objs h)).

Definition set_shaders (m : gmap Z Shader) (o : GLObjects) : GLObjects :=
  mkObjs m (programs o) (vertex_arrays o) (vertex_array_binding o) (buffers o) (array_buffer o) (next_name o).
Definition set_programs (m : gmap Z Program) (o : GLObjects) : GLObjects :=
  mkObjs (shaders o) m (vertex_arrays o) (vertex_array_binding o) (buffers o) (array_buffer o) (next_name o).

Definition glCreateShader (t : shader_type) : Proc Host Z :=
  n ← fresh_name;
  modify_objs (fun o => set_shaders (<[n := mkShader t [] false "" false]> (shaders o)) o) ;; mret n.

(** [glShaderSource(id, 1, &p, NULL)]: the source is the C string at [p]. *)
Definition glShaderSource (id p : Z) : Proc Host unit :=
  src ← load_c_string p;
  modify_objs (fun o => set_shaders (alter (fun s =>
    mkShader (sh_type s) src (sh_compiled s) (sh_log s) (sh_deleted s)) id (shaders o)) o).

Definition glCompileShader `{GLSLDriver} (id : Z) : Proc Host unit :=
  modify_objs (fun o => set_shaders (alter (fun s =>
    let r := glsl_compile (sh_type s) (sh_source s) in
    mkShader (sh_type s) (sh_source s) r.1 r.2 (sh_deleted s)) id (shaders o)) o).

(** [GL_INFO_LOG_LENGTH] counts the terminating NUL, and is 0 for an
    empty log. *)
Definition log_length (log : string) : Z :=
  if String.eqb log "" then 0 else Z.of_nat (String.length log) + 1.

Definition glGetShaderiv (id : Z) (pname : iv_param) : Proc Host Z :=
  need_context ;; h ← get;
  match shaders (objs h) !! id with
  | Some s =>
      match pname with
      | GL_COMPILE_STATUS => mret (if sh_compiled s then 1 else 0)
      | GL_INFO_LOG_LENGTH => mret (log_length (sh_log s))
      | GL_LINK_STATUS => mret 0
      end
  | None => mret 0
  end.

(** [glGet*InfoLog(id, maxLength, NULL, buf)]: at most [maxLength - 1]
    characters and a NUL; with [maxLength <= 0] nothing is written, so
    the buffer holds no string. *)
Definition info_log (log : string) (maxLength : Z) : option string :=
  if (maxLength <=? 0)%Z then None
  else Some (String.substring 0 (Z.to_nat (maxLength - 1)) log).

Definition glGetShaderInfoLog (id maxLength : Z) : Proc Host (option string) :=
  need_context ;; h ← get;
  mret (info_log (default "" (sh_log <$> shaders (objs h) !! id)) maxLength).

Definition glCreateProgram : Proc Host Z :=
  n ← fresh_name;
  modify_objs (fun o => set_programs (<[n := mkProgram [] false ∅ "" false]> (programs o)) o) ;; mret n.

Definition glAttachShader (p s : Z) : Proc Host unit :=
  modify_objs (fun o => set_programs (alter (fun pr =>
    mkProgram (prog_shaders pr ++ [s]) (prog_linked pr) (prog_uniforms pr) (prog_log pr)
      (prog_deleted pr)) p (programs o)) o).

(** Linking fails when an attached shader did not compile; a program that
    is not linked has no active uniforms. *)
Definition glLinkProgram `{GLSLDriver} (p : Z) : Proc Host unit :=
  modify_objs (fun o => set_programs (alter (fun pr =>
    let att := omap (fun s => shaders o !! s) (prog_shaders pr) in
    let r := glsl_link att in
    let ok := forallb sh_compiled att && r.1.1 in
    mkProgram (prog_shaders pr) ok (if ok then r.1.2 else ∅) r.2 (prog_deleted pr)) p (programs o)) o).

Definition glGetProgramiv (p : Z) (pname : iv_param) : Proc Host Z :=
  need_context ;; h ← get;
  match programs (objs h) !! p with
  | Some pr =>
      match pname with
      | GL_LINK_STATUS => mret (if prog_linked pr then 1 else 0)
      | GL_INFO_LOG_LENGTH => mret (log_length (prog_log pr))
      | GL_COMPILE_STATUS => mret 0
      end
  | None => mret 0
  end.

Definition glGetProgramInfoLog (p maxLength : Z) : Proc Host (option string) :=
  need_context ;; h ← get;
  mret (info_log (default "" (prog_log <$> programs (objs h) !! p)) maxLength).

Definition glDeleteShader (s : Z) : Proc Host unit :=
  modify_objs (fun o => set_shaders (alter (fun x =>
    mkShader (sh_type x) (sh_source x) (sh_compiled x) (sh_log x) true) s (shaders o)) o).

Definition glDeleteProgram (p : Z) : Proc Host unit :=
  modify_objs (fun o => set_programs (alter (fun pr =>
    mkProgram (prog_shaders pr) (prog_linked pr) (prog_uniforms pr) (prog_log pr) true) p (programs o)) o).

Definition glGenVertexArrays : Proc Host Z :=
  n ← fresh_name;
  modify_objs (fun o => mkObjs (shaders o) (programs o) ({[n]} ∪ vertex_arrays o)
    (vertex_array_binding o) (buffers o) (array_buffer o) (next_name o)) ;; mret n.

Definition glBindVertexArray (n : Z) : Proc Host unit :=
  modify_objs (fun o => mkObjs (shaders o) (programs o) (vertex_arrays o) n
    (buffers o) (array_buffer o) (next_name o)).

Definition glDeleteVertexArrays (n : Z) : Proc Host unit :=
  modify_objs (fun o => mkObjs (shaders o) (programs o) (vertex_arrays o ∖ {[n]})
    (if Z.eqb (vertex_array_binding o) n then 0 else vertex_array_binding o)
    (buffers o) (array_buffer o) (next_name o)).

Definition glGenBuffers : Proc Host Z :=
  n ← fresh_name;
  modify_objs (fun o => mkObjs (shaders o) (programs o) (vertex_arrays o)
    (vertex_array_binding o) (<[n := []]> (buffers o)) (array_buffer o) (next_name o)) ;; mret n.

Definition glBindBuffer (n : Z) : Proc Host unit :=
  modify_objs (fun o => mkObjs (shaders o) (programs o) (vertex_arrays o)
    (vertex_array_binding o) (buffers o) n (next_name o)).

(** [glBufferData(GL_ARRAY_BUFFER, size, data, usage)] copies [size]
    bytes of the [GLfloat] array [data] into the bound buffer; reading
    past the array is undefined. *)
Definition glBufferData (size : Z) (data : list Q) : Proc Host unit :=
  if (4 * Z.of_nat (length data) <? size) then crash "glBufferData reads past its source"
  else modify_objs (fun o => mkObjs (shaders o) (programs o) (vertex_arrays o)
    (vertex_array_binding o) (<[array_buffer o := take (Z.to_nat (size / 4)) data]> (buffers o))
    (array_buffer o) (next_name o)).

Definition glDeleteBuffers (n : Z) : Proc Host unit :=
  modify_objs (fun o => mkObjs (shaders o) (programs o) (vertex_arrays o)
    (vertex_array_binding o) (delete n (buffers o))
    (if Z.eqb (array_buffer o) n then 0 else array_buffer o) (next_name o)).

(** [glClearColor] sets the colour [glClear] fills the back buffer with. *)
Definition glClearColor (r g b a : Q) : Proc Host unit :=
  need_context ;;
  modify (fun h => let w := glfw h in
    set_glfw (mkGLFW (glfw_inited w) (hints w) (window w) (context_current w)
                (glew_inited w) (callbacks w) (swap_interval w) (r, g, b, a)) h).

(** ** GLFW and GLEW *)

Definition modify_glfw (f : GLFW -> GLFW) : Proc Host unit :=
  modify (fun h => set_glfw (f (glfw h)) h).

Definition GLFW_TRUE : Z := 1.
Definition GLFW_SAMPLES : Z := 0x2100D.
Definition GLFW_CONTEXT_VERSION_MAJOR : Z := 0x22002.
Definition GLFW_CONTEXT_VERSION_MINOR : Z := 0x22003.
Definition GLFW_OPENGL_PROFILE : Z := 0x22008.
Definition GLFW_OPENGL_CORE_PROFILE : Z := 0x32001.
Definition GLEW_OK : Z := 0.

(** [glfwInit()]: [GLFW_TRUE] when the platform allows it. *)
Definition glfwInit : Proc Host Z :=
  h ← get;
  if can_init (platform h) then
    modify_glfw (fun w => mkGLFW true (hints w) (window w) (context_current w)
                           (glew_inited w) (callbacks w) (swap_interval w) (clear_color w)) ;;
    mret GLFW_TRUE
  else mret 0.

Definition glfwWindowHint (hint value : Z) : Proc Host unit :=
  modify_glfw (fun w => mkGLFW (glfw_inited w) (hints w ++ [(hint, value)]) (window w)
                         (context_current w) (glew_inited w) (callbacks w) (swap_interval w)
                         (clear_color w)).

(** [glfwCreateWindow(width, height, title, NULL, NULL)]: whether the
    returned pointer is non-null.  It needs an initialised GLFW. *)
Definition glfwCreateWindow (width height : Z) (title : string) : Proc Host bool :=
  h ← get;
  if glfw_inited (glfw h) && can_open_window (platform h) then
    modify_glfw (fun w => mkGLFW (glfw_inited w) (hints w)
                           (Some (mkWindowInfo width height title)) (context_current w)
                           (glew_inited w) (callbacks w) (swap_interval w) (clear_color w)) ;;
    mret true
  else mret false.

(** [glfwTerminate()] destroys the window and its context. *)
Definition glfwTerminate : Proc Host unit :=
  modify_glfw (fun w => mkGLFW false (hints w) None false (glew_inited w) (callbacks w)
                         (swap_interval w) (clear_color w)).

Definition glfwMakeContextCurrent : Proc Host unit :=
  modify_glfw (fun w => mkGLFW (glfw_inited w) (hints w) (window w) (bool_decide (is_Some (window w)))
                         (glew_inited w) (callbacks w) (swap_interval w) (clear_color w)).

(** [glewInit()] needs a current context. *)
Definition glewInit : Proc Host Z :=
  h ← get;
  if context_current (glfw h) && can_init_glew (platform h) then
    modify_glfw (fun w => mkGLFW (glfw_inited w) (hints w) (window w) (context_current w)
                           true (callbacks w) (swap_interval w) (clear_color w)) ;;
    mret GLEW_OK
  else mret 1.

Definition set_callbacks (f : Callbacks -> Callbacks) : Proc Host unit :=
  modify_glfw (fun w => mkGLFW (glfw_inited w) (hints w) (window w) (context_current w)
                         (glew_inited w) (f (callbacks w)) (swap_interval w) (clear_color w)).

Definition glfwSetWindowSizeCallback : Proc Host unit :=
  set_callbacks (fun c => mkCallbacks true (key_cb c) (button_cb c) (scroll_cb c) (cursor_cb c)).
Definition glfwSetKeyCallback : Proc Host unit :=
  set_callbacks (fun c => mkCallbacks (size_cb c) true (button_cb c) (scroll_cb c) (cursor_cb c)).
Definition glfwSetMouseButtonCallback : Proc Host unit :=
  set_callbacks (fun c => mkCallbacks (size_cb c) (key_cb c) true (scroll_cb c) (cursor_cb c)).
Definition glfwSetScrollCallback (f : dd_fn) : Proc Host unit :=
  set_callbacks (fun c => mkCallbacks (size_cb c) (key_cb c) (button_cb c) (Some f) (cursor_cb c)).
Definition glfwSetCursorPosCallback (f : dd_fn) : Proc Host unit :=
  set_callbacks (fun c => mkCallbacks (size_cb c) (key_cb c) (button_cb c) (scroll_cb c) (Some f)).

(** [glfwSwapInterval] acts on the current context. *)
Definition glfwSwapInterval (n : Z) : Proc Host unit :=
  need_context ;;
  modify_glfw (fun w => mkGLFW (glfw_inited w) (hints w) (window w) (context_current w)
                         (glew_inited w) (callbacks w) n (clear_color w)).


(** ** Running the calls *)

Section Runs.
Implicit Types (h : Host).

Lemma alter_lookup_Some {V} (f : V -> V) (m : gmap Z V) i x :
  m !! i = Some x -> alter f i m = <[i := f x]> m.
Proof. intros Hi. rewrite <- (insert_id m i x Hi) at 1. apply alter_insert_eq. Qed.


Lemma need_context_runs h : context_current (glfw h) = true -> runs need_context h tt h.
Proof. intros E. unfold runs, need_context, mbind, proc_bind, get. rewrite E. reflexivity. Qed.

(** A query: check the context, read the state, answer. *)
Lemma query_runs {A} h (k : Host -> Proc Host A) x h' :
  context_current (glfw h) = true -> runs (k h) h x h' ->
  runs (need_context ;; hh ← get; k hh) h x h'.
Proof.
  intros E R. eapply runs_bind; [apply need_context_runs, E|].
  eapply runs_bind; [apply runs_get | exact R].
Qed.

Lemma modify_objs_runs f h :
  context_current (glfw h) = true -> runs (modify_objs f) h tt (set_objs (f (objs h)) h).
Proof. intros E. eapply runs_bind; [apply need_context_runs, E | reflexivity]. Qed.

Lemma fresh_name_runs h :
  context_current (glfw h) = true ->
  runs fresh_name h (next_name (objs h)) (set_objs (bump_name (objs h)) h).
Proof.
  intros E. eapply runs_bind; [apply need_context_runs, E | reflexivity].
Qed.

Lemma printf_runs s h : runs (printf s) h tt (put_stdout s h).
Proof. reflexivity. Qed.

Lemma load_c_string_runs h p blk str :
  heap h !! Z.to_nat p = Some blk -> c_string blk = Some str -> runs (load_c_string p) h str h.
Proof.
  intros Hb Hs. unfold runs, load_c_string, mbind, proc_bind, get. rewrite Hb. cbn. rewrite Hs. reflexivity.
Qed.

Lemma glShaderSource_runs h id p blk str :
  context_current (glfw h) = true -> heap h !! Z.to_nat p = Some blk -> c_string blk = Some str ->
  runs (glShaderSource id p) h tt
    (set_objs (set_shaders (alter (fun s =>
       mkShader (sh_type s) str (sh_compiled s) (sh_log s) (sh_deleted s)) id (shaders (objs h))) (objs h)) h).
Proof.
  intros E Hb Hs. eapply runs_bind; [eapply load_c_string_runs; eassumption|].
  exact (modify_objs_runs _ _ E).
Qed.

Lemma glGetShaderiv_runs h id pname s :
  context_current (glfw h) = true -> shaders (objs h) !! id = Some s ->
  runs (glGetShaderiv id pname) h
    (match pname with
     | GL_COMPILE_STATUS => if sh_compiled s then 1 else 0
     | GL_INFO_LOG_LENGTH => log_length (sh_log s)
     | GL_LINK_STATUS => 0
     end) h.
Proof.
  intros E Hs. apply query_runs; [exact E|]. rewrite Hs. destruct pname; apply runs_ret.
Qed.

Lemma glGetShaderInfoLog_runs h id maxLength s :
  context_current (glfw h) = true -> shaders (objs h) !! id = Some s ->
  runs (glGetShaderInfoLog id maxLength) h (info_log (sh_log s) maxLength) h.
Proof.
  intros E Hs. apply query_runs; [exact E|]. rewrite Hs. apply runs_ret.
Qed.

Lemma glGetProgramiv_runs h p pname pr :
  context_current (glfw h) = true -> programs (objs h) !! p = Some pr ->
  runs (glGetProgramiv p pname) h
    (match pname with
     | GL_LINK_STATUS => if prog_linked pr then 1 else 0
     | GL_INFO_LOG_LENGTH => log_length (prog_log pr)
     | GL_COMPILE_STATUS => 0
     end) h.
Proof.
  intros E Hs. apply query_runs; [exact E|]. rewrite Hs. destruct pname; apply runs_ret.
Qed.

Lemma glGetProgramInfoLog_runs h p maxLength pr :
  context_current (glfw h) = true -> programs (objs h) !! p = Some pr ->
  runs (glGetProgramInfoLog p maxLength) h (info_log (prog_log pr) maxLength) h.
Proof.
  intros E Hs. apply query_runs; [exact E|]. rewrite Hs. apply runs_ret.
Qed.

(** The whole log fits a buffer of [GL_INFO_LOG_LENGTH] characters. *)
Lemma substring_all (str : string) : String.substring 0 (String.length str) str = str.
Proof. induction str as [|a str IH]; cbn; [reflexivity | now rewrite IH]. Qed.

Lemma info_log_length (log : string) :
  log <> "" -> info_log log (log_length log) = Some log.
Proof.
  intros Hne. unfold info_log, log_length.
  destruct (String.eqb_spec log "") as [->|_]; [congruence|].
  rewrite (proj2 (Z.leb_gt _ _)) by lia.
  rewrite Z.add_simpl_r, Nat2Z.id, substring_all. reflexivity.
Qed.

(** The C string of a block whose bytes are [c1], a NUL, then [c2]: the
    bytes before the first NUL. *)
Lemma c_string_nul (c1 c2 : list byte) :
  x00 ∉ c1 -> c_string (map Some (c1 ++ x00 :: c2)) = Some c1.
Proof.
  induction c1 as [|b c1 IH]; intros Hn; [reflexivity|].
  apply not_elem_of_cons in Hn as [Hb Hn]. cbn.
  destruct (Byte.eqb b x00) eqn:E; [apply Byte.byte_dec_bl in E; congruence|].
  rewrite (IH Hn). reflexivity.
Qed.

(** A block filled with bytes and a NUL holds a C string, whatever the
    bytes. *)
Lemma c_string_terminated (c : list byte) : is_Some (c_string (map Some (c ++ [x00]))).
Proof.
  induction c as [|b c IH]; [eexists; reflexivity|]. cbn.
  destruct (Byte.eqb b x00); [eexists; reflexivity|]. destruct IH as [str ->]. eexists. reflexivity.
Qed.

Lemma glCreateShader_runs h t :
  context_current (glfw h) = true ->
  runs (glCreateShader t) h (next_name (objs h))
    (set_objs (set_shaders (<[next_name (objs h) := mkShader t [] false "" false]> (shaders (objs h)))
                 (bump_name (objs h))) h).
Proof.
  intros E. eapply runs_bind; [apply fresh_name_runs, E|].
  eapply runs_bind; [refine (modify_objs_runs _ _ _); exact E | apply runs_ret].
Qed.

Lemma glCreateProgram_runs h :
  context_current (glfw h) = true ->
  runs glCreateProgram h (next_name (objs h))
    (set_objs (set_programs (<[next_name (objs h) := mkProgram [] false ∅ "" false]> (programs (objs h)))
                 (bump_name (objs h))) h).
Proof.
  intros E. eapply runs_bind; [apply fresh_name_runs, E|].
  eapply runs_bind; [refine (modify_objs_runs _ _ _); exact E | apply runs_ret].
Qed.

Lemma log_length_pos (log : string) : (0 < log_length log)%Z <-> log <> "".
Proof.
  unfold log_length. destruct (String.eqb_spec log "") as [->|Hne]; split; intros; lia || congruence.
Qed.

Lemma glGenBuffers_runs h :
  context_current (glfw h) = true ->
  runs glGenBuffers h (next_name (objs h))
    (set_objs (let o := bump_name (objs h) in
               mkObjs (shaders o) (programs o) (vertex_arrays o) (vertex_array_binding o)
                 (<[next_name (objs h) := []]> (buffers o)) (array_buffer o) (next_name o)) h).
Proof.
  intros E. eapply runs_bind; [apply fresh_name_runs, E|].
  eapply runs_bind; [refine (modify_objs_runs _ _ _); exact E | apply runs_ret].
Qed.

Lemma glBufferData_runs h size data :
  context_current (glfw h) = true -> (size <= 4 * Z.of_nat (length data))%Z ->
  runs (glBufferData size data) h tt
    (set_objs (let o := objs h in
               mkObjs (shaders o) (programs o) (vertex_arrays o) (vertex_array_binding o)
                 (<[array_buffer o := take (Z.to_nat (size / 4)) data]> (buffers o))
                 (array_buffer o) (next_name o)) h).
Proof.
  intros E Hs. unfold glBufferData. rewrite (proj2 (Z.ltb_ge _ _)) by lia.
  refine (modify_objs_runs _ _ _); exact E.
Qed.

End Runs.

(** ** What the calls never do

    With a current context no GL call ends the process and none releases
    the context: [ctx] is an invariant of each of them.  [glShaderSource]
    needs in addition a C string at the address it is given. *)

(** The context is current. *)
Definition ctx (h : Host) : Prop := context_current (glfw h) = true.

(** The block at [p] holds a C string. *)
Definition terminated (p : Z) (h : Host) : Prop := is_Some (heap h !! Z.to_nat p ≫= c_string).

Create HintDb host_triples.

(** Invariance of [I] through a computation: split binds and cases, and
    leave the primitive steps to [host_triples]. *)
Ltac inv_tac :=
  repeat match goal with
  | |- hoare _ (mbind _ _) (fun _ => _) _ => apply hoare_inv_bind; [| intros ?]
  | |- hoare _ (match ?x with _ => _ end) _ _ => destruct x
  | |- hoare _ (modify _) (fun _ => _) _ => apply hoare_inv_modify; intros ? ?; assumption
  | |- hoare _ (mret _) _ _ => apply hoare_ret; intros ? ?; assumption
  | |- hoare _ get _ _ => apply hoare_get; intros ? ?; assumption
  end; try solve [eauto with host_triples].

Section Triples.
Context `{GLSLDriver}.
Implicit Types (E : status -> Prop).

Lemma need_context_ctx E : hoare ctx need_context (fun _ => ctx) E.
Proof. intros h Hc. unfold ctx in Hc. unfold need_context, mbind, proc_bind, get. rewrite Hc. exact Hc. Qed.
#[local] Hint Resolve need_context_ctx : host_triples.

Lemma modify_objs_ctx f E : hoare ctx (modify_objs f) (fun _ => ctx) E.
Proof. unfold modify_objs. inv_tac. Qed.
#[local] Hint Resolve modify_objs_ctx : host_triples.

Lemma fresh_name_ctx E : hoare ctx fresh_name (fun _ => ctx) E.
Proof. unfold fresh_name. inv_tac. Qed.
#[local] Hint Resolve fresh_name_ctx : host_triples.

Lemma printf_inv (I : Host -> Prop) s E :
  (forall h, I h -> I (put_stdout s h)) -> hoare I (printf s) (fun _ => I) E.
Proof. intros HI. apply hoare_inv_modify, HI. Qed.

Lemma printf_ctx s E : hoare ctx (printf s) (fun _ => ctx) E.
Proof. apply printf_inv. intros h Hc. exact Hc. Qed.

Lemma load_c_string_ctx p E :
  hoare (fun h => ctx h /\ terminated p h) (load_c_string p) (fun _ => ctx) E.
Proof.
  intros h [Hc [str Hs]]. unfold load_c_string. rewrite (bind_inr _ _ h h h (runs_get h)).
  cbv beta. rewrite Hs. exact Hc.
Qed.

Lemma glShaderSource_ctx id p E :
  hoare (fun h => ctx h /\ terminated p h) (glShaderSource id p) (fun _ => ctx) E.
Proof.
  unfold glShaderSource. eapply hoare_bind; [apply load_c_string_ctx | intros ?; inv_tac].
Qed.

Lemma glBufferData_ctx size data E :
  (size <= 4 * Z.of_nat (length data))%Z -> hoare ctx (glBufferData size data) (fun _ => ctx) E.
Proof.
  intros Hs. unfold glBufferData. rewrite (proj2 (Z.ltb_ge _ _)) by lia. inv_tac.
Qed.

Lemma glCreateShader_ctx t E : hoare ctx (glCreateShader t) (fun _ => ctx) E.
Proof. unfold glCreateShader. inv_tac. Qed.
Lemma glCompileShader_ctx id E : hoare ctx (glCompileShader id) (fun _ => ctx) E.
Proof. unfold glCompileShader. inv_tac. Qed.
Lemma glGetShaderiv_ctx id pn E : hoare ctx (glGetShaderiv id pn) (fun _ => ctx) E.
Proof. unfold glGetShaderiv. inv_tac. Qed.
Lemma glGetShaderInfoLog_ctx id n E : hoare ctx (glGetShaderInfoLog id n) (fun _ => ctx) E.
Proof. unfold glGetShaderInfoLog. inv_tac. Qed.
Lemma glCreateProgram_ctx E : hoare ctx (glCreateProgram) (fun _ => ctx) E.
Proof. unfold glCreateProgram. inv_tac. Qed.
Lemma glAttachShader_ctx p s E : hoare ctx (glAttachShader p s) (fun _ => ctx) E.
Proof. unfold glAttachShader. inv_tac. Qed.
Lemma glLinkProgram_ctx p E : hoare ctx (glLinkProgram p) (fun _ => ctx) E.
Proof. unfold glLinkProgram. inv_tac. Qed.
Lemma glGetProgramiv_ctx p pn E : hoare ctx (glGetProgramiv p pn) (fun _ => ctx) E.
Proof. unfold glGetProgramiv. inv_tac. Qed.
Lemma glGetProgramInfoLog_ctx p n E : hoare ctx (glGetProgramInfoLog p n) (fun _ => ctx) E.
Proof. unfold glGetProgramInfoLog. inv_tac. Qed.
Lemma glDeleteShader_ctx s E : hoare ctx (glDeleteShader s) (fun _ => ctx) E.
Proof. unfold glDeleteShader. inv_tac. Qed.
Lemma glDeleteProgram_ctx p E : hoare ctx (glDeleteProgram p) (fun _ => ctx) E.
Proof. unfold glDeleteProgram. inv_tac. Qed.
Lemma glGenVertexArrays_ctx E : hoare ctx (glGenVertexArrays) (fun _ => ctx) E.
Proof. unfold glGenVertexArrays. inv_tac. Qed.
Lemma glBindVertexArray_ctx n E : hoare ctx (glBindVertexArray n) (fun _ => ctx) E.
Proof. unfold glBindVertexArray. inv_tac. Qed.
Lemma glDeleteVertexArrays_ctx n E : hoare ctx (glDeleteVertexArrays n) (fun _ => ctx) E.
Proof. unfold glDeleteVertexArrays. inv_tac. Qed.
Lemma glGenBuffers_ctx E : hoare ctx (glGenBuffers) (fun _ => ctx) E.
Proof. unfold glGenBuffers. inv_tac. Qed.
Lemma glBindBuffer_ctx n E : hoare ctx (glBindBuffer n) (fun _ => ctx) E.
Proof. unfold glBindBuffer. inv_tac. Qed.
Lemma glDeleteBuffers_ctx n E : hoare ctx (glDeleteBuffers n) (fun _ => ctx) E.
Proof. unfold glDeleteBuffers. inv_tac. Qed.

End Triples.

#[export] Hint Resolve need_context_ctx modify_objs_ctx fresh_name_ctx printf_ctx
  glCreateShader_ctx glCompileShader_ctx glGetShaderiv_ctx glGetShaderInfoLog_ctx
  glCreateProgram_ctx glAttachShader_ctx glLinkProgram_ctx glGetProgramiv_ctx
  glGetProgramInfoLog_ctx glDeleteShader_ctx glDeleteProgram_ctx glGenVertexArrays_ctx
  glBindVertexArray_ctx glDeleteVertexArrays_ctx glGenBuffers_ctx glBindBuffer_ctx
  glDeleteBuffers_ctx : host_triples.

End Host.
