(* ===== verification/Shaders.v ===== *)
(** * Shader loading: [readFile], [CompileShader] and [LoadShaders]

    main.cpp lines 38-110, call by call, over the host of Host.v.
    [readFile] does not check [fopen]'s result, so a missing file ends
    the process at [fseek]; its buffer is never freed.  [CompileShader]
    prints the info log when compilation fails; [LoadShaders] creates,
    compiles, attaches and links, prints the link log when there is one,
    flags both shaders for deletion and returns the program, whether or
    not it linked: the link status it reads into [Result] is not used.
    The triples of this file list the ways the loader can end the
    process ([shader_ends]). *)

From Stdlib Require Import QArith ZArith Strings.Byte.
From stdpp Require Import base gmap strings list pretty.
From S2P Require Import Process Host.
Import Process Host.

Module Shaders.
Local Open Scope Z_scope.

Definition GL_FALSE : Z := 0.

(** [int(fsize)]: a [long] narrowed to a 32-bit [int]. *)
Definition to_int (z : Z) : Z := (z + 2 ^ 31) mod 2 ^ 32 - 2 ^ 31.

(** [readFile]: the address of a fresh block holding the file's bytes and
    a NUL.  [fseek]/[ftell] give the size; [fread] copies the bytes. *)
Definition readFile (filename : string) : Proc Host Z :=
  f ← fopen filename;
  match f with
  | None => crash "fseek on a null FILE*"
  | Some bytes =>
      let fsize := Z.of_nat (length bytes) in
      printf ("Reading " +:+ filename +:+ ", Filesize = " +:+ pretty (to_int fsize) +:+ nl) ;;
      string ← malloc (fsize + 1);
      store_bytes string 0 bytes ;;
      store_bytes string fsize [x00] ;;
      mret string
  end.

(** Printing the message buffer [char ShaderErrorMessage[InfoLogLength]]:
    when nothing was written into it there is no string to print. *)
Definition print_log (msg : option string) (suffix : string) : Proc Host unit :=
  match msg with
  | Some m => printf (m +:+ suffix)
  | None => crash "printf of an uninitialised buffer"
  end.

Section Driver.
Context `{GLSLDriver}.

Definition CompileShader (file_path : string) (ShaderID : Z) : Proc Host unit :=
  ShaderCode ← readFile file_path;
  printf ("Compiling shader : " +:+ file_path +:+ nl) ;;
  glShaderSource ShaderID ShaderCode ;;
  glCompileShader ShaderID ;;
  Result ← glGetShaderiv ShaderID GL_COMPILE_STATUS;
  InfoLogLength ← glGetShaderiv ShaderID GL_INFO_LOG_LENGTH;
  if Z.eqb Result GL_FALSE then
    msg ← glGetShaderInfoLog ShaderID InfoLogLength;
    print_log msg ""
  else mret ().

Definition LoadShaders (vertex_file_path fragment_file_path : string) : Proc Host Z :=
  printf ("Creating shaders" +:+ nl) ;;
  VertexShaderID ← glCreateShader GL_VERTEX_SHADER;
  FragmentShaderID ← glCreateShader GL_FRAGMENT_SHADER;
  CompileShader vertex_file_path VertexShaderID ;;
  CompileShader fragment_file_path FragmentShaderID ;;
  printf ("Create and linking program" +:+ nl) ;;
  ProgramID ← glCreateProgram;
  glAttachShader ProgramID VertexShaderID ;;
  glAttachShader ProgramID FragmentShaderID ;;
  glLinkProgram ProgramID ;;
  Result ← glGetProgramiv ProgramID GL_LINK_STATUS;
  InfoLogLength ← glGetProgramiv ProgramID GL_INFO_LOG_LENGTH;
  (if 0 <? InfoLogLength then
     msg ← glGetProgramInfoLog ProgramID InfoLogLength;
     print_log msg nl
   else mret ()) ;;
  glDeleteShader VertexShaderID ;;
  glDeleteShader FragmentShaderID ;;
  mret ProgramID.

End Driver.

(** ** Running the shader loader *)

Section Runs.
Implicit Types (h : Host) (c : list byte).

(** The block [readFile] fills: the bytes, then the NUL. *)
Lemma fill_block (hp : list (list (option byte))) c :
  alter (list_inserts (Z.to_nat (Z.of_nat (length c))) [Some x00]) (Z.to_nat (Z.of_nat (length hp)))
    (alter (list_inserts (Z.to_nat 0) (map Some c)) (Z.to_nat (Z.of_nat (length hp)))
       (hp ++ [replicate (Z.to_nat (Z.of_nat (length c) + 1)) None]))
  = hp ++ [map Some (c ++ [x00])].
Proof.
  rewrite !Nat2Z.id, Z2Nat.inj_add, Nat2Z.id by lia.
  rewrite (alter_app_r_alt _ hp), Nat.sub_diag by lia. cbn [alter list_alter Z.to_nat].
  rewrite (alter_app_r_alt _ hp), Nat.sub_diag by lia. cbn [alter list_alter].
  rewrite replicate_add. cbn [replicate].
  rewrite list_inserts_0_r by (rewrite length_map, length_replicate; reflexivity).
  rewrite <- (Nat.add_0_r (length c)) at 1. rewrite <- (length_map Some c) at 1.
  rewrite list_inserts_app_r, map_app. reflexivity.
Qed.

Lemma readFile_runs h name c :
  files h !! name = Some c ->
  runs (readFile name) h (Z.of_nat (length (heap h)))
    (set_heap (heap h ++ [map Some (c ++ [x00])])
      (put_stdout ("Reading " +:+ name +:+ ", Filesize = " +:+
                   pretty (to_int (Z.of_nat (length c))) +:+ nl) h)).
Proof.
  intros Hf. unfold readFile. eapply runs_bind.
  { unfold runs, fopen, mbind, proc_bind, get, mret, proc_ret. rewrite Hf. reflexivity. }
  cbv [runs mbind proc_bind printf malloc store_bytes modify get mret proc_ret set_heap put_stdout].
  cbn -[pretty list_inserts String.append alter replicate].
  rewrite fill_block. reflexivity.
Qed.

Lemma readFile_stops h name :
  files h !! name = None -> stops (readFile name) h (Crash "fseek on a null FILE*") h.
Proof.
  intros Hf. unfold readFile. eapply stops_bind_r.
  - unfold runs, fopen, mbind, proc_bind, get, mret, proc_ret. rewrite Hf. reflexivity.
  - reflexivity.
Qed.

End Runs.

(** The steps of [CompileShader] up to its test of the compile status:
    read the file, print, set the source, compile, query the status and
    the log length. *)
Local Ltac compile_prefix E Hf Hn Hs :=
  proc_step ltac:(apply readFile_runs, Hf);
  proc_step ltac:(apply printf_runs);
  proc_step ltac:(eapply glShaderSource_runs;
    [exact E | cbn; rewrite lookup_app_r, Nat2Z.id, Nat.sub_diag by lia; reflexivity
    | apply (c_string_nul _ []), Hn]);
  proc_step ltac:(refine (modify_objs_runs _ _ _); exact E);
  cbn [set_objs set_shaders put_stdout set_heap objs shaders];
  erewrite !alter_lookup_Some by (rewrite ?lookup_insert_eq, ?lookup_alter_eq, ?Hs; reflexivity);
  rewrite insert_insert_eq;
  do 2 proc_step ltac:(apply glGetShaderiv_runs; [exact E | apply lookup_insert_eq]);
  cbn [sh_type sh_source sh_compiled sh_log sh_deleted].

Section CompileRuns.
Context `{GLSLDriver}.
Implicit Types (h : Host) (c : list byte).

(** The shader [id] once its source is [c] and it has been compiled. *)
Definition compiled_shader (s : Shader) c : Shader :=
  let r := glsl_compile (sh_type s) c in mkShader (sh_type s) c r.1 r.2 (sh_deleted s).

(** What [CompileShader] prints: the reading and compiling lines, and
    the info log of a failed compilation. *)
Definition compile_output (path : string) c (s : Shader) : list string :=
  ["Reading " +:+ path +:+ ", Filesize = " +:+ pretty (to_int (Z.of_nat (length c))) +:+ nl;
   "Compiling shader : " +:+ path +:+ nl] ++
  (if sh_compiled s then [] else [sh_log s +:+ ""]).

(** A failed compilation leaves a log to print. *)
Definition reported (s : Shader) : Prop := sh_compiled s = true \/ sh_log s <> "".

Lemma CompileShader_runs h path id c s :
  context_current (glfw h) = true -> files h !! path = Some c -> x00 ∉ c ->
  shaders (objs h) !! id = Some s -> reported (compiled_shader s c) ->
  exists h', runs (CompileShader path id) h tt h' /\
    heap h' = heap h ++ [map Some (c ++ [x00])] /\
    stdout h' = stdout h ++ compile_output path c (compiled_shader s c) /\
    objs h' = set_shaders (<[id := compiled_shader s c]> (shaders (objs h))) (objs h) /\
    glfw h' = glfw h /\ files h' = files h /\ stderr h' = stderr h /\ platform h' = platform h.
Proof.
  intros E Hf Hn Hs Hrep. unfold CompileShader.
  destruct Hrep as [Hok | Hlog]; destruct (sh_compiled (compiled_shader s c)) eqn:Hc; try congruence;
    unfold compiled_shader in *; cbn [sh_compiled sh_log] in *;
    (eexists; split;
    [ compile_prefix E Hf Hn Hs; rewrite Hc; cbn [Z.eqb GL_FALSE];
      first
        [ apply runs_ret
        | eapply runs_bind; [apply glGetShaderInfoLog_runs; [exact E | apply lookup_insert_eq]|];
          rewrite info_log_length by assumption; apply printf_runs ]
    | cbn; rewrite <- ?app_assoc; unfold compile_output; cbn [sh_compiled sh_log]; rewrite Hc, ?app_nil_r;
      repeat split ]).
Qed.

Definition fresh_shader (t : shader_type) : Shader := mkShader t [] false "" false.

Definition delete_flagged (s : Shader) : Shader :=
  mkShader (sh_type s) (sh_source s) (sh_compiled s) (sh_log s) true.

(** The program [glLinkProgram] makes of the attached shaders [att]. *)
Definition linked_program (ids : list Z) (att : list Shader) (deleted : bool) : Program :=
  let r := glsl_link att in
  let ok := forallb sh_compiled att && r.1.1 in
  mkProgram ids ok (if ok then r.1.2 else ∅) r.2 deleted.

Lemma LoadShaders_runs h vs fs cv cf :
  context_current (glfw h) = true ->
  files h !! vs = Some cv -> files h !! fs = Some cf -> x00 ∉ cv -> x00 ∉ cf ->
  reported (compiled_shader (fresh_shader GL_VERTEX_SHADER) cv) ->
  reported (compiled_shader (fresh_shader GL_FRAGMENT_SHADER) cf) ->
  let n := next_name (objs h) in
  let sv := compiled_shader (fresh_shader GL_VERTEX_SHADER) cv in
  let sf := compiled_shader (fresh_shader GL_FRAGMENT_SHADER) cf in
  exists h', runs (LoadShaders vs fs) h (n + 2) h' /\
    heap h' = heap h ++ [map Some (cv ++ [x00]); map Some (cf ++ [x00])] /\
    shaders (objs h') = <[n + 1 := delete_flagged sf]> (<[n := delete_flagged sv]> (shaders (objs h))) /\
    programs (objs h') = <[n + 2 := linked_program [n; n + 1] [sv; sf] false]> (programs (objs h)) /\
    next_name (objs h') = n + 3 /\ glfw h' = glfw h /\ files h' = files h /\
    vertex_arrays (objs h') = vertex_arrays (objs h) /\
    vertex_array_binding (objs h') = vertex_array_binding (objs h) /\
    buffers (objs h') = buffers (objs h) /\ array_buffer (objs h') = array_buffer (objs h).
Proof.
  intros E Hv Hf Hnv Hnf Hrv Hrf n sv sf.
  unfold LoadShaders.
  set (h1 := set_objs (set_shaders (<[n + 1 := fresh_shader GL_FRAGMENT_SHADER]>
               (<[n := fresh_shader GL_VERTEX_SHADER]> (shaders (objs h))))
               (bump_name (bump_name (objs h)))) (put_stdout ("Creating shaders" +:+ nl) h)).
  destruct (CompileShader_runs h1 vs n cv (fresh_shader GL_VERTEX_SHADER)) as
    (h2 & R2 & Heap2 & Out2 & Objs2 & G2 & F2 & _ & _); [exact E | exact Hv | exact Hnv | | exact Hrv |].
  { cbn. rewrite lookup_insert_ne, lookup_insert_eq by lia. reflexivity. }
  destruct (CompileShader_runs h2 fs (n + 1) cf (fresh_shader GL_FRAGMENT_SHADER)) as
    (h3 & R3 & Heap3 & Out3 & Objs3 & G3 & F3 & _ & _);
    [rewrite G2; exact E | rewrite F2; exact Hf | exact Hnf | | exact Hrf |].
  { rewrite Objs2. cbn. rewrite lookup_insert_ne, lookup_insert_eq by lia. reflexivity. }
  assert (E3 : context_current (glfw h3) = true) by (rewrite G3, G2; exact E).
  assert (Nn : next_name (objs h3) = n + 2) by (rewrite Objs3, Objs2; cbn; lia).
  destruct (decide ((glsl_link [sv; sf]).2 = "")) as [Hl|Hl];
  (eexists; split;
  [ eapply runs_bind; [apply printf_runs|];
    eapply runs_bind; [apply glCreateShader_runs, E|];
    eapply runs_bind; [apply glCreateShader_runs, E|];
    eapply runs_bind; [exact R2|];
    eapply runs_bind; [exact R3|];
    eapply runs_bind; [apply printf_runs|];
    eapply runs_bind; [apply glCreateProgram_runs; exact E3|];
    cbn [objs put_stdout]; rewrite Nn;
    do 3 (eapply runs_bind; [refine (modify_objs_runs _ _ _); exact E3|]);
    cbn [objs set_objs put_stdout set_programs set_shaders bump_name programs shaders next_name];
    fold n; rewrite Objs3, Objs2;
    cbn [objs set_objs put_stdout set_programs set_shaders bump_name programs shaders next_name];
    erewrite !alter_lookup_Some by (repeat rewrite ?lookup_alter_eq, ?lookup_insert_eq; reflexivity);
    rewrite !insert_insert_eq;
    cbn [prog_shaders prog_linked prog_uniforms prog_log prog_deleted app omap list_omap];
    rewrite lookup_insert_ne, !lookup_insert_eq by lia; fold sv sf;
    do 2 (eapply runs_bind; [apply glGetProgramiv_runs; [exact E3 | apply lookup_insert_eq]|]);
    cbn [prog_log];
    eapply runs_bind;
    [ first
        [ rewrite Hl; apply runs_ret
        | rewrite (proj2 (Z.ltb_lt _ _)) by (apply log_length_pos; exact Hl);
          eapply runs_bind; [apply glGetProgramInfoLog_runs; [exact E3 | apply lookup_insert_eq]|];
          cbn [prog_log]; rewrite info_log_length by exact Hl; apply printf_runs ]
    |];
    do 2 (eapply runs_bind; [refine (modify_objs_runs _ _ _); exact E3|]);
    apply runs_ret
  | idtac ]).
  all: cbn [heap shaders programs next_name glfw files objs set_objs set_programs set_shaders
             put_stdout set_heap bump_name];
    rewrite ?Heap3, ?Heap2, ?G3, ?G2, ?F3, ?F2, ?Objs3, ?Objs2;
    cbn [heap shaders programs next_name glfw files objs set_objs set_programs set_shaders
         put_stdout set_heap bump_name].
  all: unfold h1; cbn [heap shaders programs next_name glfw files objs set_objs set_programs
                         set_shaders put_stdout set_heap bump_name];
    (split; [rewrite <- app_assoc; reflexivity|]);
    (split; [apply map_eq; intros i; repeat rewrite ?lookup_alter, ?lookup_insert;
             unfold delete_flagged; repeat case_decide; subst; try lia; reflexivity|]);
    (split; [unfold linked_program; cbn; rewrite ?Hl; reflexivity|]);
    (split; [lia | repeat split]).
Qed.

End CompileRuns.

(** ** Properties of the shader loader *)

(** ** How the shader loader can end the process

    With a current context, [readFile] ends the process only at the
    [fseek] on a missing file, and [CompileShader] and [LoadShaders] in
    addition only at the [printf] of an info-log buffer nothing was
    written into.  None of them releases the context, and the source
    [glShaderSource] reads is always a C string. *)

(** The two ways the shader loader ends the process. *)
Definition shader_ends (st : status) : Prop :=
  st = Crash "fseek on a null FILE*" \/ st = Crash "printf of an uninitialised buffer".

Section Triples.
Context `{GLSLDriver}.
Implicit Types (E : status -> Prop).

Lemma readFile_triple name E :
  E (Crash "fseek on a null FILE*") ->
  hoare ctx (readFile name) (fun p h => ctx h /\ terminated p h) E.
Proof.
  intros HE h Hc. destruct (files h !! name) as [c|] eqn:F.
  - pose proof (readFile_runs h name c F) as R. unfold runs in R. rewrite R.
    split; [exact Hc|]. unfold terminated. cbn [heap set_heap put_stdout].
    rewrite Nat2Z.id, lookup_app_r, Nat.sub_diag by lia. apply c_string_terminated.
  - pose proof (readFile_stops h name F) as R. unfold stops in R. rewrite R. exact HE.
Qed.

Lemma print_log_ctx msg suffix E :
  E (Crash "printf of an uninitialised buffer") -> hoare ctx (print_log msg suffix) (fun _ => ctx) E.
Proof. intros HE. destruct msg; [apply printf_inv; intros h Hc; exact Hc | apply hoare_crash, HE]. Qed.

Lemma CompileShader_triple path id :
  hoare ctx (CompileShader path id) (fun _ => ctx) shader_ends.
Proof.
  unfold CompileShader.
  hoare_step ltac:(apply readFile_triple; left; reflexivity).
  hoare_step ltac:(apply printf_inv; intros h Hc; exact Hc).
  hoare_step ltac:(apply glShaderSource_ctx).
  inv_tac. apply print_log_ctx. right. reflexivity.
Qed.

Lemma LoadShaders_triple vs fs :
  hoare ctx (LoadShaders vs fs) (fun _ => ctx) shader_ends.
Proof.
  unfold LoadShaders. inv_tac; [apply CompileShader_triple.. |].
  apply print_log_ctx. right. reflexivity.
Qed.

End Triples.

Section Props.
Context `{GLSLDriver}.
Implicit Types (h : Host) (c : list byte).

(** C25: the source [glShaderSource] receives from [readFile]'s buffer is
    the file's bytes up to the first NUL: all of them when the file has
    none.  The buffer stays allocated. *)
Theorem readFile_source h name c c1 :
  files h !! name = Some c -> x00 ∉ c1 -> (c = c1 \/ exists c2, c = c1 ++ x00 :: c2) ->
  exists h', runs (p ← readFile name; load_c_string p) h c1 h' /\
    heap h' = heap h ++ [map Some (c ++ [x00])].
Proof.
  intros Hf Hn Hc. eexists. split.
  - eapply runs_bind; [apply readFile_runs, Hf|].
    eapply load_c_string_runs.
    + cbn. rewrite lookup_app_r, Nat2Z.id, Nat.sub_diag by lia. reflexivity.
    + destruct Hc as [-> | (c2 & ->)]; [apply (c_string_nul c1 []), Hn|].
      rewrite <- app_assoc. apply c_string_nul, Hn.
  - reflexivity.
Qed.

(** C26: [LoadShaders] does not check that the shader files exist: when
    the vertex shader's file is missing, or the fragment shader's file is
    missing after the vertex shader compiled, the process ends at the
    [fseek] on the null [FILE*], before any program is created. *)
Theorem LoadShaders_missing_file h vs fs cv :
  context_current (glfw h) = true ->
  files h !! vs = None \/
  (files h !! vs = Some cv /\ (x00 ∉ cv) /\
   reported (compiled_shader (fresh_shader GL_VERTEX_SHADER) cv) /\ files h !! fs = None) ->
  exists h', stops (LoadShaders vs fs) h (Crash "fseek on a null FILE*") h' /\
    programs (objs h') = programs (objs h).
Proof.
  intros E Hmiss. unfold LoadShaders.
  set (h1 := set_objs (set_shaders (<[next_name (objs h) + 1 := fresh_shader GL_FRAGMENT_SHADER]>
               (<[next_name (objs h) := fresh_shader GL_VERTEX_SHADER]> (shaders (objs h))))
               (bump_name (bump_name (objs h)))) (put_stdout ("Creating shaders" +:+ nl) h)).
  destruct Hmiss as [Hv | (Hv & Hn & Hr & Hf)].
  - exists h1. split; [|reflexivity].
    do 3 (eapply stops_bind_r; [first [apply printf_runs | apply glCreateShader_runs, E]|]).
    apply stops_bind_l. unfold CompileShader. apply stops_bind_l, readFile_stops, Hv.
  - destruct (CompileShader_runs h1 vs (next_name (objs h)) cv (fresh_shader GL_VERTEX_SHADER))
      as (h2 & R2 & _ & _ & Objs2 & _ & F2 & _ & _); [exact E | exact Hv | exact Hn | | exact Hr |].
    { cbn. rewrite lookup_insert_ne, lookup_insert_eq by lia. reflexivity. }
    exists h2. split; [|rewrite Objs2; reflexivity].
    do 3 (eapply stops_bind_r; [first [apply printf_runs | apply glCreateShader_runs, E]|]).
    eapply stops_bind_r; [exact R2|]. apply stops_bind_l. unfold CompileShader.
    apply stops_bind_l, readFile_stops. rewrite F2. exact Hf.
Qed.

(** C31: [CompileShader] sizes its message buffer by
    [GL_INFO_LOG_LENGTH] and prints it when compilation fails.  When a
    driver fails a compilation without a log, the length is 0: the
    zero-length array receives no string and [printf("%s")] reads
    uninitialised memory. *)
Theorem CompileShader_empty_log h path id c s :
  context_current (glfw h) = true -> files h !! path = Some c -> x00 ∉ c ->
  shaders (objs h) !! id = Some s -> glsl_compile (sh_type s) c = (false, "") ->
  exists h', stops (CompileShader path id) h (Crash "printf of an uninitialised buffer") h'.
Proof.
  intros E Hf Hn Hs Hcomp. unfold CompileShader. eexists.
  compile_prefix E Hf Hn Hs. rewrite Hcomp. cbn [fst snd Z.eqb GL_FALSE].
  eapply stops_bind_r; [apply glGetShaderInfoLog_runs; [exact E | apply lookup_insert_eq]|].
  reflexivity.
Qed.

(** C27: the program [LoadShaders] returns is linked exactly when both
    shaders compiled and the linker accepted them; otherwise it has no
    active uniform, so every [glGetUniformLocation] on it gives -1.  Its
    two shaders are attached in order and flagged for deletion, and the
    two source buffers [readFile] allocated are still on the heap. *)
Theorem LoadShaders_program h vs fs cv cf :
  context_current (glfw h) = true ->
  files h !! vs = Some cv -> files h !! fs = Some cf -> x00 ∉ cv -> x00 ∉ cf ->
  reported (compiled_shader (fresh_shader GL_VERTEX_SHADER) cv) ->
  reported (compiled_shader (fresh_shader GL_FRAGMENT_SHADER) cf) ->
  let sv := compiled_shader (fresh_shader GL_VERTEX_SHADER) cv in
  let sf := compiled_shader (fresh_shader GL_FRAGMENT_SHADER) cf in
  exists p h' pr, runs (LoadShaders vs fs) h p h' /\ programs (objs h') !! p = Some pr /\
    (prog_linked pr = true <->
       sh_compiled sv = true /\ sh_compiled sf = true /\ (glsl_link [sv; sf]).1.1 = true) /\
    prog_uniforms pr = (if prog_linked pr then (glsl_link [sv; sf]).1.2 else ∅) /\
    prog_shaders pr = [p - 2; p - 1] /\
    shaders (objs h') !! (p - 2) = Some (delete_flagged sv) /\
    shaders (objs h') !! (p - 1) = Some (delete_flagged sf) /\
    heap h' = heap h ++ [map Some (cv ++ [x00]); map Some (cf ++ [x00])].
Proof.
  intros E Hv Hf Hnv Hnf Hrv Hrf sv sf.
  destruct (LoadShaders_runs h vs fs cv cf E Hv Hf Hnv Hnf Hrv Hrf)
    as (h' & R & Heap & Sh & Pr & _).
  set (n := next_name (objs h)) in *.
  exists (n + 2), h', (linked_program [n; n + 1] [sv; sf] false).
  split; [exact R|]. rewrite Pr, lookup_insert_eq. split; [reflexivity|].
  replace (n + 2 - 2) with n by lia. replace (n + 2 - 1) with (n + 1) by lia.
  unfold linked_program; cbn [prog_linked prog_uniforms prog_shaders forallb].
  rewrite andb_true_r, Sh, Heap, lookup_insert_eq, lookup_insert_ne, lookup_insert_eq by lia.
  split; [rewrite !andb_true_iff; tauto|]. repeat split.
Qed.

End Props.

(** ** Witnesses *)

(** A driver that compiles every source and links any pair, with the
    seven uniforms of the frame exporter at locations 0 to 6. *)
Definition accepting_driver : GLSLDriver := {|
  glsl_compile t src := (true, "");
  glsl_link att := (true, list_to_map (zip ["resx"; "resy"; "minx"; "miny"; "dx"; "dy"; "drawMandelbrot"]
                                             [0; 1; 2; 3; 4; 5; 6]), "")
|}.
#[local] Existing Instance accepting_driver.

Definition shader_files : gmap string (list byte) :=
  <["vertex_shader.vs" := String.list_byte_of_string "void main() {}"]>
  {["fragment_shader.fs" := String.list_byte_of_string "void main() {}"]}.

(** A host whose GL context is current. *)
Definition gl_ready (fs : gmap string (list byte)) : Host :=
  set_glfw (mkGLFW true [] (Some (mkWindowInfo 1600 900 "Mandelbrot")) true true no_callbacks 1
             (0, 0, 0, 0)%Q) (boot (mkPlatform true true true) fs).

Lemma readFile_source_witness :
  exists h', runs (p ← readFile "vertex_shader.vs"; load_c_string p) (gl_ready shader_files)
               (String.list_byte_of_string "void main() {}") h' /\
    heap h' = heap (gl_ready shader_files) ++ [map Some (String.list_byte_of_string "void main() {}" ++ [x00])].
Proof.
  apply (readFile_source _ _ (String.list_byte_of_string "void main() {}")); [reflexivity | apply (bool_decide_unpack _); vm_compute; reflexivity | left; reflexivity].
Defined.

Lemma LoadShaders_missing_file_witness :
  exists h', stops (LoadShaders "vertex_shader.vs" "fragment_shader.fs") (gl_ready ∅)
               (Crash "fseek on a null FILE*") h' /\
    programs (objs h') = programs (objs (gl_ready ∅)).
Proof. apply (LoadShaders_missing_file _ _ _ []); [reflexivity | left; reflexivity]. Defined.

Lemma LoadShaders_program_witness :
  let c := String.list_byte_of_string "void main() {}" in
  let sv := compiled_shader (fresh_shader GL_VERTEX_SHADER) c in
  let sf := compiled_shader (fresh_shader GL_FRAGMENT_SHADER) c in
  exists p h' pr, runs (LoadShaders "vertex_shader.vs" "fragment_shader.fs") (gl_ready shader_files) p h' /\
    programs (objs h') !! p = Some pr /\
    (prog_linked pr = true <->
       sh_compiled sv = true /\ sh_compiled sf = true /\ (glsl_link [sv; sf]).1.1 = true) /\
    prog_uniforms pr = (if prog_linked pr then (glsl_link [sv; sf]).1.2 else ∅) /\
    prog_shaders pr = [p - 2; p - 1] /\
    shaders (objs h') !! (p - 2) = Some (delete_flagged sv) /\
    shaders (objs h') !! (p - 1) = Some (delete_flagged sf) /\
    heap h' = heap (gl_ready shader_files) ++ [map Some (c ++ [x00]); map Some (c ++ [x00])].
Proof.
  intros c sv sf.
  apply (LoadShaders_program (gl_ready shader_files) "vertex_shader.vs" "fragment_shader.fs" c c);
    solve [reflexivity | apply (bool_decide_unpack _); vm_compute; reflexivity | left; reflexivity].
Defined.

(** A driver that fails every compilation without a log. *)
Definition silent_driver : GLSLDriver := {|
  glsl_compile t src := (false, "");
  glsl_link att := (false, ∅, "")
|}.

Lemma CompileShader_empty_log_witness :
  exists h', stops (@CompileShader silent_driver "vertex_shader.vs" 1)
               (set_objs (mkObjs {[1 := fresh_shader GL_VERTEX_SHADER]} ∅ ∅ 0 ∅ 0 2)
                  (gl_ready shader_files))
               (Crash "printf of an uninitialised buffer") h'.
Proof.
  apply (@CompileShader_empty_log silent_driver _ _ _ (String.list_byte_of_string "void main() {}")
           (fresh_shader GL_VERTEX_SHADER));
    solve [reflexivity | apply (bool_decide_unpack _); vm_compute; reflexivity].
Defined.

End Shaders.
