(* ===== verification/Init.v ===== *)
(** * [initGL]: GLFW, the window, GLEW and the callbacks

    main.cpp lines 236-275, call by call.  Each failure prints a message
    and ends the process: [exit(-1)] when [glfwInit] fails, [exit(-2)]
    after [glfwTerminate] when the window cannot be opened, [exit(-3)]
    when GLEW cannot be initialised (its message goes to stderr).  The
    window is opened at the globals' resolution, converted to [int]; the
    five callbacks are registered, then the swap interval and the clear
    colour are set.  [glewExperimental = true] is a flag GLEW reads and
    is not modelled.

    [glfw_dispatch] is how GLFW delivers an event: to the callback
    registered for its kind, if any.  Its agreement with [Input.dispatch]
    once [initGL] has run is what lets the rest of the development use
    [Input.dispatch]. *)

From Stdlib Require Import QArith ZArith Strings.Byte.
From stdpp Require Import base gmap strings list.
From S2P Require Import Prelude Process Host Viewport GL Input.
Import Process Host Viewport GL Input.

Module Init.

Section Init.
Context {D : Type} `{Double D}.

Definition initGL : Proc Host unit :=
  printf ("Initializing OpenGL/GLFW" +:+ nl) ;;
  ok ← glfwInit;
  (if Z.eqb ok 0 then printf ("Could not initialize" +:+ nl) ;; exit_ (-1) else mret ()) ;;
  glfwWindowHint GLFW_SAMPLES 4 ;;
  glfwWindowHint GLFW_CONTEXT_VERSION_MAJOR 4 ;;
  glfwWindowHint GLFW_CONTEXT_VERSION_MINOR 0 ;;
  glfwWindowHint GLFW_OPENGL_PROFILE GLFW_OPENGL_CORE_PROFILE ;;
  window ← glfwCreateWindow (dtrunc (resx (@initial_viewport D _)))
                            (dtrunc (resy (@initial_viewport D _))) "Mandelbrot";
  (if negb window
   then printf ("Could not open glfw window" +:+ nl) ;; glfwTerminate ;; exit_ (-2)
   else mret ()) ;;
  glfwMakeContextCurrent ;;
  printf ("Initializing GLEW" +:+ nl) ;;
  r ← glewInit;
  (if negb (Z.eqb r GLEW_OK) then eprintf ("Failed to initialize GLEW" +:+ nl) ;; exit_ (-3)
   else mret ()) ;;
  glfwSetWindowSizeCallback ;;
  glfwSetKeyCallback ;;
  glfwSetMouseButtonCallback ;;
  glfwSetScrollCallback mousewheel_fn ;;
  glfwSetCursorPosCallback mousepos_fn ;;
  glfwSwapInterval 1 ;;
  glClearColor 0 0 (4 # 10) 0.

(** A [void (GLFWwindow*, double, double)] callback in the scroll slot.
    Scroll offsets are whole notches in this development, so the wheel
    handler gets them as they are and the cursor handler gets them as
    doubles. *)
Definition call_scroll (f : dd_fn) (xo : D) (yo : Z) (a : App D) : App D :=
  match f with
  | mousewheel_fn => mousewheel_callback xo yo a
  | mousepos_fn => mousepos_callback xo (dof_int yo) a
  end.

(** The same in the cursor slot: the wheel handler would read the
    position as a scroll offset, of which the whole part is kept. *)
Definition call_cursor (f : dd_fn) (x y : D) (a : App D) : App D :=
  match f with
  | mousepos_fn => mousepos_callback x y a
  | mousewheel_fn => mousewheel_callback x (dtrunc y) a
  end.

(** GLFW's delivery of one event: the window's own bookkeeping (the
    cursor position, the close flag), then the registered callback. *)
Definition glfw_dispatch (cbs : Callbacks) (e : event D) (a : App D) : App D :=
  match e with
  | EvWindowSize w h => if size_cb cbs then windowsize_callback w h a else a
  | EvKey k s act m => if key_cb cbs then key_callback k s act m a else a
  | EvMouseButton b act m => if button_cb cbs then mousebutton_callback b act m a else a
  | EvCursorPos x y =>
      let a' := set_window (mkWindow (should_close (win a)) x y) a in
      match cursor_cb cbs with Some f => call_cursor f x y a' | None => a' end
  | EvScroll xo yo => match scroll_cb cbs with Some f => call_scroll f xo yo a | None => a end
  | EvCloseButton => set_window (mkWindow true (cursor_x (win a)) (cursor_y (win a))) a
  end.

End Init.

(** ** What [initGL] leaves behind *)

Section Props.
Context {D : Type} `{Double D}.

(** All five callbacks, each in its own slot. *)
Definition all_callbacks : Callbacks :=
  mkCallbacks true true true (Some mousewheel_fn) (Some mousepos_fn).

(** The GLFW state after a successful [initGL].  The clear colour's
    [0.4f] is kept as the rational 0.4. *)
Definition ready_glfw : GLFW :=
  mkGLFW true
    [(GLFW_SAMPLES, 4); (GLFW_CONTEXT_VERSION_MAJOR, 4); (GLFW_CONTEXT_VERSION_MINOR, 0);
     (GLFW_OPENGL_PROFILE, GLFW_OPENGL_CORE_PROFILE)]%Z
    (Some (mkWindowInfo (dtrunc (resx (@initial_viewport D _))) (dtrunc (resy (@initial_viewport D _)))
             "Mandelbrot"))
    true true all_callbacks 1 (0, 0, 4 # 10, 0)%Q.

(** The host after a successful [initGL]: its two progress lines
    printed, GLFW ready, nothing else changed. *)
Definition ready_host (p : Platform) (fs : gmap string (list byte)) : Host :=
  mkHost p fs ["Initializing OpenGL/GLFW" +:+ nl; "Initializing GLEW" +:+ nl] [] []
    ready_glfw (objs (boot p fs)).

Lemma initGL_runs p fs :
  can_init p = true -> can_open_window p = true -> can_init_glew p = true ->
  runs (@initGL D _) (boot p fs) tt (ready_host p fs).
Proof.
  destruct p as [[] [] []]; cbn [can_init can_open_window can_init_glew]; intros; try discriminate.
  unfold runs. cbv -[dtrunc resx resy initial_viewport]. reflexivity.
Qed.

Lemma glfw_dispatch_all (e : event D) a : glfw_dispatch all_callbacks e a = dispatch e a.
Proof. destruct e; reflexivity. Qed.

(** The exit codes of [initGL]. *)
Definition init_ends (st : status) : Prop :=
  st = ExitCode (-1) \/ st = ExitCode (-2) \/ st = ExitCode (-3).

(** From boot, [initGL] ends the process only with its three exit codes,
    and otherwise returns with the context current. *)
Lemma initGL_triple p fs :
  hoare (eq (boot p fs)) (@initGL D _) (fun _ => ctx) init_ends.
Proof.
  intros h <-. destruct p as [[] [] []]; cbv -[dtrunc resx resy initial_viewport];
    first [reflexivity | pick_end].
Qed.

(** C24: [initGL] ends the process with the code of the first step that
    fails: [-1] when GLFW cannot be initialised, [-2] (after
    [glfwTerminate]) when the window cannot be opened, [-3] (with its
    message on stderr) when GLEW cannot be initialised; when all succeed
    it returns with the 1600x900 window, its context current, the four
    hints, the five callbacks, swap interval 1 and the clear colour set,
    and no GL object or heap block created. *)
Theorem initGL_exit_codes (p : Platform) (fs : gmap string (list byte)) :
  (can_init p = false ->
   exists h', stops (@initGL D _) (boot p fs) (ExitCode (-1)) h' /\ window (glfw h') = None) /\
  (can_init p = true -> can_open_window p = false ->
   exists h', stops (@initGL D _) (boot p fs) (ExitCode (-2)) h' /\
     glfw_inited (glfw h') = false /\ window (glfw h') = None) /\
  (can_init p = true -> can_open_window p = true -> can_init_glew p = false ->
   exists h', stops (@initGL D _) (boot p fs) (ExitCode (-3)) h' /\
     stderr h' = ["Failed to initialize GLEW" +:+ nl]) /\
  (can_init p = true -> can_open_window p = true -> can_init_glew p = true ->
   exists h', runs (@initGL D _) (boot p fs) tt h' /\ glfw h' = ready_glfw /\
     objs h' = objs (boot p fs) /\ heap h' = []).
Proof.
  destruct p as [[] [] []]; cbn [can_init can_open_window can_init_glew];
    repeat split; intros; try discriminate; eexists; unfold stops, runs;
    cbv -[dtrunc resx resy initial_viewport]; (split; [reflexivity | repeat split]).
Qed.

End Props.

(** ** Witnesses *)

Definition all_ok : Platform := mkPlatform true true true.

Lemma initGL_exit_codes_witness :
  exists h', runs (@initGL Q _) (boot all_ok ∅) tt h' /\ glfw h' = ready_glfw /\
    objs h' = objs (boot all_ok ∅) /\ heap h' = [].
Proof.
  destruct (@initGL_exit_codes Q _ all_ok ∅) as (_ & _ & _ & H4).
  apply H4; reflexivity.
Defined.

End Init.
