(* ===== verification/Main.v ===== *)
(** * [main], from [initGL] to [glfwTerminate]

    main.cpp lines 123-152 over the host of Host.v: [initGL], the vertex
    array object, [LoadShaders], the vertex buffer filled with
    [vertex_buffer_data] (lines 30-35), then [RTT] and the render loop of
    Loop.v, then the clean-up.  The loop runs on the GL context as the
    frame exporter sees it ([context_gl]): the linked program's active
    uniforms, an empty uniform store, and the default viewport, the
    window's size.  [Loop.main] delivers events through
    [Input.dispatch], which Init.v shows to be GLFW's delivery through
    the callbacks [initGL] registers.  [return 0] ends the process with
    exit code 0; a loop still waiting for events is [Waiting].  The
    triples [main_setup_triple] and [main_cleanup_triple] give the ways
    [main] can end ([main_ends]). *)

From Stdlib Require Import QArith ZArith Strings.Byte Lia.
From stdpp Require Import base gmap strings list.
From S2P Require Import Prelude Process Host Viewport GL Input Loop Shaders Init.
Import Process Host Viewport GL Input Loop Shaders Init.

Module Main.

(** [static const GLfloat vertex_buffer_data[]]: the four corners of the
    clip-space square, in triangle-strip order. *)
Definition vertex_buffer_data : list Q :=
  [-1; -1; 0;
    1; -1; 0;
   -1;  1; 0;
    1;  1; 0]%Q.

(** [sizeof] of a [GLfloat] array. *)
Definition sizeof_floats (l : list Q) : Z := 4 * Z.of_nat (length l).

(** The vertex fetch of a draw call: [count] vertices from [first] on,
    each [size] tightly packed floats of the bound buffer; a vertex that
    does not fit in the buffer is read out of bounds. *)
Fixpoint fetch_vertices (buf : list Q) (size first count : nat) : option (list (list Q)) :=
  match count with
  | O => Some []
  | S c =>
      let v := take size (drop (first * size) buf) in
      if Nat.eqb (length v) size
      then vs ← fetch_vertices buf size (S first) c; Some (v :: vs)
      else None
  end.

(** Lines 227-231 of [Draw] (and 189-193 of [RTT]): attribute 0 is a
    [vec3] of [GL_FLOAT]s with stride 0 at offset 0, and
    [glDrawArrays(GL_TRIANGLE_STRIP, 0, 4)] draws vertices 0 to 3. *)
Definition draw_vertices (buf : list Q) : option (list (list Q)) := fetch_vertices buf 3 0 4.

Section Main.
Context {D : Type} `{Double D} `{GLSLDriver}.

(** Lines 124-136: everything before [RTT()].  Returns the names of the
    vertex array, the program and the vertex buffer. *)
Definition main_setup : Proc Host (Z * Z * Z) :=
  @initGL D _ ;;
  VertexArrayID ← glGenVertexArrays;
  glBindVertexArray VertexArrayID ;;
  programID ← LoadShaders "vertex_shader.vs" "fragment_shader.fs";
  vertexbuffer ← glGenBuffers;
  glBindBuffer vertexbuffer ;;
  glBufferData (sizeof_floats vertex_buffer_data) vertex_buffer_data ;;
  mret (VertexArrayID, programID, vertexbuffer).

(** Lines 145-151: the clean-up after the loop, and [return 0]. *)
Definition main_cleanup (VertexArrayID programID vertexbuffer : Z) : Proc Host (outcome D) :=
  glDeleteBuffers vertexbuffer ;;
  glDeleteVertexArrays VertexArrayID ;;
  glDeleteProgram programID ;;
  glfwTerminate ;;
  exit_ 0.

(** The GL context the frame exporter works on once the program is
    linked: its active uniforms, nothing uploaded yet, nothing drawn,
    the viewport of a new context (the window's size). *)
Definition context_gl (h : Host) (programID : Z) : GLState D :=
  mkGL (default ∅ (prog_uniforms <$> programs (objs h) !! programID)) ∅ Cleared []
       (match window (glfw h) with
        | Some w => (0, 0, win_width w, win_height w)
        | None => (0, 0, 0, 0)
        end)%Z.

(** [main] on the window's initial cursor position [(cx, cy)] and the
    batches of events the polls deliver. *)
Definition main_program (cx cy : D) (batches : list (list (event D))) : Proc Host (outcome D) :=
  '(VertexArrayID, programID, vertexbuffer) ← main_setup;
  h ← get;
  match Loop.main cx cy (context_gl h programID) batches with
  | Exited _ => main_cleanup VertexArrayID programID vertexbuffer
  | Waiting a => mret (Waiting a)
  end.

End Main.

(** ** Running [main] *)

Section Runs.
Context {D : Type} `{Double D} `{GLSLDriver}.

Definition vs_path : string := "vertex_shader.vs".
Definition fs_path : string := "fragment_shader.fs".

(** What [main] needs of the machine: GLFW, the window and GLEW start,
    both shader files are there without a NUL byte, and a failed
    compilation reports why. *)
Record machine_ok (p : Platform) (fs : gmap string (list byte)) (cv cf : list byte) : Prop := {
  ok_init : can_init p = true;
  ok_window : can_open_window p = true;
  ok_glew : can_init_glew p = true;
  ok_vs : fs !! vs_path = Some cv;
  ok_fs : fs !! fs_path = Some cf;
  ok_vs_nul : x00 ∉ cv;
  ok_fs_nul : x00 ∉ cf;
  ok_vs_rep : reported (compiled_shader (fresh_shader GL_VERTEX_SHADER) cv);
  ok_fs_rep : reported (compiled_shader (fresh_shader GL_FRAGMENT_SHADER) cf)
}.

(** The host once the vertex array object is bound. *)
Definition vao_host (p : Platform) fs : Host :=
  set_objs (mkObjs ∅ ∅ {[1%Z]} 1 ∅ 0 2) (@ready_host D _ p fs).

Lemma main_setup_runs p fs cv cf :
  machine_ok p fs cv cf ->
  let sv := compiled_shader (fresh_shader GL_VERTEX_SHADER) cv in
  let sf := compiled_shader (fresh_shader GL_FRAGMENT_SHADER) cf in
  exists h', runs (@main_setup D _ _) (boot p fs) (1, 4, 5)%Z h' /\
    programs (objs h') = {[4%Z := linked_program [2; 3]%Z [sv; sf] false]} /\
    shaders (objs h') = <[3%Z := delete_flagged sf]> {[2%Z := delete_flagged sv]} /\
    vertex_arrays (objs h') = {[1%Z]} /\ vertex_array_binding (objs h') = 1%Z /\
    buffers (objs h') = {[5%Z := vertex_buffer_data]} /\ array_buffer (objs h') = 5%Z /\
    next_name (objs h') = 6%Z /\
    glfw h' = @ready_glfw D _ /\ files h' = fs /\
    heap h' = [map Some (cv ++ [x00]); map Some (cf ++ [x00])].
Proof.
  intros [Hi Hw Hg Hv Hf Hnv Hnf Hrv Hrf] sv sf.
  destruct (LoadShaders_runs (vao_host p fs) vs_path fs_path cv cf)
    as (h3 & R3 & Heap3 & Sh3 & Pr3 & N3 & G3 & F3 & Va3 & Vb3 & B3 & Ab3); try assumption; [reflexivity|].
  cbn [vao_host set_objs objs next_name shaders programs heap ready_host] in *.
  assert (E3 : context_current (glfw h3) = true) by (rewrite G3; reflexivity).
  eexists. split.
  - unfold main_setup.
    eapply runs_bind; [apply initGL_runs; assumption|].
    eapply runs_bind; [unfold runs; reflexivity|].
    eapply runs_bind; [unfold runs; reflexivity|].
    eapply runs_bind; [exact R3|].
    eapply runs_bind; [apply glGenBuffers_runs, E3|]. rewrite N3.
    eapply runs_bind; [refine (modify_objs_runs _ _ _); exact E3|].
    eapply runs_bind; [apply glBufferData_runs; [exact E3 | unfold sizeof_floats; lia]|].
    apply runs_ret.
  - cbn. rewrite Pr3, Sh3, Heap3, N3, G3, F3, ?Va3, ?Vb3, ?B3, ?Ab3. cbn.
    repeat split.
Qed.

Lemma main_cleanup_stops h vao prog vbo :
  context_current (glfw h) = true ->
  exists h', stops (@main_cleanup D vao prog vbo) h (ExitCode 0) h' /\
    buffers (objs h') = delete vbo (buffers (objs h)) /\
    vertex_arrays (objs h') = vertex_arrays (objs h) ∖ {[vao]} /\
    programs (objs h') = alter (fun pr => mkProgram (prog_shaders pr) (prog_linked pr)
                                   (prog_uniforms pr) (prog_log pr) true) prog (programs (objs h)) /\
    glfw_inited (glfw h') = false /\ window (glfw h') = None /\ heap h' = heap h.
Proof.
  intros E. eexists. split.
  - unfold main_cleanup.
    do 3 (eapply stops_bind_r; [refine (modify_objs_runs _ _ _); exact E|]).
    eapply stops_bind_r; [apply runs_modify|]. reflexivity.
  - repeat split.
Qed.

End Runs.

(** ** How [main] can end *)

Section Triples.
Context {D : Type} `{Double D} `{GLSLDriver}.

(** The ways the start-up code ends the process. *)
Definition setup_ends (st : status) : Prop := init_ends st \/ shader_ends st.

(** [main]'s exit codes: [return 0], and those of the start-up code. *)
Definition main_ends (st : status) : Prop := st = ExitCode 0 \/ setup_ends st.

Lemma main_setup_triple p fs :
  hoare (eq (boot p fs)) (@main_setup D _ _) (fun _ => ctx) setup_ends.
Proof.
  unfold main_setup.
  hoare_step ltac:(eapply hoare_weaken;
    [apply (initGL_triple p fs) | auto | intros ? ? Hc; exact Hc | intros ? ?; left; assumption]).
  hoare_step ltac:(apply glGenVertexArrays_ctx).
  hoare_step ltac:(apply glBindVertexArray_ctx).
  hoare_step ltac:(eapply hoare_weaken;
    [apply LoadShaders_triple | auto | intros ? ? Hc; exact Hc | intros ? ?; right; assumption]).
  hoare_step ltac:(apply glGenBuffers_ctx).
  hoare_step ltac:(apply glBindBuffer_ctx).
  hoare_step ltac:(apply glBufferData_ctx; vm_compute; discriminate).
  apply hoare_ret. auto.
Qed.

Lemma main_cleanup_triple vao prog vbo :
  hoare ctx (@main_cleanup D vao prog vbo) (fun _ _ => False) (fun st => st = ExitCode 0).
Proof.
  unfold main_cleanup.
  hoare_step ltac:(apply glDeleteBuffers_ctx).
  hoare_step ltac:(apply glDeleteVertexArrays_ctx).
  hoare_step ltac:(apply glDeleteProgram_ctx).
  eapply hoare_bind with (Q := fun _ _ => True); [apply hoare_modify; auto | intros _].
  apply hoare_exit. reflexivity.
Qed.

End Triples.

(** ** A program without active uniforms *)

Section Blank.
Context {D : Type} `{Double D}.
Implicit Types (a : App D) (gl : GLState D).

(** With no active uniform every stanza's location is -1: nothing is
    uploaded. *)
Lemma upload_uniforms_unlinked ps gl : locations gl = ∅ -> upload_uniforms ps gl = gl.
Proof.
  intros E. revert gl E. induction ps as [|np ps IH]; intros gl E; [reflexivity|].
  rewrite upload_uniforms_cons. unfold upload_uniform, glGetUniformLocation at 1. rewrite E.
  apply IH, E.
Qed.

(** The loop state of a program without active uniforms: nothing in the
    uniform store, and every presented frame drawn from the empty store. *)
Definition blank a : Prop :=
  locations (gl a) = ∅ /\ uniform_store (gl a) = ∅ /\ Forall (eq (Drawn ∅)) (presented (gl a)).

Lemma blank_dispatch e a : blank a -> blank (dispatch e a).
Proof.
  intros (L & U & P). unfold blank. rewrite dispatch_presented.
  destruct e; cbn [dispatch windowsize_callback key_callback mousebutton_callback
                   mousewheel_callback set_window gl glViewport locations uniform_store];
    try unfold mousepos_callback; try destruct (first_held _); cbn; auto.
Qed.

Lemma blank_poll es a : blank a -> blank (poll es a).
Proof.
  revert a. induction es as [|e es IH]; intros a Ha; [exact Ha|].
  rewrite poll_cons. apply IH, blank_dispatch, Ha.
Qed.

Lemma blank_draw a : blank a -> blank (draw_frame a).
Proof.
  intros (L & U & P). unfold blank, draw_frame. cbn [gl].
  unfold Draw. rewrite upload_uniforms_unlinked by exact L.
  cbn. rewrite L, U. split; [reflexivity | split; [reflexivity|]].
  apply Forall_app; split; [exact P | constructor; [reflexivity | constructor]].
Qed.

Lemma blank_main_loop bs a : blank a -> blank (final_state (main_loop bs a)).
Proof.
  revert a. induction bs as [|es bs IH]; intros a Ha; cbn [main_loop];
    destruct (should_close (win a)); cbn [final_state]; try exact Ha.
  - apply blank_draw, Ha.
  - apply IH, blank_poll, blank_draw, Ha.
Qed.

Lemma blank_rtt a : blank a -> blank (rtt_frame a).
Proof.
  intros (L & U & P). unfold blank, rtt_frame, RTT. cbn [gl].
  rewrite upload_uniforms_unlinked by exact L. cbn. auto.
Qed.

End Blank.

(** ** Properties of [main] *)

Section Props.
Context {D : Type} `{Double D} `{GLSLDriver}.

(** C28: a close request ends [main]: on a machine where it starts, if
    the first batch of events holding ESC or a click on the close button
    is the [k]-th poll, [main] leaves the loop after [k+1] frames, deletes
    the vertex buffer and the vertex array object, flags the program for
    deletion, terminates GLFW and ends with exit code 0.  The two shader
    source buffers are still allocated at that point. *)
Theorem main_exits_after_close p fs cv cf (cx cy : D) pre es post :
  machine_ok p fs cv cf ->
  Forall (fun b => existsb closes b = false) pre -> existsb closes es = true ->
  exists h', stops (main_program cx cy (pre ++ es :: post)) (boot p fs) (ExitCode 0) h' /\
    buffers (objs h') = ∅ /\ vertex_arrays (objs h') = ∅ /\
    option_map prog_deleted (programs (objs h') !! 4%Z) = Some true /\
    glfw_inited (glfw h') = false /\ window (glfw h') = None /\
    heap h' = [map Some (cv ++ [x00]); map Some (cf ++ [x00])].
Proof.
  intros Hok Hpre Hes.
  destruct (@main_setup_runs D _ _ p fs cv cf Hok)
    as (hS & RS & PrS & _ & VaS & _ & BS & _ & _ & GS & _ & HeapS).
  destruct (@main_cleanup_stops D hS 1 4 5) as (h' & SC & Bc & Vc & Pc & Ic & Wc & Hc);
    [rewrite GS; reflexivity|].
  exists h'. split.
  - unfold main_program. eapply stops_bind_r; [exact RS|].
    eapply stops_bind_r; [apply runs_get|]. unfold Loop.main.
    destruct (main_loop_stops pre es post (rtt_frame (initial_app cx cy (context_gl hS 4)))
                eq_refl Hpre Hes) as (a' & -> & _).
    exact SC.
  - rewrite Bc, Vc, Pc, Ic, Wc, Hc, BS, VaS, PrS.
    repeat split. exact HeapS.
Qed.

(** C29: the vertex data and the draw call agree: the buffer [main]
    fills, [sizeof(vertex_buffer_data)] bytes, holds the four [vec3]
    vertices the draw call reads as attribute 0, and they are the corners
    of the clip-space square in triangle-strip order, so the two
    triangles cover the whole viewport. *)
Theorem draw_reads_quad p fs cv cf :
  machine_ok p fs cv cf ->
  exists h', runs (@main_setup D _ _) (boot p fs) (1, 4, 5)%Z h' /\
    (buffers (objs h') !! array_buffer (objs h') ≫= draw_vertices) =
      Some [[-1; -1; 0]; [1; -1; 0]; [-1; 1; 0]; [1; 1; 0]]%Q.
Proof.
  intros Hok.
  destruct (@main_setup_runs D _ _ p fs cv cf Hok) as (hS & RS & _ & _ & _ & _ & BS & AbS & _).
  exists hS. split; [exact RS|]. rewrite BS, AbS. reflexivity.
Qed.

(** C30: [LoadShaders] reads the link status and ignores it.  When a
    shader does not compile or the program does not link, [main] draws
    with the unlinked program anyway: it has no active uniform, so no
    camera parameter or toggle ever reaches the shader, and every frame
    the loop presents is drawn from the empty uniform store, whatever the
    events. *)
Theorem unlinked_program_draws_blank p fs cv cf (cx cy : D) :
  machine_ok p fs cv cf ->
  let sv := compiled_shader (fresh_shader GL_VERTEX_SHADER) cv in
  let sf := compiled_shader (fresh_shader GL_FRAGMENT_SHADER) cf in
  sh_compiled sv && sh_compiled sf && (glsl_link [sv; sf]).1.1 = false ->
  exists h', runs (@main_setup D _ _) (boot p fs) (1, 4, 5)%Z h' /\
    locations (@context_gl D h' 4) = ∅ /\
    forall batches, Forall (eq (Drawn ∅))
      (presented (gl (final_state (Loop.main cx cy (context_gl h' 4) batches)))).
Proof.
  intros Hok sv sf Hfail.
  destruct (@main_setup_runs D _ _ p fs cv cf Hok) as (hS & RS & PrS & _).
  fold sv sf in PrS. clearbody sv sf.
  assert (L : locations (@context_gl D hS 4) = ∅).
  { unfold context_gl. cbn [locations]. rewrite PrS, lookup_singleton_eq. cbn.
    rewrite andb_true_r, Hfail. reflexivity. }
  exists hS. split; [exact RS|]. split; [exact L|].
  intros batches. apply blank_main_loop, blank_rtt.
  split; [exact L | split; [reflexivity | constructor]].
Qed.

(** C15: on every machine, with any shader files, any GLSL compiler and
    linker and any events, [main] either is still running its loop or
    has ended the process in one of these ways: [return 0] after the
    clean-up; [exit(-1)], [exit(-2)] or [exit(-3)] in [initGL]; the crash
    at [fseek] on a missing shader file; or the crash at the [printf] of
    an info-log buffer nothing was written into.  In particular no GL
    call is made without a current context, [glShaderSource] always gets
    a C string, and [glBufferData] never reads past [vertex_buffer_data]. *)
Theorem main_program_ends p fs (cx cy : D) bs :
  hoare (eq (boot p fs)) (main_program cx cy bs) (fun o _ => exists a, o = Waiting a) main_ends.
Proof.
  unfold main_program.
  hoare_step ltac:(eapply hoare_weaken;
    [apply (main_setup_triple p fs) | auto | intros ? ? Hc; exact Hc | intros ? ?; right; assumption]).
  match goal with x : (Z * Z * Z)%type |- _ => destruct x as [[vao prog] vbo] end.
  eapply hoare_bind with (Q := fun _ => ctx); [apply hoare_get; intros ? Hc; exact Hc | intros h].
  destruct (Loop.main _ _ _ _).
  - eapply hoare_weaken; [apply main_cleanup_triple | auto | contradiction | intros ? ->; left; reflexivity].
  - apply hoare_ret. eauto.
Qed.

End Props.

(** ** Witnesses *)

(** A driver whose linker rejects every program. *)
Definition rejecting_driver : GLSLDriver := {|
  glsl_compile t src := (true, "");
  glsl_link att := (false, ∅, "error: linking failed")
|}.

Definition void_main : list byte := String.list_byte_of_string "void main() {}".

Lemma machine_ok_shader_files (d : GLSLDriver) :
  (forall t, (@glsl_compile d t void_main).1 = true) ->
  machine_ok all_ok shader_files void_main void_main.
Proof.
  intros Hc. constructor; try reflexivity;
    solve [apply (bool_decide_unpack _); vm_compute; reflexivity | left; apply Hc].
Qed.

Local Open Scope Q_scope.

Lemma main_exits_after_close_witness :
  let pre : list (list (event Q)) := [[EvScroll 0 1; EvCursorPos 5 5]] in
  let es : list (event Q) := [EvKey GLFW_KEY_ESCAPE 9 GLFW_PRESS 0] in
  exists h', stops (@main_program Q _ accepting_driver 0 0 (pre ++ es :: []))
               (boot all_ok shader_files) (ExitCode 0) h' /\
    buffers (objs h') = ∅ /\ vertex_arrays (objs h') = ∅ /\
    option_map prog_deleted (programs (objs h') !! 4%Z) = Some true /\
    glfw_inited (glfw h') = false /\ window (glfw h') = None /\
    heap h' = [map Some (void_main ++ [x00]); map Some (void_main ++ [x00])].
Proof.
  intros pre es.
  apply (@main_exits_after_close Q _ accepting_driver all_ok shader_files void_main void_main
           0 0 pre es []).
  - apply machine_ok_shader_files. reflexivity.
  - repeat constructor.
  - reflexivity.
Defined.

Lemma draw_reads_quad_witness :
  exists h', runs (@main_setup Q _ accepting_driver) (boot all_ok shader_files) (1, 4, 5)%Z h' /\
    (buffers (objs h') !! array_buffer (objs h') ≫= draw_vertices) =
      Some [[-1; -1; 0]; [1; -1; 0]; [-1; 1; 0]; [1; 1; 0]].
Proof.
  apply (@draw_reads_quad Q _ accepting_driver all_ok shader_files void_main void_main).
  apply machine_ok_shader_files. reflexivity.
Defined.

Lemma unlinked_program_draws_blank_witness :
  let sv := @compiled_shader rejecting_driver (fresh_shader GL_VERTEX_SHADER) void_main in
  let sf := @compiled_shader rejecting_driver (fresh_shader GL_FRAGMENT_SHADER) void_main in
  (sh_compiled sv && sh_compiled sf && (@glsl_link rejecting_driver [sv; sf]).1.1 = false)%bool /\
  exists h', runs (@main_setup Q _ rejecting_driver) (boot all_ok shader_files) (1, 4, 5)%Z h' /\
    locations (@context_gl Q h' 4) = ∅ /\
    forall batches, Forall (eq (Drawn ∅))
      (presented (gl (final_state (Loop.main 0 0 (context_gl h' 4) batches)))).
Proof.
  intros sv sf. split; [reflexivity|].
  apply (@unlinked_program_draws_blank Q _ rejecting_driver all_ok shader_files void_main void_main 0 0).
  - apply machine_ok_shader_files. reflexivity.
  - reflexivity.
Defined.

End Main.
